(* ===== verification/_CoqProject ===== *)
-Q . S2P
Prelude.v
Storage.v
Hashing.v
CommitIndex.v
Timestamp.v
Snapshot.v
Timeline.v
Dashboard.v
App.v
Watchlist.v
Daemon.v
Lifecycle.v
Cli.v
System.v
