(* ===== verification/Prelude.v ===== *)
(** * filegit: a verification development of a per-file version-control tool

    ** The program

    filegit ([src/filegit.py], [src/filegit_daemon.py]) keeps the history of
    single files in [~/.filegit]: a content-addressed store [objects/<sha256>],
    an SQLite table [commits] (id, path, digest, message, ISO timestamp,
    type auto/manual), a watch list [watchlist.json], and the pid and log
    files of a background watcher.  Two processes share that state with no
    lock: the Textual dashboard ([DashboardApp]: snapshot, promote with a
    message, restore, forget, and the timeline it displays) and the daemon
    ([run_daemon]: a watchdog observer whose [on_modified] runs
    [create_auto_snapshot]).  The click group [cli] runs one of eight
    commands per invocation: [init], [timeline] (the dashboard), [watch],
    [unwatch], [watch-list] and [daemon-start/stop/status].

    ** The files

    - [Prelude.v] (this file): notations, the result type [res] of Python
      calls that may raise ([failure] lists the exceptions), the hash
      interface [Hasher] with its laws [HexDigests] and [CollisionFree], a
      concrete executable hasher [hex_hasher] (["0"] then the hex encoding
      of the bytes: injective and hex, used only by the witnesses; SHA-256
      itself is not modelled, and the theorems that need injectivity assume
      [CollisionFree]), Python truthiness, shared list and string lemmas,
      the hint databases [filegit] and [filegit_simpl].
    - [Storage.v]: [get_file_hash], the copies into and out of the store
      ([shutil.copy]), and [objects_wf], the store's integrity.
    - [Hashing.v]: the read loop of [get_file_hash] ([f.read(8192)] until
      empty, [hasher.update]) over an incremental hasher class
      [HashStream] with its laws, run with fuel; [chunks], the list of
      reads, is defined by well-founded recursion with Equations.
    - [CommitIndex.v]: the [commits] table as a list of rows in rowid order
      plus the AUTOINCREMENT counter; [INSERT], [UPDATE ... WHERE id],
      [DELETE ... WHERE file_path], and [ORDER BY timestamp DESC] as a stable
      insertion sort ([select_history], [select_last_hash]); [index_wf].
    - [Timestamp.v]: the stored timestamps: a naive [datetime] with the
      ranges its constructor enforces, [isoformat()] (zero-padded fields,
      microseconds only when non-zero), [fromisoformat] (the extended
      ISO form of a naive datetime, [ValueError] otherwise),
      [strftime('%y-%m-%d %H:%M:%S')] and [format_timestamp].
    - [Snapshot.v]: the daemon's [create_auto_snapshot] and the dashboard's
      [action_add_snapshot] on a [disk] (files, store, index).
    - [Timeline.v]: [load_timeline], [update_header], [update_views], the
      row key ["hash|prev|id|type"] with Python's [str.split('|', 4)],
      [str()] and [int()], and the abstract timeline of the design
      ([build]/[render]).
    - [Dashboard.v]: [action_commit_message], [action_restore_selected], and
      the two-press forget protocol with its 5-second timer.
    - [App.v]: [DashboardApp] as a whole: its state, [BINDINGS] dispatch,
      [refresh_all] (the table's rows with [format_timestamp] applied, which
      may raise), the row-highlight and timer events, the value the commit
      input screen returns, and the [init]/[timeline] commands; a run ends
      at the first exception with the disk as the handlers left it.
    - [Watchlist.v]: [get_watchlist]/[save_watchlist] over what [json.load]
      finds, and the [watch], [unwatch], [watch-list] commands.
    - [Daemon.v]: [run_daemon]'s start-up, the observer's directory filter,
      [on_modified] (over the snapshot routine it calls), and the exits of
      the main loop.
    - [Lifecycle.v]: [daemon-start], [daemon-stop], [daemon-status] over a
      host with a pid file, a log and a process table.
    - [Cli.v]: the click group [cli] dispatching the eight commands on a
      [machine] (files, repository, host, and whether [index.db] exists and
      holds the table), shell sessions of invocations, the daemon's
      handler on that machine, and the daemon script's [__main__] block.
    - [System.v]: the whole program as one step relation [sys_step] on a
      [world]; each snapshot is split into its hash, copy and insert steps
      so that the editor, the other process and crashes interleave.

    ** What is proved

    - Snapshots (C1-C5): the daemon's snapshot is idempotent and adds one
      row; the dashboard's adds a duplicate row on an unchanged file;
      snapshots keep [disk_wf]; a clock going back defeats the dedup test.
    - Timeline (C6-C9, C33): [load_timeline] renders exactly the abstract
      timeline (refinement), the header agrees with it, row keys round-trip
      through [split('|', 4)] and [int()], and the content and diff panels
      show each entry and its predecessor ([update_views]; the ["temp" in
      key] test never misfires on hex digests).
    - Dashboard (C10-C12, C14): restore writes the selected blob and
      raises on a missing one; promotion changes one row; forget needs two
      presses within the timer.
    - Timestamps (C13, C16, C18): [isoformat()] has 19 or 26 characters and
      its string order is the datetimes' order (bounds), [fromisoformat]
      inverts it so [format_timestamp] never raises on a stored timestamp
      (round trip), and so [ORDER BY timestamp DESC] lists a file's commits
      newest first and its [LIMIT 1] row is the newest commit (refinement
      of the design's [latest(path)]).  [App.timeline_opens] builds on them:
      on an existing file the dashboard mounts without raising.
    - Watch list and daemon (C15, C17, C19-C21): the commands' set
      semantics, corrupted files, the daemon's start-up and filter, and
      (C21, [Cli.watched_by_next_daemon]) that what [watch] writes is
      what the next daemon watches.  [Daemon.daemon_loop_exits] records
      that SIGTERM skips the main loop's clean-up.
    - System (C22-C27, C34-C36): in every interleaving rows reference
      stored blobs and ids stay well formed; a write between hashing and
      copying breaks content addressing (a concrete run), after which
      restoring the commit writes bytes with another digest; a dashboard
      snapshot between the daemon's duplicate check and its insert makes
      the daemon's own insert record one change twice; without such a write the store stays intact and the
      dashboard's panels are right; the daemon's handler is a run of the
      step relation (refinement); a promotion is permanent; the running
      daemon, whatever [watch]/[unwatch] wrote since it started, still
      snapshots a file of its start-up list (it never reloads the list);
      the watch-list file always holds
      a JSON array of strings (C39, a typing invariant).
    - Lifecycle (C28, C30-C32, C40): at most one daemon and the pid file
      names it; recovery from a stale pid file; an unreadable
      pid file can never be cleaned by the program; a reused pid makes
      [daemon-stop] kill an unrelated process; on any host where
      [~/.filegit] exists and whose pid file is readable and names the
      daemon or a dead process, stop then start brings the daemon up
      (liveness); without the directory [daemon-start] raises.
    - CLI (C29): [daemon-start] calls [run_daemon] without the [__main__]
      block that creates the table, so on a machine where [init] never ran
      the daemon catches [OperationalError] on every snapshot and stores
      nothing, and running the script afterwards does not help since
      [index.db] then exists; after [init] the same event is snapshotted.
    - Hashing (C37, C38): the chunked loop computes the one-shot digest
      (equivalence) and ends after exactly the ceiling of size over 8192
      reads of 1 to 8192 bytes (termination and bounds).

    ** Bounds and fuel

    One definition runs with fuel: [hash_loop], the [while] loop of
    [get_file_hash]; C38 shows it returns exactly when the fuel exceeds the
    number of reads, [ceil(size / 8192)], and C37 assumes that much.  The
    other functions are structural ([split_max], [insert_desc], [lstrip],
    [str_take] recurse on their argument; [chunks] decreases the length of
    what is left to read; [daemon_loop], [app_run] and the forget protocol
    consume a list of events); unbounded behaviour (the daemon's endless
    loop, any number of interleaved processes) is a step relation with
    reachability.  Commit ids and pids are [nat]; SQLite's
    64-bit rowids never wrap in practice and are not bounded here.  The
    fields of a [datetime] are [N] within the ranges [dt_valid] states
    (years 1 to 9999, microseconds below [10^6]); [pad w n] prints [n]
    in [w] digits, which C13 and C16 use only for fields below [10^w].

    ** Not modelled

    The Textual layout, styles and the modal input screen beyond the value
    it returns, [datetime.fromisoformat]'s offsets and the forms Python
    3.11 added (the program stores only naive [isoformat()] output),
    [difflib.unified_diff] (the model says which two contents are diffed),
    UTF-8 decoding, SHA-256 itself, watchdog's thread and event coalescing,
    the double fork of [DaemonContext], and click's argument parsing and
    messages.

    ** Modelling choices a reader should know

    - [sys_step]'s daemon hash step reads the latest digest ([SELECT]) and
      hashes the file in one step; the copy and the insert are separate
      steps.  Interleavings inside the first pair (a write between the
      [SELECT] and the hash) give no behaviour the split steps do not
      already give, since the [SELECT] only reads the index.
    - [daemon-stop] sends [SIGTERM]; the model takes it that the filegit
      daemon dies of it (the [SystemExit] it raises closes the
      [DaemonContext], which removes the pid file) and that another
      process of the user dies of it too (the default action).  A process
      that ignores [SIGTERM] is not modelled.
    - [read_pid] models [int(f.read().strip())] on the strings the
      pid-file can hold: optional whitespace around ASCII decimal digits;
      Python's [int] also accepts a sign, underscores and non-ASCII
      digits, which only a hand-edited pid file could contain; such a file
      is read as [ValueError] here.
    - [ORDER BY timestamp DESC] puts, among equal timestamps, the row
      inserted last first ([CommitIndex.sort_desc]).  SQLite does not
      document its order among ties; C18 speaks of a commit "no older
      than" the others, which holds whatever order ties get, and ties need
      two commits within one microsecond of the local clock (or the clock
      going back, C5). *)

From stdpp Require Export base gmap strings list sorting.
From Stdlib Require Export Ascii.

Declare Scope filegit_scope.
Delimit Scope filegit_scope with fg.
Open Scope filegit_scope.

(** ** Carriers

    filegit manipulates three kinds of strings: absolute file paths
    ([str(Path(..).resolve())]), hex digests ([hashlib.sha256().hexdigest()])
    and file contents (read as bytes for hashing, as text for diffing). *)
Abbreviation path := string (only parsing).
Abbreviation digest := string (only parsing).
Abbreviation content := string (only parsing).
Abbreviation isotime := string (only parsing).

(** ** Failures raised by the Python runtime and not caught by the code *)
Inductive failure :=
| FileNotFoundError (p : string)   (** [open] / [shutil.copy] on a missing path *)
| TypeError                        (** [set(json.load(f))] on a non-list JSON value *)
| ValueError                       (** [int(...)] on a malformed pid file *)
| ProcessLookupError (pid : nat)   (** [os.kill] on a dead process *)
| OperationalError.                (** [sqlite3]: "no such table: commits" *)

(** A Python call that either returns a value or raises. *)
Inductive res (A : Type) : Type :=
| Ok (a : A)
| Err (e : failure).
Arguments Ok {A} a.
Arguments Err {A} e.

#[export] Instance res_ret : MRet res := λ A a, Ok a.
#[export] Instance res_bind : MBind res :=
  λ A B f m, match m with Ok a => f a | Err e => Err e end.
#[export] Instance res_fmap : FMap res :=
  λ A B f m, match m with Ok a => Ok (f a) | Err e => Err e end.

Create HintDb filegit discriminated.
Create Rewrite HintDb filegit_simpl.

Lemma res_bind_Ok {A B} (a : A) (f : A → res B) : (x ← Ok a; f x) = f a.
Proof. reflexivity. Qed.

Lemma res_bind_Err {A B} e (f : A → res B) : (x ← Err e; f x) = Err e.
Proof. reflexivity. Qed.

Lemma res_bind_eq_Ok {A B} (m : res A) (f : A → res B) b :
  (x ← m; f x) = Ok b ↔ ∃ a, m = Ok a ∧ f a = Ok b.
Proof. destruct m; simpl; split; [eauto|intros (? & [= ->] & ?); done|done|by intros (? & ? & ?)]. Qed.

#[export] Hint Rewrite @res_bind_Ok @res_bind_Err : filegit_simpl.

(** [mapM] in [res] succeeds when [f] succeeds on every element. *)
Lemma mapM_res_Ok {A B} (f : A → res B) (l : list A) :
  (∀ x, x ∈ l → ∃ y, f x = Ok y) → ∃ l', mapM f l = Ok l' ∧ Forall2 (λ x y, f x = Ok y) l l'.
Proof.
  induction l as [|x l IH]; intros Hl; [by exists []|].
  destruct (Hl x) as [y Hy]; [by left|]. destruct IH as (l' & Hl' & Hf); [intros z Hz; apply Hl; by right|].
  exists (y :: l'). simpl. rewrite Hy, Hl'. split; [done|by constructor].
Qed.

(** ** Digests

    [get_file_hash] hashes the whole file with SHA-256 and returns its hex
    digest.  The model abstracts the hash function as a class; the two
    properties the program relies on are separate [Prop] classes, so that
    every theorem states which one it uses: hex output (digests are used
    as file names and as fields of ['|']-separated row keys) and, as the
    design idealises SHA-256, absence of collisions. *)
Class Hasher := hexdigest : content → digest.

Definition hex_alphabet : list ascii :=
  ["0";"1";"2";"3";"4";"5";"6";"7";"8";"9";"a";"b";"c";"d";"e";"f"]%char.

Definition is_hex_char (a : ascii) : bool := bool_decide (a ∈ hex_alphabet).

(** A hex digest is a non-empty string of hex digits (SHA-256 gives 64). *)
Definition is_hex (s : string) : bool :=
  negb (String.eqb s "") && forallb is_hex_char (String.list_ascii_of_string s).

Class HexDigests `{Hasher} : Prop := hexdigest_hex : ∀ c, is_hex (hexdigest c) = true.
Class CollisionFree `{Hasher} : Prop := hexdigest_inj : Inj (=) (=) hexdigest.

(** A concrete, executable stand-in for SHA-256 used by the witnesses:
    the digit [0] followed by the hex encoding of the content, two hex
    digits per byte.  It is a non-empty hex string and has no collisions,
    so it satisfies both classes. *)
Definition hex_char (n : N) : ascii := nth (N.to_nat n) hex_alphabet "f"%char.

Definition hex_val (a : ascii) : N :=
  match list_find (λ b, a = b) hex_alphabet with
  | Some (i, _) => N.of_nat i
  | None => 0%N
  end.

Fixpoint hex_encode (s : string) : string :=
  match s with
  | EmptyString => EmptyString
  | String a s' =>
      String (hex_char (N_of_ascii a / 16))
        (String (hex_char (N_of_ascii a mod 16)) (hex_encode s'))
  end.

Fixpoint hex_decode (s : string) : string :=
  match s with
  | String h (String l s') => String (ascii_of_N (16 * hex_val h + hex_val l)) (hex_decode s')
  | _ => EmptyString
  end.

Definition hex_hasher : Hasher := λ c, String "0"%char (hex_encode c).

Lemma hex_byte_inv a :
  ascii_of_N (16 * hex_val (hex_char (N_of_ascii a / 16))
              + hex_val (hex_char (N_of_ascii a mod 16))) = a.
Proof. destruct a as [[] [] [] [] [] [] [] []]; vm_compute; reflexivity. Qed.

Lemma hex_char_hex n : is_hex_char (hex_char n) = true.
Proof.
  unfold is_hex_char, hex_char. apply bool_decide_eq_true.
  destruct (nth_in_or_default (N.to_nat n) hex_alphabet "f"%char) as [Hin | ->].
  - by apply list_elem_of_In.
  - vm_compute. by repeat constructor.
Qed.

Lemma hex_decode_encode s : hex_decode (hex_encode s) = s.
Proof. induction s as [|a s IH]; simpl; [done|]. by rewrite hex_byte_inv, IH. Qed.

#[export] Instance hex_hasher_collision_free : @CollisionFree hex_hasher.
Proof.
  intros s1 s2 H. unfold hexdigest, hex_hasher in H. injection H as H.
  by rewrite <- (hex_decode_encode s1), <- (hex_decode_encode s2), H.
Qed.

#[export] Instance hex_hasher_hex : @HexDigests hex_hasher.
Proof.
  intros s. unfold hexdigest, hex_hasher, is_hex. simpl.
  induction s as [|a s IH]; [done|].
  cbn [hex_encode String.list_ascii_of_string forallb]. by rewrite !hex_char_hex, IH.
Qed.

(** ** Shared list and string lemmas *)

Lemma string_eqb_true (s1 s2 : string) : (s1 =? s2)%string = true ↔ s1 = s2.
Proof. apply String.eqb_eq. Qed.

Lemma string_eqb_false (s1 s2 : string) : (s1 =? s2)%string = false ↔ s1 ≠ s2.
Proof. apply String.eqb_neq. Qed.

Lemma string_eqb_refl (s : string) : (s =? s)%string = true.
Proof. apply String.eqb_refl. Qed.

#[export] Hint Rewrite string_eqb_refl : filegit_simpl.

Lemma string_app_cons c (a b : string) : String c a +:+ b = String c (a +:+ b).
Proof. reflexivity. Qed.

Lemma string_append_assoc (a b c : string) : (a +:+ b) +:+ c = a +:+ (b +:+ c).
Proof. induction a as [|x a IH]; [done|]. exact (f_equal (String x) IH). Qed.

Lemma string_append_empty_r (a : string) : a +:+ EmptyString = a.
Proof. induction a as [|x a IH]; [done|]. exact (f_equal (String x) IH). Qed.

Lemma string_length_app (a b : string) : String.length (a +:+ b) = String.length a + String.length b.
Proof. induction a as [|x a IH]; simpl; auto. Qed.

(** A sorted list stays sorted under a relation implied by the first one
    on its elements. *)
Lemma Sorted_mono_elem {A} (R1 R2 : relation A) (l : list A) :
  (∀ x y, x ∈ l → y ∈ l → R1 x y → R2 x y) → Sorted R1 l → Sorted R2 l.
Proof.
  intros HR Hs. induction Hs as [|x l Hs IH Hhd]; constructor.
  - apply IH. intros y z Hy Hz. apply HR; by right.
  - destruct Hhd as [|y l' Hxy]; constructor. apply HR; [by left|by right; left|done].
Qed.

Lemma list_ascii_of_string_app s1 s2 :
  String.list_ascii_of_string (s1 +:+ s2) = String.list_ascii_of_string s1 ++ String.list_ascii_of_string s2.
Proof. induction s1 as [|a s1 IH]; simpl; [done|by rewrite IH]. Qed.

(** [destruct_eqb] cases on the first string equality test in the goal and
    turns it into a propositional (in)equality. *)
Ltac destruct_eqb :=
  match goal with
  | |- context [(?a =? ?b)%string] =>
      let E := fresh "E" in
      destruct (String.eqb_spec a b) as [E|E]; [subst|]
  end.

(** [res_inv] inverts an equation [Ok _ = Ok _] or [Err _ = Ok _]. *)
Ltac res_inv :=
  repeat match goal with
  | H : Ok _ = Ok _ |- _ => injection H as H; subst
  | H : Err _ = Ok _ |- _ => discriminate H
  | H : Ok _ = Err _ |- _ => discriminate H
  end.

Lemma list_filter_nil_iff {A} (P : A → Prop) `{∀ x, Decision (P x)} (l : list A) :
  filter P l = [] ↔ (∀ x, x ∈ l → ¬ P x).
Proof.
  induction l as [|a l IH]; [split; [intros _ x Hx; inversion Hx|done]|].
  rewrite filter_cons. case_decide; split.
  - discriminate.
  - intros Hall. exfalso. apply (Hall a); [by left|done].
  - intros E x Hx. apply elem_of_cons in Hx as [->|Hx]; [done|]. by apply IH.
  - intros Hall. apply IH. intros x Hx. apply Hall. by right.
Qed.

Lemma NoDup_fmap_filter {A B} (f : A → B) (P : A → Prop) `{∀ x, Decision (P x)} (l : list A) :
  NoDup (f <$> l) → NoDup (f <$> filter P l).
Proof.
  induction l as [|a l IH]; simpl; [done|]. intros Hnd. apply NoDup_cons in Hnd as [Ha Hnd].
  rewrite filter_cons. case_decide; simpl; [|by apply IH].
  apply NoDup_cons. split; [|by apply IH].
  intros Hin. apply Ha. apply list_elem_of_fmap in Hin as (y & -> & Hy).
  apply list_elem_of_fmap_2. by apply list_elem_of_filter in Hy as [_ Hy].
Qed.

(** Two members of a list with the same image under a map that has no
    duplicates on the list are equal. *)
Lemma NoDup_fmap_elem_inj {A B} (f : A → B) (l : list A) x y :
  NoDup (f <$> l) → x ∈ l → y ∈ l → f x = f y → x = y.
Proof.
  induction l as [|a l IH]; simpl; intros Hnd Hx Hy Hf; [inversion Hx|].
  apply NoDup_cons in Hnd as [Ha Hnd].
  apply elem_of_cons in Hx as [->|Hx], Hy as [->|Hy]; [done| | |by apply IH].
  - destruct Ha. rewrite Hf. by apply list_elem_of_fmap_2.
  - destruct Ha. rewrite <- Hf. by apply list_elem_of_fmap_2.
Qed.

Lemma Forall_filter_2 {A} (Q : A → Prop) (P : A → Prop) `{∀ x, Decision (P x)} (l : list A) :
  Forall Q l → Forall Q (filter P l).
Proof.
  rewrite !Forall_forall. intros HQ x Hx. apply list_elem_of_filter in Hx as [_ Hx]. by apply HQ.
Qed.

Lemma hexdigest_nonempty `{HexDigests} c : (hexdigest c =? "")%string = false.
Proof.
  pose proof (hexdigest_hex c) as Hh. unfold is_hex in Hh.
  apply andb_prop in Hh as [Hh _]. by apply negb_true_iff in Hh.
Qed.

#[export] Hint Rewrite @hexdigest_nonempty using typeclasses eauto : filegit_simpl.

(** ** Python truthiness of an optional string ([None] and [""] are false) *)
Definition py_truthy (o : option string) : bool :=
  match o with
  | Some s => negb (s =? "")%string
  | None => false
  end.

Lemma py_truthy_hexdigest `{HexDigests} c : py_truthy (Some (hexdigest c)) = true.
Proof. simpl. by rewrite hexdigest_nonempty. Qed.

#[export] Hint Rewrite @py_truthy_hexdigest using typeclasses eauto : filegit_simpl.
