(* ===== verification/Storage.v ===== *)
(** * Storage: the live files and the content store

    The live filesystem and the directory [~/.filegit/objects] are both
    finite maps from a path to the bytes stored there.  This file models
    [get_file_hash] (identical in [src/filegit.py] and
    [src/filegit_daemon.py]), the two directions of [shutil.copy] the
    program uses (file to object store when snapshotting, object store to
    file when restoring), and the integrity invariant of the content store:
    every blob is stored under the digest of its own bytes. *)

From S2P Require Import Prelude.

Section Storage.
Context `{Hasher}.

(** [get_file_hash(filepath)]: [None] when the path does not exist, else the
    hex digest of the whole file (read in 8192-byte chunks, which feeds the
    same bytes to the hash as one read). *)
Definition get_file_hash (fs : gmap path content) (p : path) : option digest :=
  hexdigest <$> fs !! p.

(** Opening a path for reading: [FileNotFoundError] when it is absent. *)
Definition read_file (m : gmap string content) (p : string) : res content :=
  match m !! p with
  | Some c => Ok c
  | None => Err (FileNotFoundError p)
  end.

(** [shutil.copy(filepath, OBJECTS_DIR / current_hash)]: the bytes read are
    those of the file at copy time, and an existing blob is overwritten. *)
Definition copy_to_objects (fs : gmap path content) (p : path) (h : digest)
    (objs : gmap digest content) : res (gmap digest content) :=
  c ← read_file fs p; Ok (<[h := c]> objs).

(** [shutil.copy(OBJECTS_DIR / selected_hash, self.filepath)]. *)
Definition copy_from_objects (objs : gmap digest content) (h : digest) (p : path)
    (fs : gmap path content) : res (gmap path content) :=
  c ← read_file objs h; Ok (<[p := c]> fs).

(** [(OBJECTS_DIR / h).exists()]. *)
Definition blob_exists (objs : gmap digest content) (h : digest) : bool :=
  bool_decide (is_Some (objs !! h)).

(** Integrity of the content store: the stored bytes hash to their key. *)
Definition objects_wf (objs : gmap digest content) : Prop :=
  map_Forall (λ d c, hexdigest c = d) objs.

(** ** Lemmas *)

Lemma read_file_Ok m p c : read_file m p = Ok c ↔ m !! p = Some c.
Proof. unfold read_file. destruct (m !! p); split; congruence. Qed.

Lemma get_file_hash_Some fs p h :
  get_file_hash fs p = Some h ↔ ∃ c, fs !! p = Some c ∧ hexdigest c = h.
Proof. unfold get_file_hash. rewrite fmap_Some. naive_solver. Qed.

Lemma get_file_hash_None fs p : get_file_hash fs p = None ↔ fs !! p = None.
Proof. unfold get_file_hash. apply fmap_None. Qed.

Lemma copy_to_objects_Ok fs p h objs objs' :
  copy_to_objects fs p h objs = Ok objs' ↔
  ∃ c, fs !! p = Some c ∧ objs' = <[h := c]> objs.
Proof.
  unfold copy_to_objects. rewrite res_bind_eq_Ok.
  setoid_rewrite read_file_Ok. split; intros (c & ? & E); exists c; split; try done.
  - by injection E as <-.
  - by rewrite E.
Qed.

(** The copy succeeds exactly when the source file exists. *)
Lemma copy_to_objects_present fs p h objs c :
  fs !! p = Some c → copy_to_objects fs p h objs = Ok (<[h := c]> objs).
Proof. intros Hc. unfold copy_to_objects, read_file. by rewrite Hc. Qed.

Lemma copy_from_objects_present objs h p fs c :
  objs !! h = Some c → copy_from_objects objs h p fs = Ok (<[p := c]> fs).
Proof. intros Hc. unfold copy_from_objects, read_file. by rewrite Hc. Qed.

Lemma copy_from_objects_missing objs h p fs :
  objs !! h = None → copy_from_objects objs h p fs = Err (FileNotFoundError h).
Proof. intros Hc. unfold copy_from_objects, read_file. by rewrite Hc. Qed.

(** Storing a file's bytes under the digest of those bytes keeps the store
    well formed; this is the atomic case of a snapshot. *)
Lemma objects_wf_insert objs c :
  objects_wf objs → objects_wf (<[hexdigest c := c]> objs).
Proof. intros Hwf. by apply map_Forall_insert_2. Qed.

Lemma objects_wf_lookup objs d c :
  objects_wf objs → objs !! d = Some c → hexdigest c = d.
Proof. intros Hwf Hd. exact (Hwf d c Hd). Qed.

Lemma blob_exists_true objs h : blob_exists objs h = true ↔ is_Some (objs !! h).
Proof. unfold blob_exists. apply bool_decide_eq_true. Qed.

End Storage.

(** A stored digest is a hex string. *)
Lemma stored_hex `{Hasher, !HexDigests} objs h :
  objects_wf objs → is_Some (objs !! h) → is_hex h = true.
Proof. intros Hwf [b Hb]. rewrite <- (objects_wf_lookup objs h b Hwf Hb). apply hexdigest_hex. Qed.


#[export] Hint Resolve objects_wf_insert : filegit.
