(* ===== verification/Hashing.v ===== *)
(** * Hashing: the chunked read loop of [get_file_hash]

    Both copies of [get_file_hash] ([src/filegit.py] and
    [src/filegit_daemon.py]) hash a file incrementally:
    [while chunk := f.read(8192): hasher.update(chunk)], then
    [hasher.hexdigest()].  [Storage.v] models the result as [hexdigest] of
    the whole content.  This file models the loop itself: an incremental
    hasher is a class [HashStream] with laws [HashStreamLaws] (feeding two
    pieces is feeding their concatenation, feeding nothing changes nothing,
    the digest of a fed content is [hexdigest] of it), [f.read(k)] takes up
    to [k] characters of what is left, and the [while] loop runs with fuel.
    [chunks] (by well-founded recursion with Equations) is the list of
    reads.  The theorems: the loop ends exactly when its fuel exceeds the
    number of reads, which is the ceiling of the size over the read size,
    each read returns between 1 and [k] characters, and the digest the loop
    computes is the one [Storage.v] uses. *)

From Equations Require Import Equations.
From S2P Require Import Prelude Storage.

(** ** [f.read(k)] on the unread rest of a file *)

Fixpoint str_take (n : nat) (s : string) : string :=
  match n, s with
  | S n', String a s' => String a (str_take n' s')
  | _, _ => EmptyString
  end.

Fixpoint str_drop (n : nat) (s : string) : string :=
  match n, s with
  | S n', String _ s' => str_drop n' s'
  | _, _ => s
  end.

Lemma str_drop_length n s : String.length (str_drop n s) = String.length s - n.
Proof. revert s. induction n as [|n IH]; intros [|a s]; simpl; auto; lia. Qed.

(** The size of a read, [8192] in the code. *)
Definition read_size : nat := 8192.

Lemma read_size_pos : 0 < read_size.
Proof. apply Nat.ltb_lt. reflexivity. Qed.

(** The successive reads of a file of content [s]. *)
Equations? chunks (k : nat) (s : string) : list string by wf (String.length s) lt :=
  chunks 0 _ := [];
  chunks (S k) EmptyString := [];
  chunks (S k) (String a s) := str_take (S k) (String a s) :: chunks (S k) (str_drop (S k) (String a s)).
Proof. rewrite str_drop_length. simpl. lia. Qed.

(** ** The incremental hasher *)

Class HashStream := {
  hs_state : Type;
  hs_init : hs_state;                          (** [hashlib.sha256()] *)
  hs_update : hs_state → content → hs_state;   (** [hasher.update(chunk)] *)
  hs_hexdigest : hs_state → digest             (** [hasher.hexdigest()] *)
}.

Class HashStreamLaws `{Hasher, HashStream} : Prop := {
  hs_update_app : ∀ st a b, hs_update (hs_update st a) b = hs_update st (a +:+ b);
  hs_update_empty : ∀ st, hs_update st EmptyString = st;
  hs_hexdigest_spec : ∀ c, hs_hexdigest (hs_update hs_init c) = hexdigest c
}.

Section Loop.
Context `{Hasher, HashStream}.

(** [while chunk := f.read(k): hasher.update(chunk)], on the unread rest
    [rest] of the file, with [fuel] iterations at most. *)
Fixpoint hash_loop (fuel k : nat) (st : hs_state) (rest : string) : option hs_state :=
  match fuel with
  | 0 => None
  | S fuel' =>
      let chunk := str_take k rest in
      if (chunk =? "")%string then Some st
      else hash_loop fuel' k (hs_update st chunk) (str_drop k rest)
  end.

(** [get_file_hash(filepath)] as written: [None] for a missing path, else
    the loop on the whole file; [None] outside means the fuel ran out. *)
Definition get_file_hash_loop (fuel : nat) (fs : gmap path content) (p : path)
    : option (option digest) :=
  match fs !! p with
  | None => Some None
  | Some c => (λ st, Some (hs_hexdigest st)) <$> hash_loop fuel read_size hs_init c
  end.

End Loop.

(** ** Lemmas *)

Lemma str_take_drop n s : str_take n s +:+ str_drop n s = s.
Proof. revert s. induction n as [|n IH]; intros [|a s]; try reflexivity. exact (f_equal (String a) (IH s)). Qed.

Lemma str_take_length n s : String.length (str_take n s) = min n (String.length s).
Proof. revert s. induction n as [|n IH]; intros [|a s]; simpl; auto. Qed.

Lemma chunks_empty k : chunks k EmptyString = [].
Proof. destruct k; simp chunks; done. Qed.

Lemma chunks_concat k s : 0 < k → foldr String.append EmptyString (chunks k s) = s.
Proof.
  intros Hk. funelim (chunks k s); [lia|done|]. cbn [foldr]. rewrite H by done. apply str_take_drop.
Qed.

Lemma chunks_bounds k s : Forall (λ c, 0 < String.length c ≤ k) (chunks k s).
Proof.
  funelim (chunks k s); [constructor..|]. constructor; [|done].
  rewrite str_take_length. simpl. lia.
Qed.

(** The number of reads: the ceiling of the size over the read size. *)
Lemma chunks_length k s : 0 < k → length (chunks k s) = (String.length s + k - 1) / k.
Proof.
  intros Hk. funelim (chunks k s); [lia|cbn [length String.length]; symmetry; apply Nat.div_small; lia|].
  cbn [length]. rewrite H by done. rewrite str_drop_length. cbn [String.length].
  destruct (decide (S (String.length s) ≤ S k)) as [Hle|Hgt].
  - replace (S (String.length s) - S k) with 0 by lia. rewrite (Nat.div_small (0 + S k - 1)) by lia.
    replace (S (String.length s) + S k - 1) with (String.length s + 1 * S k) by lia.
    rewrite Nat.div_add by lia. rewrite Nat.div_small by lia. lia.
  - replace (S (String.length s) + S k - 1) with ((S (String.length s) - S k + S k - 1) + 1 * S k) by lia.
    rewrite Nat.div_add by lia. lia.
Qed.

Section LoopLemmas.
Context `{Hasher, HashStream}.

(** What the loop computes with a given amount of fuel. *)
Lemma hash_loop_spec fuel k st s :
  0 < k →
  hash_loop fuel k st s =
  if bool_decide (length (chunks k s) < fuel) then Some (fold_left hs_update (chunks k s) st) else None.
Proof.
  intros Hk. revert st s. induction fuel as [|fuel IH]; intros st s; [by rewrite bool_decide_false by lia|].
  destruct k as [|k]; [lia|]. destruct s as [|a s].
  - rewrite chunks_empty, bool_decide_true by (simpl; lia). reflexivity.
  - simp chunks. cbn [hash_loop str_take]. rewrite IH. cbn [length fold_left].
    repeat case_bool_decide; done || lia.
Qed.

Lemma fold_update `{!HashStreamLaws} l st :
  fold_left hs_update l st = hs_update st (foldr String.append EmptyString l).
Proof.
  revert st. induction l as [|c l IH]; intros st; simpl; [by rewrite hs_update_empty|].
  by rewrite IH, hs_update_app.
Qed.

End LoopLemmas.

(** ** A concrete incremental hasher for the witnesses *)

(** The state is everything fed so far; the digest is [hex_hasher] of it. *)
#[export] Instance hex_stream : HashStream := {|
  hs_state := string;
  hs_init := EmptyString;
  hs_update := String.append;
  hs_hexdigest := @hexdigest hex_hasher
|}.

#[export] Instance hex_stream_laws : @HashStreamLaws hex_hasher hex_stream.
Proof.
  split; simpl.
  - intros. apply string_append_assoc.
  - apply string_append_empty_r.
  - done.
Qed.

(** ** Properties *)

Section HashingProperties.
Context `{Hasher, HashStream}.

(** C37. Equivalence: the chunked loop of [get_file_hash], given more
    iterations than the file has reads, returns exactly the digest of the
    whole file that the rest of the development uses (and [None] for a
    missing file): feeding the file in 8192-character reads hashes the
    same bytes as feeding it at once. *)
Theorem get_file_hash_loop_equiv `{!HashStreamLaws} fuel fs p :
  (∀ c, fs !! p = Some c → (String.length c + read_size - 1) / read_size < fuel) →
  get_file_hash_loop fuel fs p = Some (get_file_hash fs p).
Proof.
  intros Hf. unfold get_file_hash_loop, get_file_hash.
  destruct (fs !! p) as [c|] eqn:Hc; [|done].
  rewrite hash_loop_spec by (apply read_size_pos).
  rewrite bool_decide_true by (rewrite chunks_length by (apply read_size_pos); by apply Hf).
  simpl. rewrite fold_update, chunks_concat by (apply read_size_pos).
  by rewrite hs_hexdigest_spec.
Qed.

(** C38. Termination of the read loop: with reads of [k > 0] characters,
    the loop over a content of size [n] performs exactly [⌈n / k⌉] reads,
    each of between 1 and [k] characters, and so ends exactly when it is
    given more than [⌈n / k⌉] iterations. *)
Theorem hash_loop_reads fuel k st s :
  0 < k →
  length (chunks k s) = (String.length s + k - 1) / k ∧
  Forall (λ c, 0 < String.length c ≤ k) (chunks k s) ∧
  (is_Some (hash_loop fuel k st s) ↔ (String.length s + k - 1) / k < fuel).
Proof.
  intros Hk. pose proof (chunks_length k s Hk) as Hl.
  split_and!; [done|apply chunks_bounds|]. rewrite hash_loop_spec, <- Hl by done.
  case_bool_decide as Hb; split; intros Hx; [done|by eexists|by destruct Hx|done].
Qed.

End HashingProperties.

(** ** Witnesses *)

Lemma get_file_hash_loop_equiv_witness :
  @get_file_hash_loop hex_stream 2 {[ "/home/u/notes.txt" := "abc" ]} "/home/u/notes.txt"
  = Some (@get_file_hash hex_hasher {[ "/home/u/notes.txt" := "abc" ]} "/home/u/notes.txt").
Proof.
  apply (@get_file_hash_loop_equiv hex_hasher hex_stream _).
  intros c Hc. rewrite lookup_singleton_eq in Hc. injection Hc as <-. vm_compute. lia.
Defined.

Lemma hash_loop_reads_witness :
  length (chunks 2 "abcde") = 3 ∧ is_Some (@hash_loop hex_stream 4 2 EmptyString "abcde").
Proof.
  destruct (@hash_loop_reads hex_stream 4 2 EmptyString "abcde" ltac:(lia)) as (H1 & _ & H3).
  split; [rewrite H1; reflexivity|apply H3; vm_compute; lia].
Defined.
