(* ===== verification/CommitIndex.v ===== *)
(** * CommitIndex: the SQLite table [commits] of [~/.filegit/index.db]

    The table is created by [setup_repo] ([src/filegit.py]) and, with the
    same schema, by the daemon's entry point ([src/filegit_daemon.py]).
    The program issues four statements on it, each modelled by one
    definition: [INSERT] (a snapshot), [UPDATE ... SET type = 'manual']
    (a promotion), [DELETE ... WHERE file_path = ?] (forget), and
    [SELECT ... WHERE file_path = ? ORDER BY timestamp DESC [LIMIT 1]]
    (history and latest commit).

    [AUTOINCREMENT] is modelled by the counter [seq] of [sqlite_sequence]:
    a new row gets [seq + 1] and ids are never reused, even after a
    [DELETE].  [ORDER BY timestamp DESC] compares the ISO-8601 strings
    lexicographically; SQLite leaves the order of equal timestamps
    unspecified, and the model fixes it as "later insertion first". *)

From S2P Require Import Prelude.

(** ** Schema *)

(** [type TEXT NOT NULL DEFAULT 'auto']: the program only writes ['auto']
    and ['manual']. *)
Inductive commit_type := Auto | Manual.

#[export] Instance commit_type_eq_dec : EqDecision commit_type.
Proof. solve_decision. Defined.

Record commit := mk_commit {
  commit_id : nat;            (** [id INTEGER PRIMARY KEY AUTOINCREMENT] *)
  file_path : path;           (** [file_path TEXT NOT NULL] *)
  object_hash : digest;       (** [object_hash TEXT NOT NULL] *)
  message : option string;    (** [message TEXT] (nullable) *)
  timestamp : isotime;        (** [timestamp TEXT NOT NULL] *)
  ctype : commit_type         (** [type TEXT NOT NULL DEFAULT 'auto'] *)
}.

#[export] Instance commit_eq_dec : EqDecision commit.
Proof. solve_decision. Defined.

Record index := mk_index {
  rows : list commit;         (** rows in rowid order *)
  seq : nat                   (** [sqlite_sequence] entry of [commits] *)
}.

(** [setup_repo]: [CREATE TABLE IF NOT EXISTS commits (...)] on the database
    file, which may or may not already hold the table. *)
Definition setup_repo (db : option index) : index :=
  match db with
  | Some i => i
  | None => {| rows := []; seq := 0 |}
  end.

(** ** [ORDER BY timestamp DESC] *)

Section OrderBy.
Context {A : Type} (key : A → string).

(** [x] comes no later than [y] in a descending ordering. *)
Definition newer_eq (x y : A) : Prop := String.le (key y) (key x).

Fixpoint insert_desc (r : A) (l : list A) : list A :=
  match l with
  | [] => [r]
  | x :: l' => if String.leb (key x) (key r) then r :: l else x :: insert_desc r l'
  end.

(** Rows are visited in rowid order, so among equal keys the row inserted
    last comes first. *)
Definition sort_desc (l : list A) : list A :=
  fold_left (λ acc r, insert_desc r acc) l [].

Lemma leb_false_flip a b : String.leb a b = false → String.le b a.
Proof.
  intros E. destruct (String.leb_total a b) as [E'|E']; [congruence|by apply Is_true_true].
Qed.

Lemma insert_desc_perm r l : insert_desc r l ≡ₚ r :: l.
Proof.
  induction l as [|x l IH]; simpl; [done|].
  destruct (String.leb (key x) (key r)); [done|].
  rewrite IH. apply Permutation_swap.
Qed.

Lemma sort_desc_app_perm acc l :
  fold_left (λ acc r, insert_desc r acc) l acc ≡ₚ l ++ acc.
Proof.
  revert acc. induction l as [|r l IH]; intros acc; simpl; [done|].
  rewrite IH, insert_desc_perm. by rewrite Permutation_middle.
Qed.

Lemma sort_desc_perm l : sort_desc l ≡ₚ l.
Proof. unfold sort_desc. by rewrite sort_desc_app_perm, app_nil_r. Qed.

Lemma insert_desc_sorted r l : Sorted newer_eq l → Sorted newer_eq (insert_desc r l).
Proof.
  induction l as [|x l IH]; intros Hs; simpl; [by repeat constructor|].
  destruct (String.leb (key x) (key r)) eqn:E.
  - constructor; [done|]. constructor. by apply Is_true_true.
  - apply Sorted_inv in Hs as [Hs Hhd]. constructor; [by apply IH|].
    destruct l as [|y l]; simpl; [constructor; by apply leb_false_flip|].
    destruct (String.leb (key y) (key r)); constructor;
      [by apply leb_false_flip | by inversion Hhd].
Qed.

Lemma sort_desc_sorted l : Sorted newer_eq (sort_desc l).
Proof.
  unfold sort_desc. generalize (@Sorted_nil _ newer_eq).
  generalize ([] : list A). induction l as [|r l IH]; intros acc Hacc; simpl; [done|].
  apply IH. by apply insert_desc_sorted.
Qed.

#[local] Instance newer_eq_trans : Transitive newer_eq.
Proof. intros x y z Hxy Hyz. unfold newer_eq in *. by trans (key y). Qed.

(** The head of the sorted list is a maximum. *)
Lemma sort_desc_head l x y :
  head (sort_desc l) = Some x → y ∈ l → String.le (key y) (key x).
Proof.
  intros Hx Hy. pose proof (sort_desc_sorted l) as Hs.
  apply Sorted_StronglySorted in Hs; [|apply _].
  rewrite <- (sort_desc_perm l) in Hy.
  destruct (sort_desc l) as [|z l']; [done|]. injection Hx as ->.
  apply elem_of_cons in Hy as [->|Hy]; [reflexivity|].
  apply StronglySorted_inv in Hs as [_ Hall].
  rewrite Forall_forall in Hall. by apply Hall.
Qed.

Lemma sort_desc_snoc l r : sort_desc (l ++ [r]) = insert_desc r (sort_desc l).
Proof. unfold sort_desc. by rewrite fold_left_app. Qed.

(** Inserting a row whose key is at least every other key puts it first. *)
Lemma insert_desc_newest r l :
  (∀ y, y ∈ l → String.le (key y) (key r)) → insert_desc r l = r :: l.
Proof.
  intros Hall. destruct l as [|x l]; simpl; [done|].
  assert (Hx : String.le (key x) (key r)) by (apply Hall; by left).
  apply Is_true_true in Hx. by rewrite Hx.
Qed.

(** Sorting commutes with a map that keeps the sort key. *)
Lemma insert_desc_map (f : A → A) r l :
  (∀ x, key (f x) = key x) → insert_desc (f r) (f <$> l) = f <$> insert_desc r l.
Proof.
  intros Hf. induction l as [|x l IH]; [done|]. rewrite fmap_cons. cbn [insert_desc].
  rewrite !Hf. destruct (String.leb (key x) (key r)); [done|]. by rewrite IH.
Qed.

Lemma sort_desc_map (f : A → A) l :
  (∀ x, key (f x) = key x) → sort_desc (f <$> l) = f <$> sort_desc l.
Proof.
  intros Hf. unfold sort_desc.
  assert (∀ acc, fold_left (λ acc r, insert_desc r acc) (f <$> l) (f <$> acc)
                 = f <$> fold_left (λ acc r, insert_desc r acc) l acc) as Hgen.
  { induction l as [|r l IH]; intros acc; [done|]. rewrite fmap_cons. cbn [fold_left].
    rewrite (insert_desc_map f r acc Hf). apply IH. }
  exact (Hgen []).
Qed.

Lemma sort_desc_nil l : sort_desc l = [] ↔ l = [].
Proof.
  split; [|by intros ->]. intros E. apply Permutation_nil.
  by rewrite <- E, sort_desc_perm.
Qed.
End OrderBy.

(** ** Statements *)

(** [WHERE file_path = ?]. *)
Definition for_path (p : path) (r : commit) : Prop := file_path r = p.

#[export] Instance for_path_dec p : ∀ r, Decision (for_path p r).
Proof. intros r. unfold for_path. apply _. Defined.

(** [INSERT INTO commits (file_path, object_hash, timestamp[, type]) VALUES (...)]:
    the message is [NULL]; the id is the next value of the sequence. *)
Definition insert_commit (p : path) (h : digest) (ts : isotime) (ty : commit_type)
    (i : index) : index * nat :=
  let cid := S (seq i) in
  ({| rows := rows i ++ [mk_commit cid p h None ts ty]; seq := cid |}, cid).

(** [UPDATE commits SET type = 'manual', message = ? WHERE id = ?]. *)
Definition set_manual (msg : string) (r : commit) : commit :=
  {| commit_id := commit_id r; file_path := file_path r; object_hash := object_hash r;
     message := Some msg; timestamp := timestamp r; ctype := Manual |}.

Definition promote_row (msg : string) (cid : nat) (r : commit) : commit :=
  if decide (commit_id r = cid) then set_manual msg r else r.

Definition update_manual (msg : string) (cid : nat) (i : index) : index :=
  {| rows := promote_row msg cid <$> rows i; seq := seq i |}.

(** [DELETE FROM commits WHERE file_path = ?]. *)
Definition delete_path (p : path) (i : index) : index :=
  {| rows := filter (λ r, ¬ for_path p r) (rows i); seq := seq i |}.

(** [SELECT * FROM commits WHERE file_path = ? ORDER BY timestamp DESC]. *)
Definition select_history (p : path) (i : index) : list commit :=
  sort_desc timestamp (filter (for_path p) (rows i)).

(** [SELECT object_hash FROM commits WHERE file_path = ? ORDER BY timestamp
    DESC LIMIT 1], then [row[0] if row else None]. *)
Definition select_last_hash (p : path) (i : index) : option digest :=
  object_hash <$> head (select_history p i).

(** ** Invariant: ids are distinct, positive and bounded by the sequence *)
Definition index_wf (i : index) : Prop :=
  NoDup (commit_id <$> rows i) ∧ Forall (λ r, 0 < commit_id r ≤ seq i) (rows i).

(** The clock reading [ts] is no older than any commit of [p]: the
    condition under which a new row becomes the head of [p]'s history. *)
Definition clock_ahead (p : path) (ts : isotime) (i : index) : Prop :=
  ∀ r, r ∈ rows i → file_path r = p → String.le (timestamp r) ts.

(** A manual commit stays manual: the relation between the index before and
    after a statement. *)
Definition manual_kept (i i' : index) : Prop :=
  ∀ r r', r ∈ rows i → r' ∈ rows i' → commit_id r = commit_id r' →
    ctype r = Manual → ctype r' = Manual.

Lemma elem_of_history p i r : r ∈ select_history p i ↔ r ∈ rows i ∧ file_path r = p.
Proof.
  unfold select_history. rewrite (sort_desc_perm timestamp), list_elem_of_filter.
  unfold for_path. tauto.
Qed.

Lemma history_sorted p i : Sorted (newer_eq timestamp) (select_history p i).
Proof. apply sort_desc_sorted. Qed.

Lemma history_nil p i : select_history p i = [] ↔ ∀ r, r ∈ rows i → file_path r ≠ p.
Proof. unfold select_history. by rewrite sort_desc_nil, list_filter_nil_iff. Qed.

Lemma last_hash_newest p i h :
  select_last_hash p i = Some h →
  ∃ r, r ∈ rows i ∧ file_path r = p ∧ object_hash r = h ∧ clock_ahead p (timestamp r) i.
Proof.
  unfold select_last_hash. intros (r & Hr & ->)%fmap_Some.
  assert (Hin : r ∈ select_history p i)
    by (destruct (select_history p i); simpl in Hr; simplify_eq; by left).
  apply elem_of_history in Hin as [Hin Hp].
  exists r. split_and!; [done..|]. intros r' Hr' Hp'.
  eapply (sort_desc_head timestamp); [exact Hr|]. by apply list_elem_of_filter.
Qed.

Lemma insert_commit_rows p h ts ty i :
  rows (insert_commit p h ts ty i).1 = rows i ++ [mk_commit (S (seq i)) p h None ts ty].
Proof. reflexivity. Qed.

Lemma history_insert_same p h ts ty i :
  clock_ahead p ts i →
  select_history p (insert_commit p h ts ty i).1
  = mk_commit (S (seq i)) p h None ts ty :: select_history p i.
Proof.
  intros Hclk. unfold select_history. rewrite insert_commit_rows, filter_app.
  rewrite (filter_singleton_True _ _ []) by (by unfold for_path). rewrite sort_desc_snoc. apply insert_desc_newest.
  intros y Hy. rewrite (sort_desc_perm timestamp), list_elem_of_filter in Hy.
  destruct Hy as [Hp Hy]. by apply Hclk.
Qed.

Lemma history_insert_other p q h ts ty i :
  q ≠ p → select_history q (insert_commit p h ts ty i).1 = select_history q i.
Proof.
  intros Hne. unfold select_history. rewrite insert_commit_rows, filter_app.
  rewrite (filter_singleton_False _ _ []) by (unfold for_path; simpl; congruence).
  by rewrite app_nil_r.
Qed.

Lemma last_hash_insert_same p h ts ty i :
  clock_ahead p ts i → select_last_hash p (insert_commit p h ts ty i).1 = Some h.
Proof. intros Hclk. unfold select_last_hash. by rewrite history_insert_same. Qed.

Lemma history_delete_same p i : select_history p (delete_path p i) = [].
Proof.
  apply history_nil. intros r Hr. simpl in Hr.
  apply list_elem_of_filter in Hr as [Hr _]. exact Hr.
Qed.

Lemma history_delete_other p q i :
  q ≠ p → select_history q (delete_path p i) = select_history q i.
Proof.
  intros Hne. unfold select_history, delete_path. simpl. f_equal.
  rewrite list_filter_filter. apply list_filter_iff. unfold for_path. naive_solver.
Qed.

Lemma promote_row_path msg cid r : file_path (promote_row msg cid r) = file_path r.
Proof. unfold promote_row. by case_decide. Qed.

(** The history after a promotion is the history with the promoted row
    updated in place: a promotion never reorders nor moves a commit. *)
Lemma history_update_manual msg cid p i :
  select_history p (update_manual msg cid i) = promote_row msg cid <$> select_history p i.
Proof.
  unfold select_history, update_manual. simpl.
  rewrite <- sort_desc_map by (intros r; unfold promote_row; by case_decide).
  f_equal. induction (rows i) as [|r l IH]; [done|]. rewrite fmap_cons.
  assert (for_path p (promote_row msg cid r) ↔ for_path p r) as Hiff
    by (unfold for_path; by rewrite promote_row_path).
  destruct (decide (for_path p r)) as [Hp|Hp].
  - rewrite (filter_cons_True _ (promote_row msg cid r)) by tauto.
    rewrite (filter_cons_True _ r) by done. by rewrite fmap_cons, IH.
  - rewrite (filter_cons_False _ (promote_row msg cid r)) by tauto.
    by rewrite (filter_cons_False _ r).
Qed.

Lemma insert_commit_wf p h ts ty i : index_wf i → index_wf (insert_commit p h ts ty i).1.
Proof.
  intros [Hnd Hb]. split; simpl.
  - rewrite fmap_app. apply NoDup_app. split_and!; [done| |by apply NoDup_singleton].
    intros x Hx ->%list_elem_of_singleton.
    apply list_elem_of_fmap in Hx as (r & Hr & Hin).
    rewrite Forall_forall in Hb. specialize (Hb r Hin). simpl in Hr. lia.
  - apply Forall_app. split; [|apply Forall_singleton; simpl; lia].
    eapply Forall_impl; [exact Hb|]. simpl. lia.
Qed.

Lemma promote_row_id msg cid r : commit_id (promote_row msg cid r) = commit_id r.
Proof. unfold promote_row. by case_decide. Qed.

Lemma update_manual_wf msg cid i : index_wf i → index_wf (update_manual msg cid i).
Proof.
  intros [Hnd Hb]. split; simpl.
  - rewrite <- list_fmap_compose.
    erewrite list_fmap_ext; [exact Hnd|]. intros k r _. apply promote_row_id.
  - apply Forall_fmap. eapply Forall_impl; [exact Hb|]. intros r Hr. simpl.
    by rewrite promote_row_id.
Qed.

Lemma delete_path_wf p i : index_wf i → index_wf (delete_path p i).
Proof.
  intros [Hnd Hb]. split; simpl; [by apply NoDup_fmap_filter|by apply Forall_filter_2].
Qed.

(** A new row's id is larger than every id the table holds: after a
    [DELETE] no old id comes back. *)
Lemma insert_commit_fresh p h ts ty i r :
  index_wf i → r ∈ rows i → commit_id r < (insert_commit p h ts ty i).2.
Proof.
  intros [_ Hb] Hr. rewrite Forall_forall in Hb. specialize (Hb r Hr). simpl. lia.
Qed.

Lemma insert_commit_manual_kept p h ts ty i :
  index_wf i → manual_kept i (insert_commit p h ts ty i).1.
Proof.
  intros Hwf r r' Hr Hr' Hid Hm. rewrite insert_commit_rows in Hr'.
  apply elem_of_app in Hr' as [Hr' | ->%list_elem_of_singleton].
  - destruct Hwf as [Hnd _].
    by rewrite <- (NoDup_fmap_elem_inj commit_id (rows i) r r').
  - pose proof (insert_commit_fresh p h ts ty i r Hwf Hr). simpl in *. lia.
Qed.

Lemma update_manual_manual_kept msg cid i :
  index_wf i → manual_kept i (update_manual msg cid i).
Proof.
  intros [Hnd _] r r' Hr Hr' Hid Hm. simpl in Hr'.
  apply list_elem_of_fmap in Hr' as (r0 & -> & Hr0).
  rewrite promote_row_id in Hid.
  rewrite <- (NoDup_fmap_elem_inj commit_id (rows i) r r0 Hnd Hr Hr0 Hid).
  unfold promote_row. by case_decide.
Qed.

Lemma delete_path_manual_kept p i : index_wf i → manual_kept i (delete_path p i).
Proof.
  intros [Hnd _] r r' Hr Hr' Hid Hm. simpl in Hr'.
  apply list_elem_of_filter in Hr' as [_ Hr'].
  by rewrite <- (NoDup_fmap_elem_inj commit_id (rows i) r r').
Qed.
