(* ===== verification/Timestamp.v ===== *)
(** * Timestamp: the ISO-8601 strings of the [timestamp] column

    Every commit is stamped with [datetime.now().isoformat()]
    ([action_add_snapshot] in [src/filegit.py], [create_auto_snapshot] in
    [src/filegit_daemon.py]); the index orders them with
    [ORDER BY timestamp DESC], a comparison of strings, and the timeline
    shows them through [format_timestamp], which parses the string back
    with [datetime.fromisoformat] and prints it with
    [strftime('%y-%m-%d %H:%M:%S')].

    A naive [datetime] is a record of seven numbers ([N]) whose ranges
    [datetime]'s constructor enforces ([dt_valid]); [isoformat],
    [fromisoformat] and [strftime_ts] translate CPython's [datetime]
    methods for the formats the program uses.  [fromisoformat] accepts the
    extended form [YYYY-MM-DD], optionally followed by one separator
    character and [HH], [HH:MM], [HH:MM:SS], [HH:MM:SS.fff] or
    [HH:MM:SS.ffffff]; anything else, and any field out of range, raises
    [ValueError].  Offsets ([+HH:MM], [Z]) and the other forms Python 3.11
    added are not modelled: the program only stores naive [isoformat()]
    output.

    The theorems: [fromisoformat] inverts [isoformat] on every datetime;
    [isoformat] has 19 or 26 characters (the microseconds are omitted when
    they are zero) and its string order is the chronological order, so
    [ORDER BY timestamp] sorts by time and the head of a file's history is
    its newest commit; [format_timestamp] shows 17 characters and only the
    last two digits of the year. *)

From S2P Require Import Prelude CommitIndex.
From Stdlib Require Import NArith.

Local Open Scope N_scope.

(** ** [datetime] *)

(** A naive [datetime] object: [(year, month, day, hour, minute, second,
    microsecond)], the tuple its comparisons use. *)
Record datetime := mk_datetime {
  dt_year : N; dt_month : N; dt_day : N;
  dt_hour : N; dt_minute : N; dt_second : N; dt_microsecond : N
}.

#[export] Instance datetime_eq_dec : EqDecision datetime.
Proof. solve_decision. Defined.

(** [_is_leap]. *)
Definition is_leap (y : N) : bool :=
  (y mod 4 =? 0) && (negb (y mod 100 =? 0) || (y mod 400 =? 0)).

(** [_days_in_month]. *)
Definition days_in_month (y m : N) : N :=
  if m =? 2 then (if is_leap y then 29 else 28)
  else if (m =? 4) || (m =? 6) || (m =? 9) || (m =? 11) then 30 else 31.

(** [_check_date_fields] and [_check_time_fields] with [MINYEAR = 1] and
    [MAXYEAR = 9999]: every [datetime] object satisfies them. *)
Definition dt_valid (d : datetime) : bool :=
  (1 <=? dt_year d) && (dt_year d <=? 9999) && (1 <=? dt_month d) && (dt_month d <=? 12) &&
  (1 <=? dt_day d) && (dt_day d <=? days_in_month (dt_year d) (dt_month d)) &&
  (dt_hour d <? 24) && (dt_minute d <? 60) && (dt_second d <? 60) && (dt_microsecond d <? 1000000).

(** [c1] unless it is [Eq], then [c2]: lexicographic comparison. *)
Definition cmp_then (c1 c2 : comparison) : comparison :=
  match c1 with Eq => c2 | _ => c1 end.

(** [datetime.__lt__] and friends on naive datetimes: [_cmp] compares the
    tuples lexicographically. *)
Definition dt_compare (a b : datetime) : comparison :=
  cmp_then (dt_year a ?= dt_year b) (cmp_then (dt_month a ?= dt_month b)
    (cmp_then (dt_day a ?= dt_day b) (cmp_then (dt_hour a ?= dt_hour b)
    (cmp_then (dt_minute a ?= dt_minute b) (cmp_then (dt_second a ?= dt_second b)
    (dt_microsecond a ?= dt_microsecond b)))))).

(** ** Printing: [isoformat] and [strftime] *)

(** The character of a decimal digit. *)
Definition digit (n : N) : ascii := ascii_of_N (48 + n).

(** ["%0<w>d" % n] for [n < 10 ^ w] (the fields of a [datetime] always
    fit their width). *)
Fixpoint pad (w : nat) (n : N) : string :=
  match w with
  | O => EmptyString
  | S w' => String (digit (n / 10 ^ N.of_nat w')) (pad w' (n mod 10 ^ N.of_nat w'))
  end.

(** The fraction [isoformat] appends: nothing when the microseconds are
    zero ([timespec='auto']), else ['.%06d']. *)
Definition iso_fraction (us : N) : string :=
  if us =? 0 then EmptyString else String "."%char (pad 6 us).

(** [datetime.isoformat()] of a naive datetime ([sep='T']). *)
Definition isoformat (d : datetime) : string :=
  pad 4 (dt_year d) +:+ String "-"%char (pad 2 (dt_month d) +:+ String "-"%char (pad 2 (dt_day d) +:+
  String "T"%char (pad 2 (dt_hour d) +:+ String ":"%char (pad 2 (dt_minute d) +:+
  String ":"%char (pad 2 (dt_second d) +:+ iso_fraction (dt_microsecond d)))))).

(** [dt_obj.strftime('%y-%m-%d %H:%M:%S')]: [%y] is the year modulo 100. *)
Definition strftime_ts (d : datetime) : string :=
  pad 2 (dt_year d mod 100) +:+ String "-"%char (pad 2 (dt_month d) +:+ String "-"%char (pad 2 (dt_day d) +:+
  String " "%char (pad 2 (dt_hour d) +:+ String ":"%char (pad 2 (dt_minute d) +:+
  String ":"%char (pad 2 (dt_second d)))))).

(** ** Parsing: [datetime.fromisoformat] *)

Definition is_digit (c : ascii) : bool := (48 <=? N_of_ascii c) && (N_of_ascii c <=? 57).

(** Reads exactly [k] decimal digits after the value [acc] read so far. *)
Fixpoint read_digits (k : nat) (acc : N) (s : string) : option (N * string) :=
  match k, s with
  | O, _ => Some (acc, s)
  | S k', String c s' => if is_digit c then read_digits k' (acc * 10 + (N_of_ascii c - 48)) s' else None
  | S _, EmptyString => None
  end.

(** Reads the character [c]. *)
Definition read_char (c : ascii) (s : string) : option string :=
  match s with
  | String c' s' => if Ascii.eqb c c' then Some s' else None
  | EmptyString => None
  end.

(** [_parse_isoformat_date]: [YYYY-MM-DD], then what follows. *)
Definition parse_date (s : string) : option (N * N * N * string) :=
  '(y, s) ← read_digits 4 0 s; s ← read_char "-" s;
  '(m, s) ← read_digits 2 0 s; s ← read_char "-" s;
  '(d, s) ← read_digits 2 0 s; Some (y, m, d, s).

(** The fraction after [SS.]: three or six digits and nothing else. *)
Definition parse_fraction (s : string) : option N :=
  match read_digits 6 0 s with
  | Some (us, EmptyString) => Some us
  | _ => match read_digits 3 0 s with
         | Some (ms, EmptyString) => Some (ms * 1000)
         | _ => None
         end
  end.

(** [_parse_isoformat_time] on a naive time: [HH[:MM[:SS[.fff[fff]]]]]. *)
Definition parse_time (s : string) : option (N * N * N * N) :=
  '(h, s) ← read_digits 2 0 s;
  match s with
  | EmptyString => Some (h, 0, 0, 0)
  | _ =>
      s ← read_char ":" s; '(mi, s) ← read_digits 2 0 s;
      match s with
      | EmptyString => Some (h, mi, 0, 0)
      | _ =>
          s ← read_char ":" s; '(sec, s) ← read_digits 2 0 s;
          match s with
          | EmptyString => Some (h, mi, sec, 0)
          | _ => s ← read_char "." s; us ← parse_fraction s; Some (h, mi, sec, us)
          end
      end
  end.

(** The date, then either the end of the string or one separator character
    and a time. *)
Definition parse_iso (s : string) : option datetime :=
  '(y, m, d, rest) ← parse_date s;
  match rest with
  | EmptyString => Some (mk_datetime y m d 0 0 0 0)
  | String _ t => '(h, mi, sec, us) ← parse_time t; Some (mk_datetime y m d h mi sec us)
  end.

(** [datetime.fromisoformat(ts)]: [ValueError] on a string of another form
    or with a field out of range. *)
Definition fromisoformat (s : string) : res datetime :=
  match parse_iso s with
  | Some d => if dt_valid d then Ok d else Err ValueError
  | None => Err ValueError
  end.

(** [format_timestamp] ([src/filegit.py]). *)
Definition format_timestamp (ts : isotime) : res string :=
  dt ← fromisoformat ts; Ok (strftime_ts dt).

(** ** Commits stamped by the clock *)

(** Every row's timestamp is [isoformat()] of a datetime, as both
    [INSERT]s write it. *)
Definition iso_stamped (i : index) : Prop :=
  ∀ r, r ∈ rows i → ∃ d, dt_valid d = true ∧ timestamp r = isoformat d.

(** [x] is no older than [y]: both timestamps parse and [y]'s datetime
    is not after [x]'s. *)
Definition newer_dt (x y : commit) : Prop :=
  ∃ dx dy, fromisoformat (timestamp x) = Ok dx ∧ fromisoformat (timestamp y) = Ok dy ∧
           dt_compare dy dx ≠ Gt.

(** ** Digits *)

Lemma pow10_pos k : 0 < 10 ^ k.
Proof. pose proof (N.pow_nonzero 10 k ltac:(lia)). lia. Qed.

Lemma digit_val n : n < 10 → N_of_ascii (digit n) = 48 + n.
Proof. intros Hn. apply N_ascii_embedding. lia. Qed.

Lemma digit_sub n : n < 10 → N_of_ascii (digit n) - 48 = n.
Proof. intros Hn. rewrite digit_val by done. lia. Qed.

Lemma is_digit_digit n : n < 10 → is_digit (digit n) = true.
Proof. intros Hn. unfold is_digit. rewrite digit_val by done. apply andb_true_iff; split; apply N.leb_le; lia. Qed.

(** A number below [10 ^ (w + 1)] is its leading digit and a number below
    [10 ^ w]. *)
Lemma pad_digits w n :
  n < 10 ^ N.of_nat (S w) →
  n / 10 ^ N.of_nat w < 10 ∧ n mod 10 ^ N.of_nat w < 10 ^ N.of_nat w ∧
  n = 10 ^ N.of_nat w * (n / 10 ^ N.of_nat w) + n mod 10 ^ N.of_nat w.
Proof.
  intros Hn. pose proof (pow10_pos (N.of_nat w)) as Hp.
  rewrite Nat2N.inj_succ, N.pow_succ_r' in Hn.
  split_and!; [apply N.Div0.div_lt_upper_bound; lia|apply N.mod_lt; lia|apply N.div_mod; lia].
Qed.

Lemma pad_length w n : String.length (pad w n) = w.
Proof. revert n. induction w as [|w IH]; intros n; simpl; auto. Qed.

(** Reading back a padded number. *)
Lemma read_digits_pad w n acc s :
  n < 10 ^ N.of_nat w →
  read_digits w acc (pad w n +:+ s) = Some (acc * 10 ^ N.of_nat w + n, s).
Proof.
  revert n acc. induction w as [|w IH]; intros n acc Hn.
  - simpl in *. f_equal. f_equal. lia.
  - destruct (pad_digits w n Hn) as (Hq & Hr & Hnqr). cbn [pad]. rewrite string_app_cons. cbn [read_digits].
    rewrite is_digit_digit, digit_sub, IH by done. do 2 f_equal.
    rewrite Nat2N.inj_succ, N.pow_succ_r'.
    remember (n / 10 ^ N.of_nat w) as q. remember (n mod 10 ^ N.of_nat w) as r. nia.
Qed.

Lemma read_digits_pad0 w n s :
  n < 10 ^ N.of_nat w → read_digits w 0 (pad w n +:+ s) = Some (n, s).
Proof. intros. by rewrite read_digits_pad. Qed.

(** ** Lexicographic comparison of padded numbers *)

(** Proves [(a ?= b) = (c ?= d)] from how [c] and [d] compare. *)
Ltac compare_by tac :=
  match goal with
  | |- (_ ?= _) = (?c ?= ?d) =>
      destruct (N.compare_spec c d);
      [apply N.compare_eq_iff|apply N.compare_lt_iff|apply N.compare_gt_iff]; tac
  end.

Lemma cmp_then_assoc a b c : cmp_then (cmp_then a b) c = cmp_then a (cmp_then b c).
Proof. by destruct a. Qed.

Lemma cmp_then_Eq_r a : cmp_then a Eq = a.
Proof. by destruct a. Qed.

Lemma string_compare_cons c1 c2 s1 s2 :
  (String c1 s1 ?= String c2 s2)%string = cmp_then (Ascii.compare c1 c2) (s1 ?= s2)%string.
Proof. simpl. by destruct (Ascii.compare c1 c2). Qed.

Lemma string_compare_same c s1 s2 : (String c s1 ?= String c s2)%string = (s1 ?= s2)%string.
Proof. rewrite string_compare_cons. unfold Ascii.compare. by rewrite N.compare_refl. Qed.

Lemma digit_compare a b : a < 10 → b < 10 → Ascii.compare (digit a) (digit b) = (a ?= b).
Proof. intros. unfold Ascii.compare. rewrite !digit_val by done. compare_by lia. Qed.

(** Comparing [B * q + r] digit by digit. *)
Lemma compare_div_mod B q1 q2 r1 r2 :
  r1 < B → r2 < B → (B * q1 + r1 ?= B * q2 + r2) = cmp_then (q1 ?= q2) (r1 ?= r2).
Proof.
  intros. destruct (N.compare_spec q1 q2) as [->|Hlt|Hgt]; simpl.
  - compare_by lia.
  - apply N.compare_lt_iff. nia.
  - apply N.compare_gt_iff. nia.
Qed.

(** Two padded numbers of the same width compare as the numbers. *)
Lemma pad_compare w n1 n2 s1 s2 :
  n1 < 10 ^ N.of_nat w → n2 < 10 ^ N.of_nat w →
  (pad w n1 +:+ s1 ?= pad w n2 +:+ s2)%string = cmp_then (n1 ?= n2) (s1 ?= s2)%string.
Proof.
  revert n1 n2. induction w as [|w IH]; intros n1 n2 H1 H2.
  - simpl in *. by replace n1 with 0 by lia; replace n2 with 0 by lia.
  - destruct (pad_digits w n1 H1) as (Hq1 & Hr1 & E1), (pad_digits w n2 H2) as (Hq2 & Hr2 & E2).
    cbn [pad]. rewrite !string_app_cons, string_compare_cons, digit_compare, IH by done.
    by rewrite <- cmp_then_assoc, <- (compare_div_mod (10 ^ N.of_nat w)), <- E1, <- E2.
Qed.

(** ** The fields of a valid datetime fit their widths *)

Lemma days_in_month_le y m : days_in_month y m ≤ 31.
Proof. unfold days_in_month. repeat case_match; lia. Qed.

Lemma dt_valid_spec d :
  dt_valid d = true ↔
  1 ≤ dt_year d ≤ 9999 ∧ 1 ≤ dt_month d ≤ 12 ∧ 1 ≤ dt_day d ≤ days_in_month (dt_year d) (dt_month d) ∧
  dt_hour d < 24 ∧ dt_minute d < 60 ∧ dt_second d < 60 ∧ dt_microsecond d < 1000000.
Proof.
  unfold dt_valid. rewrite !andb_true_iff, !N.leb_le, !N.ltb_lt. naive_solver.
Qed.

(** Every field is below [10] to the power of its printed width. *)
Lemma dt_valid_widths d :
  dt_valid d = true →
  dt_year d < 10 ^ N.of_nat 4 ∧ dt_month d < 10 ^ N.of_nat 2 ∧ dt_day d < 10 ^ N.of_nat 2 ∧
  dt_hour d < 10 ^ N.of_nat 2 ∧ dt_minute d < 10 ^ N.of_nat 2 ∧ dt_second d < 10 ^ N.of_nat 2 ∧
  dt_microsecond d < 10 ^ N.of_nat 6.
Proof.
  intros (? & ? & ? & ? & ? & ? & ?)%dt_valid_spec.
  pose proof (days_in_month_le (dt_year d) (dt_month d)). cbn. lia.
Qed.

Lemma iso_fraction_compare us1 us2 :
  us1 < 10 ^ N.of_nat 6 → us2 < 10 ^ N.of_nat 6 →
  (iso_fraction us1 ?= iso_fraction us2)%string = (us1 ?= us2).
Proof.
  intros H1 H2. unfold iso_fraction.
  destruct (N.eqb_spec us1 0) as [->|], (N.eqb_spec us2 0) as [->|]; [done|..].
  - cbn [String.compare]. symmetry. apply N.compare_lt_iff. lia.
  - cbn [String.compare]. symmetry. apply N.compare_gt_iff. lia.
  - rewrite string_compare_same, <- (string_append_empty_r (pad 6 us1)),
      <- (string_append_empty_r (pad 6 us2)), pad_compare by done.
    apply cmp_then_Eq_r.
Qed.

Lemma isoformat_compare a b :
  dt_valid a = true → dt_valid b = true → (isoformat a ?= isoformat b)%string = dt_compare a b.
Proof.
  intros (? & ? & ? & ? & ? & ? & ?)%dt_valid_widths (? & ? & ? & ? & ? & ? & ?)%dt_valid_widths.
  unfold isoformat, dt_compare.
  by repeat rewrite ?pad_compare, ?string_compare_same, ?iso_fraction_compare by done.
Qed.

Lemma isoformat_length d :
  String.length (isoformat d) = if dt_microsecond d =? 0 then 19%nat else 26%nat.
Proof.
  unfold isoformat, iso_fraction. rewrite !string_length_app. cbn [String.length].
  rewrite !pad_length. by case_match.
Qed.

(** ** Parsing what [isoformat] prints *)

Lemma parse_fraction_pad us : us < 10 ^ N.of_nat 6 → parse_fraction (pad 6 us) = Some us.
Proof.
  intros Hus. unfold parse_fraction.
  by rewrite <- (string_append_empty_r (pad 6 us)), read_digits_pad.
Qed.

Lemma parse_time_iso h mi sec us :
  h < 10 ^ N.of_nat 2 → mi < 10 ^ N.of_nat 2 → sec < 10 ^ N.of_nat 2 → us < 10 ^ N.of_nat 6 →
  parse_time (pad 2 h +:+ String ":" (pad 2 mi +:+ String ":" (pad 2 sec +:+ iso_fraction us)))
  = Some (h, mi, sec, us).
Proof.
  intros. unfold parse_time.
  rewrite (read_digits_pad0 2 h) by done. cbn -[pad read_digits iso_fraction].
  rewrite (read_digits_pad0 2 mi) by done. cbn -[pad read_digits iso_fraction].
  rewrite (read_digits_pad0 2 sec) by done. cbn -[pad read_digits iso_fraction].
  unfold iso_fraction. destruct (N.eqb_spec us 0) as [->|]; [done|].
  cbn -[pad parse_fraction]. by rewrite parse_fraction_pad.
Qed.

Lemma parse_iso_isoformat d : dt_valid d = true → parse_iso (isoformat d) = Some d.
Proof.
  intros (? & ? & ? & ? & ? & ? & ?)%dt_valid_widths. destruct d. unfold parse_iso, parse_date, isoformat.
  cbn [dt_year dt_month dt_day dt_hour dt_minute dt_second dt_microsecond] in *.
  rewrite (read_digits_pad0 4 dt_year0) by done. cbn -[pad read_digits parse_time iso_fraction].
  rewrite (read_digits_pad0 2 dt_month0) by done. cbn -[pad read_digits parse_time iso_fraction].
  rewrite (read_digits_pad0 2 dt_day0) by done. cbn -[pad read_digits parse_time iso_fraction].
  by rewrite parse_time_iso.
Qed.

Lemma strftime_ts_length d : String.length (strftime_ts d) = 17%nat.
Proof. unfold strftime_ts. rewrite !string_length_app. cbn [String.length]. by rewrite !pad_length. Qed.

Lemma fromisoformat_isoformat d : dt_valid d = true → fromisoformat (isoformat d) = Ok d.
Proof. intros Hd. unfold fromisoformat. by rewrite parse_iso_isoformat, Hd. Qed.

(** The string order of two timestamps is the order of their datetimes. *)
Lemma le_isoformat a b :
  dt_valid a = true → dt_valid b = true →
  String.le (isoformat a) (isoformat b) ↔ dt_compare a b ≠ Gt.
Proof.
  intros Ha Hb. unfold String.le, String.leb. rewrite isoformat_compare by done.
  destruct (dt_compare a b); naive_solver.
Qed.

Lemma newer_eq_dt i x y :
  iso_stamped i → x ∈ rows i → y ∈ rows i → newer_eq timestamp x y → newer_dt x y.
Proof.
  intros Hi (dx & Hdx & Ex)%Hi (dy & Hdy & Ey)%Hi. unfold newer_eq, newer_dt. rewrite Ex, Ey.
  intros Hle. exists dx, dy. rewrite !fromisoformat_isoformat by done. split_and!; [done|done|].
  by apply le_isoformat.
Qed.

(** ** Properties *)

(** C18. The latest commit is the newest: when every row is stamped by
    [isoformat()], the history [ORDER BY timestamp DESC] returns is sorted
    newest first by datetime, and the digest [SELECT ... LIMIT 1] returns
    is that of a commit of the file no older than any other: the design's
    [latest(path)], "most recent commit for path by timestamp". *)
Theorem history_chronological p i :
  iso_stamped i →
  Sorted newer_dt (select_history p i) ∧
  ∀ h, select_last_hash p i = Some h →
    ∃ r, r ∈ rows i ∧ file_path r = p ∧ object_hash r = h ∧
         ∀ y, y ∈ rows i → file_path y = p → newer_dt r y.
Proof.
  intros Hi. split.
  - apply (Sorted_mono_elem _ _ _ (λ x y Hx Hy, newer_eq_dt i x y Hi
      (proj1 (proj1 (elem_of_history p i x) Hx)) (proj1 (proj1 (elem_of_history p i y) Hy)))).
    apply history_sorted.
  - intros h (r & Hr & Hp & Hh & Hahead)%last_hash_newest. exists r. split_and!; [done..|].
    intros y Hy Hpy. apply (newer_eq_dt i); [done..|]. by apply Hahead.
Qed.

(** C13. Bounds of [datetime.now().isoformat()]: for datetimes whose fields
    are in the ranges [datetime] enforces (years 1 to 9999), the string has
    19 characters, or 26 when the microseconds are not zero, and comparing
    two of them character by character, as [ORDER BY timestamp] does,
    orders them exactly as the datetimes compare: the four-digit padding of
    the year and the omitted zero fraction both keep the order. *)
Theorem isoformat_sortable a b :
  dt_valid a = true → dt_valid b = true →
  String.length (isoformat a) = (if dt_microsecond a =? 0 then 19%nat else 26%nat) ∧
  (isoformat a ?= isoformat b)%string = dt_compare a b.
Proof. intros. split; [apply isoformat_length|by apply isoformat_compare]. Qed.

(** C16. Round trip of the stored timestamps: [datetime.fromisoformat] gives
    back every datetime [isoformat] printed, so [format_timestamp] never
    raises on a timestamp the program wrote and shows the 17 characters of
    [%y-%m-%d %H:%M:%S] of the same datetime. *)
Theorem format_timestamp_isoformat d :
  dt_valid d = true →
  fromisoformat (isoformat d) = Ok d ∧ format_timestamp (isoformat d) = Ok (strftime_ts d) ∧
  String.length (strftime_ts d) = 17%nat.
Proof.
  intros Hd. unfold format_timestamp. rewrite fromisoformat_isoformat by done.
  split_and!; [done|done|apply strftime_ts_length].
Qed.

(** ** Witnesses *)

Definition at_seconds : datetime := mk_datetime 2024 3 9 7 5 3 0.
Definition at_micros : datetime := mk_datetime 2024 3 9 7 5 3 500000.

Lemma isoformat_sortable_witness :
  String.length (isoformat at_seconds) = 19%nat ∧ (isoformat at_seconds ?= isoformat at_micros)%string = Lt.
Proof.
  destruct (isoformat_sortable at_seconds at_micros eq_refl eq_refl) as [H1 H2].
  split; [exact H1|rewrite H2; reflexivity].
Defined.

Lemma format_timestamp_isoformat_witness :
  format_timestamp "2024-03-09T07:05:03.500000" = Ok "24-03-09 07:05:03".
Proof.
  destruct (format_timestamp_isoformat at_micros eq_refl) as (_ & H & _). exact H.
Defined.

(** Two snapshots of a file, the second taken after the clock went back:
    the history puts the first one first. *)
Definition clock_back_index : index :=
  {| rows := [mk_commit 1 "/home/u/notes.txt" "h1" None (isoformat at_micros) Auto;
              mk_commit 2 "/home/u/notes.txt" "h2" None (isoformat at_seconds) Auto];
     seq := 2 |}.

Lemma history_chronological_witness :
  select_last_hash "/home/u/notes.txt" clock_back_index = Some "h1" ∧
  Sorted newer_dt (select_history "/home/u/notes.txt" clock_back_index).
Proof.
  assert (Hst : iso_stamped clock_back_index).
  { intros r Hr. apply elem_of_cons in Hr as [->|Hr]; [by exists at_micros|].
    apply elem_of_cons in Hr as [->|Hr]; [by exists at_seconds|].
    by apply not_elem_of_nil in Hr. }
  split; [reflexivity|]. exact (proj1 (history_chronological "/home/u/notes.txt" clock_back_index Hst)).
Defined.
