(* ===== verification/Snapshot.v ===== *)
(** * Snapshot: the two snapshot handlers

    A snapshot is taken on two paths of the code:
    - the daemon's [create_auto_snapshot] ([src/filegit_daemon.py]), run on
      a file-modified event, which compares the file's digest with the
      latest commit's digest and does nothing when they are equal;
    - the dashboard's [action_add_snapshot] ([src/filegit.py], key [a]),
      which snapshots unconditionally.
    Both copy the file into the object store first and insert the row
    second.  This file models both handlers on the durable state they
    share, states the invariants of that state (store integrity, every row
    references a stored blob, the index invariant), and proves that both
    handlers preserve them, that the daemon's handler is idempotent when
    the clock does not go backwards, and that the dashboard's is not. *)

From S2P Require Import Prelude Storage CommitIndex.

(** The durable state shared by the dashboard and the daemon, with the
    user's live files. *)
Record disk := mk_disk {
  files : gmap path content;       (** the user's files *)
  objects : gmap digest content;   (** [~/.filegit/objects] *)
  db : index                       (** [~/.filegit/index.db] *)
}.

(** Notifications shown by the dashboard ([self.notify(...)]). *)
Inductive notice :=
| NoticeFileNotFound         (** "file not found" (error) *)
| NoticeSnapshotAdded        (** "snapshot added" *)
| NoticeSelectRowFirst       (** "select a row in the timeline first" (warning) *)
| NoticeAlreadyManual        (** "already a manual commit" (warning) *)
| NoticeSnapshotFirst        (** "add a snapshot (A) before committing" (error) *)
| NoticeCommitted (msg : string)  (** "commit done: msg" *)
| NoticeWorkingVersion       (** "this is the working version" (information) *)
| NoticeRestored (h : digest)     (** "restored to version h" *)
| NoticeConfirmForget        (** "press F again within 5 seconds" (error) *)
| NoticeForgetCancelled      (** "deletion cancelled" *)
| NoticeRefreshed.           (** "status refreshed" *)

Section Snapshot.
Context `{Hasher}.

(** [create_auto_snapshot(filepath_str, conn)].  The [print] to the daemon
    log is the returned digest.  [if current_hash and current_hash !=
    last_hash] tests the digest's truthiness, hence the empty-string test. *)
Definition create_auto_snapshot (p : path) (now : isotime) (d : disk)
    : res (disk * option digest) :=
  let last_hash := select_last_hash p (db d) in
  match get_file_hash (files d) p with
  | Some h =>
      if (h =? "")%string then Ok (d, None)
      else if decide (Some h = last_hash) then Ok (d, None)
      else
        objs ← copy_to_objects (files d) p h (objects d);
        Ok (mk_disk (files d) objs (insert_commit p h now Auto (db d)).1, Some h)
  | None => Ok (d, None)
  end.

(** [DashboardApp.action_add_snapshot]: no comparison with the latest
    commit; the row is inserted without a type, so it gets the column
    default ['auto']. *)
Definition action_add_snapshot (p : path) (now : isotime) (d : disk) : res (disk * notice) :=
  match get_file_hash (files d) p with
  | Some h =>
      if (h =? "")%string then Ok (d, NoticeFileNotFound)
      else
        objs ← copy_to_objects (files d) p h (objects d);
        Ok (mk_disk (files d) objs (insert_commit p h now Auto (db d)).1, NoticeSnapshotAdded)
  | None => Ok (d, NoticeFileNotFound)
  end.

(** ** Invariants of the shared state *)

(** Every row references a blob of the store (the store-then-index order). *)
Definition refs_ok (d : disk) : Prop :=
  ∀ r, r ∈ rows (db d) → is_Some (objects d !! object_hash r).

Definition disk_wf (d : disk) : Prop :=
  objects_wf (objects d) ∧ refs_ok d ∧ index_wf (db d).

(** The effect of a snapshot that goes through: blob first, then row. *)
Definition store_then_record (p : path) (c : content) (now : isotime) (d : disk) : disk :=
  mk_disk (files d) (<[hexdigest c := c]> (objects d))
    (insert_commit p (hexdigest c) now Auto (db d)).1.

(** ** Behaviour of the handlers *)

Lemma create_auto_snapshot_spec p now d :
  create_auto_snapshot p now d =
  match files d !! p with
  | Some c =>
      if (hexdigest c =? "")%string then Ok (d, None)
      else if decide (Some (hexdigest c) = select_last_hash p (db d)) then Ok (d, None)
      else Ok (store_then_record p c now d, Some (hexdigest c))
  | None => Ok (d, None)
  end.
Proof.
  unfold create_auto_snapshot, get_file_hash.
  destruct (files d !! p) as [c|] eqn:Hc; simpl; [|done].
  destruct (hexdigest c =? "")%string; [done|]. case_decide; [done|].
  by rewrite (copy_to_objects_present _ _ _ _ c Hc).
Qed.

Lemma action_add_snapshot_spec p now d :
  action_add_snapshot p now d =
  match files d !! p with
  | Some c =>
      if (hexdigest c =? "")%string then Ok (d, NoticeFileNotFound)
      else Ok (store_then_record p c now d, NoticeSnapshotAdded)
  | None => Ok (d, NoticeFileNotFound)
  end.
Proof.
  unfold action_add_snapshot, get_file_hash.
  destruct (files d !! p) as [c|] eqn:Hc; simpl; [|done].
  destruct (hexdigest c =? "")%string; [done|].
  by rewrite (copy_to_objects_present _ _ _ _ c Hc).
Qed.

Lemma store_then_record_wf p c now d : disk_wf d → disk_wf (store_then_record p c now d).
Proof.
  intros (Hobj & Hrefs & Hidx). split_and!; simpl.
  - by apply objects_wf_insert.
  - intros r Hr. simpl in Hr.
    apply elem_of_app in Hr as [Hr | ->%list_elem_of_singleton]; simpl.
    + destruct (decide (hexdigest c = object_hash r)) as [->|Hne].
      * rewrite lookup_insert_eq. by eexists.
      * rewrite lookup_insert_ne by done. by apply Hrefs.
    + rewrite lookup_insert_eq. by eexists.
  - by apply insert_commit_wf.
Qed.

Lemma files_store_then_record p c now d : files (store_then_record p c now d) = files d.
Proof. reflexivity. Qed.

End Snapshot.

#[export] Hint Resolve store_then_record_wf : filegit.

(** ** Properties *)

Section SnapshotProperties.
Context `{Hasher}.

Lemma create_auto_snapshot_noop p now d :
  create_auto_snapshot p now d = Ok (d, None) ∨
  ∃ c, files d !! p = Some c ∧ (hexdigest c =? "")%string = false ∧
       Some (hexdigest c) ≠ select_last_hash p (db d) ∧
       create_auto_snapshot p now d = Ok (store_then_record p c now d, Some (hexdigest c)).
Proof.
  rewrite create_auto_snapshot_spec. destruct (files d !! p) as [c|]; [|by left].
  destruct (hexdigest c =? "")%string eqn:He; [by left|].
  case_decide; [by left|]. right. eauto.
Qed.

(** A call that takes no snapshot does not depend on the clock. *)
Lemma create_auto_snapshot_time p now now' d d' :
  create_auto_snapshot p now d = Ok (d', None) → create_auto_snapshot p now' d = Ok (d', None).
Proof. rewrite !create_auto_snapshot_spec. repeat case_match; congruence. Qed.

(** C1. Idempotence of the automatic snapshot: when the clock reading of a
    snapshot is not older than the file's existing commits, running the
    daemon's handler again without an intervening change of the file
    returns "no snapshot" and leaves the state unchanged, whatever the
    first call did. *)
Theorem auto_snapshot_idempotent p now now' d d' o :
  clock_ahead p now (db d) →
  create_auto_snapshot p now d = Ok (d', o) →
  create_auto_snapshot p now' d' = Ok (d', None).
Proof.
  intros Hclk Hrun. destruct (create_auto_snapshot_noop p now d) as [E | (c & Hc & He & _ & E)];
    rewrite E in Hrun; simplify_eq.
  - by eapply create_auto_snapshot_time.
  - rewrite create_auto_snapshot_spec, files_store_then_record, Hc, He.
    rewrite decide_True; [done|]. unfold store_then_record. cbn [db].
    by rewrite last_hash_insert_same.
Qed.

(** C2. A snapshot by the daemon appends exactly one row: the next id, the
    file's path and digest, no message, the clock reading and type auto;
    and it stores the file's bytes under their digest. *)
Theorem auto_snapshot_one_row p now d d' h :
  create_auto_snapshot p now d = Ok (d', Some h) →
  rows (db d') = rows (db d) ++ [mk_commit (S (seq (db d))) p h None now Auto] ∧
  ∃ c, files d !! p = Some c ∧ hexdigest c = h ∧ objects d' = <[h := c]> (objects d).
Proof.
  destruct (create_auto_snapshot_noop p now d) as [E | (c & Hc & _ & _ & E)];
    rewrite E; intros; simplify_eq. split; [done|]. eauto.
Qed.

(** C3. The dashboard's "add snapshot" action is not idempotent: two
    presses of [a] on an unchanged file insert two rows with the same
    digest, unlike the daemon's handler (C1). *)
Theorem add_snapshot_duplicates `{!HexDigests} p c t1 t2 d :
  files d !! p = Some c →
  ∃ d1 d2,
    action_add_snapshot p t1 d = Ok (d1, NoticeSnapshotAdded) ∧
    action_add_snapshot p t2 d1 = Ok (d2, NoticeSnapshotAdded) ∧
    rows (db d2) = rows (db d) ++ [mk_commit (S (seq (db d))) p (hexdigest c) None t1 Auto;
                                   mk_commit (S (S (seq (db d)))) p (hexdigest c) None t2 Auto].
Proof.
  intros Hc. exists (store_then_record p c t1 d), (store_then_record p c t2 (store_then_record p c t1 d)).
  rewrite !action_add_snapshot_spec, files_store_then_record, Hc, hexdigest_nonempty.
  split_and!; [done..|]. simpl. by rewrite <- app_assoc.
Qed.

(** C4. Both snapshot handlers preserve the invariant of the shared state:
    every blob hashes to its key, every row references a stored blob, and
    ids are distinct and bounded by the sequence. *)
Theorem snapshot_preserves_wf p now d :
  disk_wf d →
  (∀ d' o, create_auto_snapshot p now d = Ok (d', o) → disk_wf d') ∧
  (∀ d' n, action_add_snapshot p now d = Ok (d', n) → disk_wf d').
Proof.
  intros Hwf. split; intros d' x.
  - destruct (create_auto_snapshot_noop p now d) as [E | (c & _ & _ & _ & E)];
      rewrite E; intros; simplify_eq; auto with filegit.
  - rewrite action_add_snapshot_spec. destruct (files d !! p) as [c|]; [|intros; by simplify_eq].
    destruct (hexdigest c =? "")%string; intros; simplify_eq; auto with filegit.
Qed.

End SnapshotProperties.

Section ClockSkew.
Context `{Hasher}.

Lemma last_hash_single p r i :
  rows i = [r] → file_path r = p → select_last_hash p i = Some (object_hash r).
Proof.
  intros Hr Hp. unfold select_last_hash, select_history. rewrite Hr.
  rewrite (filter_singleton_True _ _ []) by done. reflexivity.
Qed.

(** C5. [ORDER BY timestamp] trusts the wall clock: when the clock reading
    of a snapshot is older than the file's latest commit (the naive local
    time of [datetime.now()] moves back by an hour when daylight saving
    time ends), the new row does not become the latest one, and the next
    event on the unchanged file takes a second, duplicate snapshot. *)
Theorem auto_snapshot_clock_skew `{!CollisionFree, !HexDigests} p old new ts0 t1 t2 objs :
  old ≠ new → String.leb ts0 t1 = false →
  let d0 := mk_disk {[p := new]} objs {| rows := [mk_commit 1 p (hexdigest old) None ts0 Auto]; seq := 1 |} in
  ∃ d1 d2,
    create_auto_snapshot p t1 d0 = Ok (d1, Some (hexdigest new)) ∧
    create_auto_snapshot p t2 d1 = Ok (d2, Some (hexdigest new)) ∧
    rows (db d2) = rows (db d0) ++ [mk_commit 2 p (hexdigest new) None t1 Auto;
                                    mk_commit 3 p (hexdigest new) None t2 Auto].
Proof.
  intros Hne Hskew d0.
  assert (Hdig : Some (hexdigest new) ≠ Some (hexdigest old)) by (intros [= ?%hexdigest_inj]; congruence).
  exists (store_then_record p new t1 d0), (store_then_record p new t2 (store_then_record p new t1 d0)).
  rewrite !create_auto_snapshot_spec, files_store_then_record. cbn [files d0].
  rewrite lookup_singleton_eq, hexdigest_nonempty.
  rewrite (last_hash_single p (mk_commit 1 p (hexdigest old) None ts0 Auto)) by done.
  rewrite decide_False by done.
  assert (select_last_hash p (db (store_then_record p new t1 d0)) = Some (hexdigest old)) as ->.
  { unfold select_last_hash, select_history. cbn.
    rewrite decide_True by done. rewrite decide_True by done. simpl. by rewrite Hskew. }
  rewrite decide_False by done. split_and!; [done..|]. reflexivity.
Qed.

End ClockSkew.

(** ** Witnesses *)

Lemma auto_snapshot_idempotent_witness :
  @clock_ahead "/home/u/notes.txt" "2025-01-01T10:00:00" (setup_repo None) ∧
  @create_auto_snapshot hex_hasher "/home/u/notes.txt" "2025-01-01T10:00:05"
    (@store_then_record hex_hasher "/home/u/notes.txt" "a" "2025-01-01T10:00:00"
       (mk_disk {[ "/home/u/notes.txt" := "a" ]} ∅ (setup_repo None)))
  = Ok (@store_then_record hex_hasher "/home/u/notes.txt" "a" "2025-01-01T10:00:00"
          (mk_disk {[ "/home/u/notes.txt" := "a" ]} ∅ (setup_repo None)), None).
Proof.
  split; [intros r Hr; inversion Hr|].
  apply (@auto_snapshot_idempotent hex_hasher _ "2025-01-01T10:00:00" _
           (mk_disk {[ "/home/u/notes.txt" := "a" ]} ∅ (setup_repo None)) _
           (Some (@hexdigest hex_hasher "a"))).
  - intros r Hr. inversion Hr.
  - reflexivity.
Defined.

Lemma auto_snapshot_one_row_witness :
  rows (db (@store_then_record hex_hasher "/home/u/notes.txt" "ab" "t1"
              (mk_disk {[ "/home/u/notes.txt" := "ab" ]} ∅ (setup_repo None))))
  = [mk_commit 1 "/home/u/notes.txt" (@hexdigest hex_hasher "ab") None "t1" Auto].
Proof.
  apply (@auto_snapshot_one_row hex_hasher "/home/u/notes.txt" "t1"
           (mk_disk {[ "/home/u/notes.txt" := "ab" ]} ∅ (setup_repo None)) _
           (@hexdigest hex_hasher "ab")).
  reflexivity.
Defined.

Lemma add_snapshot_duplicates_witness :
  ∃ d1 d2,
    @action_add_snapshot hex_hasher "/home/u/notes.txt" "t1"
      (mk_disk {[ "/home/u/notes.txt" := "a" ]} ∅ (setup_repo None)) = Ok (d1, NoticeSnapshotAdded) ∧
    @action_add_snapshot hex_hasher "/home/u/notes.txt" "t2" d1 = Ok (d2, NoticeSnapshotAdded) ∧
    length (rows (db d2)) = 2.
Proof.
  destruct (@add_snapshot_duplicates hex_hasher _ "/home/u/notes.txt" "a" "t1" "t2"
              (mk_disk {[ "/home/u/notes.txt" := "a" ]} ∅ (setup_repo None)))
    as (d1 & d2 & H1 & H2 & H3); [reflexivity|].
  exists d1, d2. split_and!; [exact H1|exact H2|]. rewrite H3. reflexivity.
Defined.

Lemma snapshot_preserves_wf_witness :
  @disk_wf hex_hasher (mk_disk {[ "/home/u/notes.txt" := "a" ]} ∅ (setup_repo None)) ∧
  @disk_wf hex_hasher (@store_then_record hex_hasher "/home/u/notes.txt" "a" "t1"
                          (mk_disk {[ "/home/u/notes.txt" := "a" ]} ∅ (setup_repo None))).
Proof.
  assert (Hwf : @disk_wf hex_hasher (mk_disk {[ "/home/u/notes.txt" := "a" ]} ∅ (setup_repo None))).
  { split_and!; [apply map_Forall_empty|intros r Hr; inversion Hr|split; constructor]. }
  split; [exact Hwf|].
  apply (proj1 (@snapshot_preserves_wf hex_hasher "/home/u/notes.txt" "t1" _ Hwf) _ (Some (@hexdigest hex_hasher "a"))).
  reflexivity.
Defined.

Lemma auto_snapshot_clock_skew_witness :
  ∃ d1 d2,
    let d0 := mk_disk {[ "/home/u/notes.txt" := "ab" ]} {[ @hexdigest hex_hasher "a" := "a" ]}
                {| rows := [mk_commit 1 "/home/u/notes.txt" (@hexdigest hex_hasher "a") None
                              "2025-10-26T02:30:00" Auto]; seq := 1 |} in
    @create_auto_snapshot hex_hasher "/home/u/notes.txt" "2025-10-26T02:10:00" d0
      = Ok (d1, Some (@hexdigest hex_hasher "ab")) ∧
    @create_auto_snapshot hex_hasher "/home/u/notes.txt" "2025-10-26T02:10:01" d1
      = Ok (d2, Some (@hexdigest hex_hasher "ab")) ∧
    length (rows (db d2)) = 3.
Proof.
  destruct (@auto_snapshot_clock_skew hex_hasher _ _ "/home/u/notes.txt" "a" "ab"
              "2025-10-26T02:30:00" "2025-10-26T02:10:00" "2025-10-26T02:10:01"
              {[ @hexdigest hex_hasher "a" := "a" ]}) as (d1 & d2 & H1 & H2 & H3);
    [discriminate|reflexivity|].
  exists d1, d2. split_and!; [exact H1|exact H2|]. rewrite H3. reflexivity.
Defined.
