(* ===== verification/Timeline.v ===== *)
(** * Timeline: the dashboard's view of one file's history

    [DashboardApp.load_timeline] ([src/filegit.py]) fills the timeline
    table: an optional "(temp)" row for the unsaved working copy, then one
    row per commit, newest first.  Every row carries a key
    ["<hash>|<prev_hash>|<id>|<type>"] that the other handlers split again
    ([update_views], [action_commit_message], [action_restore_selected]).
    [update_header] shows the file's status.  This file models the three
    functions, the key encoding and its parsing, and the abstract timeline
    of the design ([build]: synthetic uncommitted entry, then commits each
    paired with its predecessor's digest), and proves that the code
    implements the abstract timeline, that the header agrees with the
    timeline, and that the key round-trips.

    A row's time column holds the stored ISO string here; [App.v] applies
    [format_timestamp] ([Timestamp.v]) to it as the table shows it.  Not
    modelled: the UTF-8 decoding of [read_text] (contents are
    read as they are stored), and [difflib.unified_diff] itself (the model
    says which two contents are diffed). *)

From Stdlib Require Import DecimalString DecimalNat Decimal.
From S2P Require Import Prelude Storage CommitIndex.

(** ** Row keys *)

(** [str(x)] of an optional string: [None] prints as ["None"]. *)
Definition py_str_opt (o : option string) : string :=
  match o with
  | Some s => s
  | None => "None"
  end.

(** [str(n)] of a non-negative integer. *)
Definition py_str_nat (n : nat) : string := NilZero.string_of_uint (Nat.to_uint n).

(** [int(s)] on a string of decimal digits; anything else raises [ValueError]. *)
Definition py_int (s : string) : res nat :=
  match NilZero.uint_of_string s with
  | Some u => Ok (Nat.of_uint u)
  | None => Err ValueError
  end.

(** The value of the [type] column as stored. *)
Definition type_str (t : commit_type) : string :=
  match t with
  | Auto => "auto"
  | Manual => "manual"
  end.

(** [f"{h}|{prev}|{a}|{b}"]. *)
Definition key_fields (h : digest) (prev : option digest) (a b : string) : string :=
  h +:+ "|" +:+ py_str_opt prev +:+ "|" +:+ a +:+ "|" +:+ b.

Definition cons_head (a : ascii) (l : list string) : list string :=
  match l with
  | [] => [String a EmptyString]
  | x :: xs => String a x :: xs
  end.

(** [s.split(sep, n)]: split at the first [n] occurrences of [sep]. *)
Fixpoint split_max (sep : ascii) (n : nat) (s : string) : list string :=
  match s with
  | EmptyString => [""]
  | String a s' =>
      if Ascii.eqb a sep then
        match n with
        | 0 => cons_head a (split_max sep 0 s')
        | S n' => "" :: split_max sep n' s'
        end
      else cons_head a (split_max sep n s')
  end.

(** [a, b, c, d = key.split('|', 4)]: unpacking needs exactly four parts. *)
Definition parse_row_key (k : string) : res (string * string * string * string) :=
  match split_max "|"%char 4 k with
  | [a; b; c; d] => Ok (a, b, c, d)
  | _ => Err ValueError
  end.

(** [needle in hay] on strings. *)
Fixpoint py_contains (needle hay : string) : bool :=
  String.prefix needle hay ||
  match hay with
  | EmptyString => false
  | String _ hay' => py_contains needle hay'
  end.

(** ** Timeline rows *)

(** One [add_row(marker, ts, hash[:12], msg, key=...)]. *)
Record tl_row := mk_tl_row {
  tl_marker : string;
  tl_time : isotime;
  tl_hash12 : string;
  tl_message : string;
  tl_key : string
}.

Definition marker_of (t : commit_type) : string :=
  match t with
  | Manual => "(*)"
  | Auto => "(')"
  end.

(** The "(temp)" row; its message is the Korean for "unsaved changes". *)
Definition temp_row (now : isotime) (h : digest) (prev : option digest) : tl_row :=
  mk_tl_row "(temp)" now (String.substring 0 12 h) "unsaved changes"
    (key_fields h prev "temp" "temp").

Definition commit_row (log : commit) (prev : option digest) : tl_row :=
  mk_tl_row (marker_of (ctype log)) (timestamp log) (String.substring 0 12 (object_hash log))
    (default "" (message log))
    (key_fields (object_hash log) prev (py_str_nat (commit_id log)) (type_str (ctype log))).

Section Views.
Context `{Hasher}.

(** [DashboardApp.load_timeline]. *)
Definition load_timeline (fs : gmap path content) (i : index) (p : path) (now : isotime)
    : list tl_row :=
  let logs := select_history p i in
  let last_commit := head logs in
  let current_hash := get_file_hash fs p in
  let is_modified :=
    match last_commit with
    | None => true
    | Some lc => py_truthy current_hash && negb (bool_decide (current_hash = Some (object_hash lc)))
    end in
  (if is_modified && py_truthy current_hash then
     match current_hash with
     | Some h => [temp_row now h (object_hash <$> last_commit)]
     | None => []
     end
   else []) ++
  imap (λ k log, commit_row log (object_hash <$> logs !! S k)) logs.

Inductive status := StatusDeleted | StatusModified | StatusUpToDate.

(** [DashboardApp.update_header]. *)
Definition update_header (fs : gmap path content) (i : index) (p : path) : status :=
  let current_hash := get_file_hash fs p in
  if negb (py_truthy current_hash) then StatusDeleted
  else match select_last_hash p i with
       | None => StatusModified
       | Some h => if bool_decide (current_hash = Some h) then StatusUpToDate else StatusModified
       end.

(** What the diff panel shows: nothing to compare, the unified diff of two
    contents, or the error placeholder. *)
Inductive diff_view := DiffNoPrevious | DiffOf (old new : content) | DiffFailed.

(** [DashboardApp.update_views] on the highlighted row's key: the content
    panel ([None] is the "cannot read" placeholder) and the diff panel.
    [None] when there is no key (the handler returns early). *)
Definition update_views (objs : gmap digest content) (fs : gmap path content) (p : path)
    (key : option string) : option (res (option content * diff_view)) :=
  match key with
  | None | Some EmptyString => None
  | Some k => Some (
      '(current_hash, prev_hash, _, _) ← parse_row_key k;
      let shown :=
        if py_truthy (Some current_hash) && blob_exists objs current_hash
        then objs !! current_hash else fs !! p in
      if (prev_hash =? "")%string || (prev_hash =? "None")%string then Ok (shown, DiffNoPrevious)
      else
        let diff :=
          match objs !! prev_hash with
          | None => DiffFailed
          | Some prev_content =>
              match (if py_contains "temp" k then fs !! p else objs !! current_hash) with
              | Some cur => DiffOf prev_content cur
              | None => DiffFailed
              end
          end in
        Ok (shown, diff))
  end.

End Views.

(** ** The abstract timeline of the design *)

Inductive entry :=
| Uncommitted (d : digest) (pred : option digest)
| Committed (c : commit) (pred : option digest).

(** Every commit paired with the digest of the next older one. *)
Fixpoint with_pred (l : list commit) : list entry :=
  match l with
  | [] => []
  | c :: rest => Committed c (object_hash <$> head rest) :: with_pred rest
  end.

Section Build.
Context `{Hasher}.

(** [build(path)]: the synthetic entry when the live digest differs from
    the head's, then the history newest first. *)
Definition build (fs : gmap path content) (i : index) (p : path) : list entry :=
  let hist := select_history p i in
  let hd := object_hash <$> head hist in
  match get_file_hash fs p with
  | Some cur => if decide (Some cur = hd) then [] else [Uncommitted cur hd]
  | None => []
  end ++ with_pred hist.

Definition render (now : isotime) (e : entry) : tl_row :=
  match e with
  | Uncommitted d pred => temp_row now d pred
  | Committed c pred => commit_row c pred
  end.

(** What the design's views show for an entry: its content (the working
    file for the uncommitted entry, the stored blob for a commit) and the
    diff of its predecessor's content against it. *)
Definition entry_view (objs : gmap digest content) (fs : gmap path content) (p : path)
    (e : entry) : option content * diff_view :=
  let '(cur, pred) :=
    match e with
    | Uncommitted _ pred => (fs !! p, pred)
    | Committed c pred => (objs !! object_hash c, pred)
    end in
  (cur, match pred with
        | None => DiffNoPrevious
        | Some h =>
            match objs !! h, cur with
            | Some old, Some new => DiffOf old new
            | _, _ => DiffFailed
            end
        end).

End Build.

(** ** Lemmas on keys *)

(** The string has no ['|']. *)
Definition no_bar (s : string) : bool :=
  forallb (λ a, negb (Ascii.eqb a "|"%char)) (String.list_ascii_of_string s).

Lemma split_max_no_bar n s : no_bar s = true → split_max "|"%char n s = [s].
Proof.
  revert n. induction s as [|a s IH]; intros n Hs; [done|].
  unfold no_bar in Hs. simpl in Hs. apply andb_prop in Hs as [Ha Hs].
  apply negb_true_iff in Ha. simpl. rewrite Ha. by rewrite IH.
Qed.

Lemma split_max_app n a b :
  no_bar a = true → split_max "|"%char (S n) (a +:+ String "|"%char b) = a :: split_max "|"%char n b.
Proof.
  induction a as [|x a IH]; intros Ha; [done|].
  unfold no_bar in Ha. simpl in Ha. apply andb_prop in Ha as [Hx Ha].
  apply negb_true_iff in Hx. simpl. rewrite Hx. by rewrite IH.
Qed.

Lemma hex_no_bar s : is_hex s = true → no_bar s = true.
Proof.
  unfold is_hex, no_bar. intros [_ Hs]%andb_prop. revert Hs.
  induction (String.list_ascii_of_string s) as [|a l IH]; [done|]. simpl.
  intros [Ha Hl]%andb_prop. rewrite IH by done.
  destruct (Ascii.eqb_spec a "|"%char) as [->|]; [discriminate|done].
Qed.

Lemma no_bar_uint d : no_bar (NilEmpty.string_of_uint d) = true.
Proof. induction d; simpl; auto. Qed.

Lemma no_bar_py_str_nat n : no_bar (py_str_nat n) = true.
Proof.
  unfold py_str_nat, NilZero.string_of_uint. destruct (Nat.to_uint n); [done|..];
    apply no_bar_uint.
Qed.

Lemma to_uint_not_nil n : Nat.to_uint n ≠ Nil.
Proof.
  intros E. pose proof (Unsigned.of_to n) as Hn. rewrite E in Hn. simpl in Hn.
  subst n. discriminate.
Qed.

Lemma py_int_str n : py_int (py_str_nat n) = Ok n.
Proof.
  unfold py_int, py_str_nat. rewrite NilZero.usu by apply to_uint_not_nil.
  by rewrite Unsigned.of_to.
Qed.

Lemma no_bar_type_str t : no_bar (type_str t) = true.
Proof. by destruct t. Qed.

Lemma bar_app x : "|" +:+ x = String "|"%char x.
Proof. reflexivity. Qed.

Lemma parse_key_fields h prev a b :
  no_bar h = true → no_bar (py_str_opt prev) = true → no_bar a = true → no_bar b = true →
  parse_row_key (key_fields h prev a b) = Ok (h, py_str_opt prev, a, b).
Proof.
  intros Hh Hp Ha Hb. unfold parse_row_key, key_fields.
  rewrite !bar_app, !split_max_app by done. by rewrite split_max_no_bar.
Qed.

Lemma no_bar_py_str_opt_hex (prev : option digest) :
  (∀ d, prev = Some d → is_hex d = true) → no_bar (py_str_opt prev) = true.
Proof. destruct prev as [d|]; [|done]. intros Hd. apply hex_no_bar. by apply Hd. Qed.

(** ** Lemmas on the timeline *)

Lemma imap_commit_rows now (l : list commit) :
  imap (λ k log, commit_row log (object_hash <$> l !! S k)) l = render now <$> with_pred l.
Proof.
  induction l as [|x l IH]; [done|]. rewrite imap_cons. cbn [with_pred]. rewrite fmap_cons.
  f_equal.
  - by destruct l.
  - rewrite <- IH. by apply imap_ext.
Qed.

Lemma elem_of_with_pred c pred l :
  Committed c pred ∈ with_pred l →
  c ∈ l ∧ ∀ h, pred = Some h → ∃ c', c' ∈ l ∧ object_hash c' = h.
Proof.
  induction l as [|x l IH]; simpl; intros Hin; [inversion Hin|].
  apply elem_of_cons in Hin as [[= -> ->] | Hin].
  - split; [by left|]. intros h Hh. destruct l as [|y l]; simplify_eq/=.
    exists y. split; [by right; left|done].
  - destruct (IH Hin) as [Hc Hp]. split; [by right|].
    intros h Hh. destruct (Hp h Hh) as (c' & ? & ?). exists c'. split; [by right|done].
Qed.

(** ** The ["temp" in key] test *)

(** The string has no ['p']. *)
Definition no_p (s : string) : bool :=
  forallb (λ a, negb (Ascii.eqb a "p"%char)) (String.list_ascii_of_string s).

Lemma no_p_app a b : no_p (a +:+ b) = no_p a && no_p b.
Proof. unfold no_p. by rewrite list_ascii_of_string_app, forallb_app. Qed.

Lemma prefix_temp_no_p s : String.prefix "temp" s = true → no_p s = false.
Proof.
  destruct s as [|a1 [|a2 [|a3 [|a4 s]]]]; simpl; try discriminate;
    repeat (case_match; try discriminate); subst; reflexivity.
Qed.

Lemma py_contains_temp_no_p s : no_p s = true → py_contains "temp" s = false.
Proof.
  induction s as [|a s IH]; intros Hs; [done|].
  cbn [py_contains]. destruct (String.prefix "temp" (String a s)) eqn:E.
  - by rewrite prefix_temp_no_p in Hs.
  - simpl. apply IH. unfold no_p in *. simpl in Hs. by apply andb_prop in Hs as [_ ?].
Qed.

Lemma py_contains_app_r n a b : py_contains n b = true → py_contains n (a +:+ b) = true.
Proof.
  intros Hb. induction a as [|x a IH]; [done|]. simpl. rewrite IH. apply orb_true_r.
Qed.

Lemma hex_no_p s : is_hex s = true → no_p s = true.
Proof.
  unfold is_hex, no_p. intros [_ Hs]%andb_prop. revert Hs.
  induction (String.list_ascii_of_string s) as [|a l IH]; [done|]. simpl.
  intros [Ha Hl]%andb_prop. rewrite IH by done.
  destruct (Ascii.eqb_spec a "p"%char) as [->|]; [discriminate|done].
Qed.

Lemma no_p_uint d : no_p (NilEmpty.string_of_uint d) = true.
Proof. induction d; simpl; auto. Qed.

Lemma no_p_py_str_nat n : no_p (py_str_nat n) = true.
Proof.
  unfold py_str_nat, NilZero.string_of_uint. destruct (Nat.to_uint n); [done|..]; apply no_p_uint.
Qed.

(** A commit row's key never contains ["temp"]; the temp row's always does. *)
Lemma commit_key_not_temp h prev n t :
  is_hex h = true → (∀ d, prev = Some d → is_hex d = true) →
  py_contains "temp" (key_fields h prev (py_str_nat n) (type_str t)) = false.
Proof.
  intros Hh Hp. apply py_contains_temp_no_p. unfold key_fields.
  rewrite !no_p_app, hex_no_p, no_p_py_str_nat by done.
  destruct prev as [d|]; cbn [py_str_opt]; [rewrite (hex_no_p d) by auto|]; by destruct t.
Qed.

Lemma temp_key_temp h prev : py_contains "temp" (key_fields h prev "temp" "temp") = true.
Proof. unfold key_fields. by do 6 apply py_contains_app_r. Qed.

Section TimelineLemmas.
Context `{Hasher, !HexDigests}.

Lemma py_truthy_get_file_hash fs p :
  py_truthy (get_file_hash fs p) = bool_decide (is_Some (get_file_hash fs p)).
Proof.
  destruct (get_file_hash fs p) as [h|] eqn:E; [|done].
  apply get_file_hash_Some in E as (c & _ & <-). by rewrite py_truthy_hexdigest.
Qed.

Lemma timeline_temp_part fs i p now :
  load_timeline fs i p now =
  (match get_file_hash fs p with
   | Some cur => if decide (Some cur = object_hash <$> head (select_history p i)) then []
                 else [temp_row now cur (object_hash <$> head (select_history p i))]
   | None => []
   end) ++ (render now <$> with_pred (select_history p i)).
Proof.
  unfold load_timeline. rewrite (imap_commit_rows now), py_truthy_get_file_hash. f_equal.
  destruct (get_file_hash fs p) as [h|]; simpl; [|by destruct (head _)].
  destruct (head (select_history p i)) as [lc|]; simpl.
  - by repeat case_decide; simplify_eq.
  - done.
Qed.

Lemma hex_not_None s : is_hex s = true → (s =? "None")%string = false.
Proof. intros Hs. apply String.eqb_neq. intros ->. discriminate Hs. Qed.

Lemma hex_not_empty s : is_hex s = true → (s =? "")%string = false.
Proof. intros Hs. apply String.eqb_neq. intros ->. discriminate Hs. Qed.

(** [update_views] on a well-formed key, in closed form. *)
Lemma update_views_fields objs fs p h prev a b :
  is_hex h = true → (∀ d, prev = Some d → is_hex d = true) → no_bar a = true → no_bar b = true →
  update_views objs fs p (Some (key_fields h prev a b)) =
  Some (Ok (if blob_exists objs h then objs !! h else fs !! p,
            match prev with
            | None => DiffNoPrevious
            | Some d =>
                match objs !! d with
                | None => DiffFailed
                | Some old =>
                    match (if py_contains "temp" (key_fields h prev a b) then fs !! p else objs !! h) with
                    | Some cur => DiffOf old cur
                    | None => DiffFailed
                    end
                end
            end)).
Proof.
  intros Hh Hp Ha Hb. unfold update_views.
  assert (key_fields h prev a b ≠ EmptyString) as Hne.
  { unfold key_fields. destruct h; discriminate. }
  destruct (key_fields h prev a b) as [|x k] eqn:Ek; [done|]. rewrite <- Ek.
  rewrite parse_key_fields by auto using hex_no_bar, no_bar_py_str_opt_hex. simpl.
  rewrite (hex_not_empty h) by done. cbn [negb andb].
  destruct prev as [d|]; cbn [py_str_opt]; [|done].
  by rewrite hex_not_empty, hex_not_None by auto.
Qed.

Lemma uncommitted_not_with_pred d pred l : Uncommitted d pred ∉ with_pred l.
Proof. induction l as [|x l IH]; simpl; [apply not_elem_of_nil|]. rewrite elem_of_cons. naive_solver. Qed.

(** The entries of the timeline: the uncommitted one names the live
    digest, the others are commits of the file; every predecessor is the
    digest of a commit of the file. *)
Lemma elem_of_build fs i p e :
  e ∈ build fs i p →
  (∃ c0 pred, e = Uncommitted (hexdigest c0) pred ∧ fs !! p = Some c0 ∧
     ∀ h, pred = Some h → ∃ c', c' ∈ select_history p i ∧ object_hash c' = h) ∨
  (∃ c pred, e = Committed c pred ∧ c ∈ select_history p i ∧
     ∀ h, pred = Some h → ∃ c', c' ∈ select_history p i ∧ object_hash c' = h).
Proof.
  unfold build. intros [He|He]%elem_of_app.
  - left. destruct (get_file_hash fs p) as [cur|] eqn:Ec; [|by apply not_elem_of_nil in He].
    case_decide; [by apply not_elem_of_nil in He|]. apply list_elem_of_singleton in He as ->.
    apply get_file_hash_Some in Ec as (c0 & Hc0 & <-). exists c0, (object_hash <$> head (select_history p i)). split_and!; [done|done|].
    intros h (c' & Hhd & ->)%fmap_Some. exists c'. split; [by apply head_Some_elem_of|done].
  - right. destruct e as [d pred|c pred]; [by apply uncommitted_not_with_pred in He|].
    apply elem_of_with_pred in He. eauto.
Qed.

(** The time column of every row: the clock reading for the "(temp)" row,
    the stored timestamp of a commit of the file for the others. *)
Lemma load_timeline_times fs i p now r :
  r ∈ load_timeline fs i p now →
  tl_time r = now ∨ ∃ c, c ∈ rows i ∧ file_path c = p ∧ tl_time r = timestamp c.
Proof.
  unfold load_timeline. rewrite (imap_commit_rows now). intros [Hr|Hr]%elem_of_app.
  - left. repeat case_match; try by apply not_elem_of_nil in Hr.
    all: by apply list_elem_of_singleton in Hr as ->.
  - right. apply list_elem_of_fmap in Hr as ([d pred|c pred] & -> & He);
      [by apply uncommitted_not_with_pred in He|].
    apply elem_of_with_pred in He as [(Hc & Hp)%elem_of_history _]. by exists c.
Qed.

End TimelineLemmas.

(** ** Properties *)

Section TimelineProperties.
Context `{Hasher, !HexDigests}.

(** C6. Refinement: the rows [load_timeline] adds to the table are the
    rendering of the design's abstract timeline [build]: a "(temp)" row
    exactly when the live digest differs from the latest commit's (with
    that commit's digest as predecessor), then every commit newest first,
    each keyed with the digest of the next older commit. *)
Theorem load_timeline_refines fs i p now :
  load_timeline fs i p now = render now <$> build fs i p.
Proof.
  rewrite timeline_temp_part. unfold build. rewrite fmap_app. f_equal.
  destruct (get_file_hash fs p); [|done]. by case_decide.
Qed.

(** C7. The header's status agrees with the timeline: "[DELETED]" exactly
    when the file is absent, "[MODIFIED]" exactly when the timeline starts
    with the synthetic uncommitted entry, "[up-to-date]" otherwise. *)
Theorem header_agrees_with_timeline fs i p :
  update_header fs i p =
  match fs !! p with
  | None => StatusDeleted
  | Some _ =>
      match build fs i p with
      | Uncommitted _ _ :: _ => StatusModified
      | _ => StatusUpToDate
      end
  end.
Proof.
  unfold update_header, build, select_last_hash. rewrite py_truthy_get_file_hash.
  unfold get_file_hash. destruct (fs !! p) as [c|]; [|done]. simpl.
  destruct (select_history p i) as [|lc hist]; simpl; [done|].
  case_bool_decide; [by rewrite decide_True | by rewrite decide_False].
Qed.

(** C8. Round trip of a commit row's key: splitting it at ['|'] into four
    fields and reading the id back with [int] gives the row's digest, its
    predecessor as printed, its id and its type, whenever the digests are
    hex strings (so contain no ['|']). *)
Theorem commit_row_key_roundtrip c prev :
  is_hex (object_hash c) = true → (∀ d, prev = Some d → is_hex d = true) →
  ('(h, pv, cid, ty) ← parse_row_key (tl_key (commit_row c prev));
   n ← py_int cid; Ok (h, pv, n, ty))
  = Ok (object_hash c, py_str_opt prev, commit_id c, type_str (ctype c)).
Proof.
  intros Hh Hp. simpl. rewrite parse_key_fields.
  - simpl. by rewrite py_int_str.
  - by apply hex_no_bar.
  - by apply no_bar_py_str_opt_hex.
  - apply no_bar_py_str_nat.
  - apply no_bar_type_str.
Qed.

Lemma history_after_three p h1 h2 h3 t1 t2 t3 i0 :
  (∀ r, r ∈ rows i0 → file_path r ≠ p) → String.le t1 t2 → String.le t2 t3 →
  select_history p (insert_commit p h3 t3 Auto (insert_commit p h2 t2 Auto
                      (insert_commit p h1 t1 Auto i0).1).1).1
  = [mk_commit (S (S (S (seq i0)))) p h3 None t3 Auto;
     mk_commit (S (S (seq i0))) p h2 None t2 Auto;
     mk_commit (S (seq i0)) p h1 None t1 Auto].
Proof.
  intros Hnone H12 H23.
  assert (Hclk : ∀ t, clock_ahead p t i0) by (intros t r Hr Hp; by destruct (Hnone r Hr)).
  assert (Hh0 : select_history p i0 = []) by (apply history_nil; exact Hnone).
  rewrite history_insert_same; [rewrite history_insert_same; [rewrite history_insert_same|]|].
  - by rewrite Hh0.
  - apply Hclk.
  - intros r Hr Hp. rewrite insert_commit_rows in Hr.
    apply elem_of_app in Hr as [Hr | ->%list_elem_of_singleton]; [by destruct (Hnone r Hr)|done].
  - intros r Hr Hp. rewrite !insert_commit_rows in Hr.
    apply elem_of_app in Hr as [[Hr | ->%list_elem_of_singleton]%elem_of_app | ->%list_elem_of_singleton];
      [by destruct (Hnone r Hr)| |done].
    simpl. by trans t2.
Qed.

(** C9. The timeline scenario of the design: after three snapshots C1, C2,
    C3 of a file with non-decreasing clock readings, the timeline is
    [C3, C2, C1], each paired with the digest of the one before it, when
    the file is unchanged since C3; once the file's digest differs, it is
    [uncommitted(pred = C3's digest), C3, C2, C1]. *)
Theorem timeline_three_snapshots fs p h1 h2 h3 t1 t2 t3 i0 :
  (∀ r, r ∈ rows i0 → file_path r ≠ p) → String.le t1 t2 → String.le t2 t3 →
  let i3 := (insert_commit p h3 t3 Auto (insert_commit p h2 t2 Auto
               (insert_commit p h1 t1 Auto i0).1).1).1 in
  let cs := [Committed (mk_commit (S (S (S (seq i0)))) p h3 None t3 Auto) (Some h2);
             Committed (mk_commit (S (S (seq i0))) p h2 None t2 Auto) (Some h1);
             Committed (mk_commit (S (seq i0)) p h1 None t1 Auto) None] in
  (get_file_hash fs p = Some h3 → build fs i3 p = cs) ∧
  (∀ h', get_file_hash fs p = Some h' → h' ≠ h3 → build fs i3 p = Uncommitted h' (Some h3) :: cs).
Proof.
  intros Hnone H12 H23 i3 cs. unfold build, i3.
  rewrite history_after_three by done. simpl.
  split; [intros -> | intros h' -> Hne]; [by rewrite decide_True|].
  rewrite decide_False; [done|congruence].
Qed.

End TimelineProperties.

Section ViewsProperties.
Context `{Hasher, !HexDigests, !CollisionFree}.

(** A live file's bytes are what the store holds under their digest, if
    anything. *)
Lemma shown_live (objs : gmap digest content) (fs : gmap path content) p c0 :
  objects_wf objs → fs !! p = Some c0 →
  (if blob_exists objs (hexdigest c0) then objs !! hexdigest c0 else fs !! p) = fs !! p.
Proof.
  intros Hwf Hc0. destruct (blob_exists objs (hexdigest c0)) eqn:Eb; [|done].
  apply blob_exists_true in Eb as [c' Hc']. rewrite Hc', Hc0.
  by rewrite (hexdigest_inj _ _ (objects_wf_lookup _ _ _ Hwf Hc')).
Qed.

Lemma update_views_entry objs fs i p now e :
  objects_wf objs → (∀ r, r ∈ rows i → file_path r = p → is_Some (objs !! object_hash r)) →
  e ∈ build fs i p →
  update_views objs fs p (Some (tl_key (render now e))) = Some (Ok (entry_view objs fs p e)).
Proof.
  intros Hwf Hst He.
  destruct (elem_of_build fs i p e He) as [(c0 & pred & -> & Hc0 & Hpred) | (c & pred & -> & Hc & Hpred)];
    assert (∀ d, pred = Some d → is_Some (objs !! d)) as Hps
      by (intros d (c' & (Hr & Hp)%elem_of_history & <-)%Hpred; by apply Hst);
    assert (∀ d, pred = Some d → is_hex d = true) as Hph
      by (intros d Hd; apply (stored_hex objs); auto).
  - cbn [render temp_row tl_key].
    rewrite update_views_fields by (auto using hexdigest_hex).
    rewrite temp_key_temp, (shown_live objs fs p c0) by done. unfold entry_view.
    destruct pred as [d|]; [|done]. destruct (Hps d eq_refl) as [old ->]. by rewrite Hc0.
  - apply elem_of_history in Hc as [Hr Hp].
    destruct (Hst c Hr Hp) as [b Hb].
    cbn [render commit_row tl_key].
    rewrite update_views_fields
      by (auto using no_bar_py_str_nat, no_bar_type_str; apply (stored_hex objs); eauto).
    rewrite commit_key_not_temp by (auto; apply (stored_hex objs); eauto).
    assert (blob_exists objs (object_hash c) = true) as -> by (apply blob_exists_true; eauto).
    unfold entry_view. rewrite Hb. destruct pred as [d|]; [|done].
    destruct (Hps d eq_refl) as [old ->]. done.
Qed.

(** C33. The content and diff panels follow the timeline: when every
    commit of the file has its blob in a well-formed store, highlighting
    any row of the timeline shows that entry's content (the working file
    for the "(temp)" row, the stored blob for a commit) and the diff of its
    predecessor's blob against it.  In particular the ["temp" in key]
    test never mistakes a commit row for the temp row. *)
Theorem views_follow_timeline objs fs i p now e :
  objects_wf objs → (∀ r, r ∈ rows i → file_path r = p → is_Some (objs !! object_hash r)) →
  e ∈ build fs i p →
  update_views objs fs p (Some (tl_key (render now e))) = Some (Ok (entry_view objs fs p e)).
Proof. apply update_views_entry. Qed.

End ViewsProperties.

(** ** Witnesses *)

Lemma load_timeline_refines_witness :
  @load_timeline hex_hasher {[ "/home/u/notes.txt" := "ab" ]}
    (insert_commit "/home/u/notes.txt" (@hexdigest hex_hasher "a") "t1" Auto (setup_repo None)).1
    "/home/u/notes.txt" "t2"
  = render "t2" <$> @build hex_hasher {[ "/home/u/notes.txt" := "ab" ]}
      (insert_commit "/home/u/notes.txt" (@hexdigest hex_hasher "a") "t1" Auto (setup_repo None)).1
      "/home/u/notes.txt".
Proof. apply (@load_timeline_refines hex_hasher _). Defined.

Lemma header_agrees_with_timeline_witness :
  @update_header hex_hasher {[ "/home/u/notes.txt" := "ab" ]}
    (insert_commit "/home/u/notes.txt" (@hexdigest hex_hasher "a") "t1" Auto (setup_repo None)).1
    "/home/u/notes.txt" = StatusModified.
Proof. rewrite (@header_agrees_with_timeline hex_hasher _). reflexivity. Defined.

Lemma commit_row_key_roundtrip_witness :
  ('(h, pv, cid, ty) ← parse_row_key
      (tl_key (commit_row (mk_commit 7 "/home/u/notes.txt" (@hexdigest hex_hasher "ab") None "t2" Manual)
                 (Some (@hexdigest hex_hasher "a"))));
   n ← py_int cid; Ok (h, pv, n, ty))
  = Ok (@hexdigest hex_hasher "ab", @hexdigest hex_hasher "a", 7, "manual").
Proof.
  apply (commit_row_key_roundtrip
           (mk_commit 7 "/home/u/notes.txt" (@hexdigest hex_hasher "ab") None "t2" Manual)
           (Some (@hexdigest hex_hasher "a"))).
  - reflexivity.
  - intros d [= <-]. reflexivity.
Defined.

Lemma timeline_three_snapshots_witness :
  @build hex_hasher {[ "/home/u/notes.txt" := "abc" ]}
    (insert_commit "/home/u/notes.txt" (@hexdigest hex_hasher "abc") "2025-01-01T10:00:03" Auto
      (insert_commit "/home/u/notes.txt" (@hexdigest hex_hasher "ab") "2025-01-01T10:00:02" Auto
        (insert_commit "/home/u/notes.txt" (@hexdigest hex_hasher "a") "2025-01-01T10:00:01" Auto
           (setup_repo None)).1).1).1 "/home/u/notes.txt"
  = [Committed (mk_commit 3 "/home/u/notes.txt" (@hexdigest hex_hasher "abc") None "2025-01-01T10:00:03" Auto)
       (Some (@hexdigest hex_hasher "ab"));
     Committed (mk_commit 2 "/home/u/notes.txt" (@hexdigest hex_hasher "ab") None "2025-01-01T10:00:02" Auto)
       (Some (@hexdigest hex_hasher "a"));
     Committed (mk_commit 1 "/home/u/notes.txt" (@hexdigest hex_hasher "a") None "2025-01-01T10:00:01" Auto)
       None].
Proof.
  apply (@timeline_three_snapshots hex_hasher {[ "/home/u/notes.txt" := "abc" ]} "/home/u/notes.txt"
           _ _ _ "2025-01-01T10:00:01" "2025-01-01T10:00:02" "2025-01-01T10:00:03" (setup_repo None)).
  - intros r Hr. inversion Hr.
  - reflexivity.
  - reflexivity.
  - reflexivity.
Defined.

Lemma views_follow_timeline_witness :
  update_views {[ @hexdigest hex_hasher "a" := "a" ]} {[ "/home/u/notes.txt" := "ab" ]}
    "/home/u/notes.txt"
    (Some (tl_key (render "t2" (Uncommitted (@hexdigest hex_hasher "ab") (Some (@hexdigest hex_hasher "a"))))))
  = Some (Ok (Some "ab", DiffOf "a" "ab")).
Proof.
  rewrite (@views_follow_timeline hex_hasher _ _ _ _
             (insert_commit "/home/u/notes.txt" (@hexdigest hex_hasher "a") "t1" Auto (setup_repo None)).1).
  - reflexivity.
  - apply map_Forall_singleton. reflexivity.
  - intros r Hr _. simpl in Hr. apply list_elem_of_singleton in Hr as ->. eexists.
    apply lookup_singleton_eq.
  - vm_compute. constructor.
Defined.
