(* ===== verification/Dashboard.v ===== *)
(** * Dashboard: the interactive handlers of [DashboardApp]

    Besides the snapshot action (in [Snapshot.v]) the dashboard
    ([src/filegit.py]) has three handlers that change state, all driven by
    the key of the highlighted timeline row:
    - [action_commit_message] (key [c]) and its callback [on_submit]:
      promote an auto commit to manual with a message;
    - [action_restore_selected] (key [r]): copy a stored blob over the file;
    - [action_forget_file] (key [f]) with the timer callback
      [cancel_forget]: a two-press confirmation before deleting every
      commit of the file.
    The app's own state is the highlighted key and the forget protocol's
    flag; the 5-second timer is modelled by the number of timers scheduled
    and not yet fired, and its expiry is an event. *)

From S2P Require Import Prelude Storage CommitIndex Snapshot Timeline.

(** ** Promotion *)

(** [action_commit_message] followed by [on_submit].  [typed] is what the
    modal screen is dismissed with ([event.value or None]); [None] when it
    is left without submitting.  The notice is [None] when nothing is
    shown. *)
Definition action_commit_message (key : option string) (typed : option string) (i : index)
    : res (index * option notice) :=
  match key with
  | None => Ok (i, Some NoticeSelectRowFirst)
  | Some k =>
      '(_, _, commit_id, commit_type) ← parse_row_key k;
      if (commit_type =? "manual")%string then Ok (i, Some NoticeAlreadyManual)
      else if (commit_type =? "temp")%string then Ok (i, Some NoticeSnapshotFirst)
      else
        cid ← py_int commit_id;
        match typed with
        | Some msg =>
            if (msg =? "")%string then Ok (i, None)
            else Ok (update_manual msg cid i, Some (NoticeCommitted msg))
        | None => Ok (i, None)
        end
  end.

(** ** Restore *)

(** [action_restore_selected]: the copy raises [FileNotFoundError] when the
    blob is missing; the notice shows the first 7 hex digits. *)
Definition action_restore_selected (key : option string) (p : path)
    (objs : gmap digest content) (fs : gmap path content)
    : res (gmap path content * option notice) :=
  match key with
  | None => Ok (fs, Some NoticeSelectRowFirst)
  | Some k =>
      '(selected_hash, _, _, commit_type) ← parse_row_key k;
      if (commit_type =? "temp")%string then Ok (fs, Some NoticeWorkingVersion)
      else
        fs' ← copy_from_objects objs selected_hash p fs;
        Ok (fs', Some (NoticeRestored (String.substring 0 7 selected_hash)))
  end.

(** ** Forget: a two-press confirmation *)

Record forget_state := mk_forget_state {
  is_forget_pending : bool;   (** [self.is_forget_pending] *)
  timers : nat;               (** [set_timer(5, cancel_forget)] scheduled, not yet fired *)
  exited : bool               (** [self.exit(...)] was called *)
}.

Definition forget_init : forget_state := mk_forget_state false 0 false.

(** [action_forget_file]: the second press deletes and exits. *)
Definition action_forget_file (p : path) (st : forget_state) (i : index)
    : index * forget_state * option notice :=
  if is_forget_pending st then
    (delete_path p i, mk_forget_state (is_forget_pending st) (timers st) true, None)
  else
    (i, mk_forget_state true (S (timers st)) (exited st), Some NoticeConfirmForget).

(** [cancel_forget], run when a timer fires. *)
Definition cancel_forget (st : forget_state) : forget_state * option notice :=
  if is_forget_pending st then
    (mk_forget_state false (timers st) (exited st), Some NoticeForgetCancelled)
  else (st, None).

(** The events the protocol sees: a press of [f], the expiry of a timer. *)
Inductive forget_event := PressF | TimerFires.

(** One event on a running app; nothing happens once it has exited, and a
    timer can only fire when one is scheduled. *)
Definition forget_step (p : path) (ev : forget_event) (s : forget_state * index)
    : forget_state * index :=
  let '(st, i) := s in
  if exited st then s
  else match ev with
       | PressF => let '(i', st', _) := action_forget_file p st i in (st', i')
       | TimerFires =>
           match timers st with
           | 0 => s
           | S n => ((cancel_forget (mk_forget_state (is_forget_pending st) n (exited st))).1, i)
           end
       end.

Definition forget_run (p : path) (evs : list forget_event) (s : forget_state * index)
    : forget_state * index :=
  fold_left (λ s ev, forget_step p ev s) evs s.

(** ** Lemmas *)

Lemma elem_of_build_committed `{Hasher} fs i p c pred :
  Committed c pred ∈ build fs i p →
  c ∈ rows i ∧ ∀ h, pred = Some h → ∃ c', c' ∈ rows i ∧ object_hash c' = h.
Proof.
  unfold build. intros Hin. apply elem_of_app in Hin as [Hin|Hin].
  - destruct (get_file_hash fs p); [case_decide|]; set_solver.
  - apply elem_of_with_pred in Hin as [Hc Hp].
    split; [by apply elem_of_history in Hc as [? _]|].
    intros h Hh. destruct (Hp h Hh) as (c' & Hc' & <-). apply elem_of_history in Hc' as [? _]. eauto.
Qed.

(** The key of a commit row whose digests are stored parses back. *)
Lemma parse_commit_row_key `{Hasher, !HexDigests} objs c prev :
  objects_wf objs → is_Some (objs !! object_hash c) →
  (∀ h, prev = Some h → is_Some (objs !! h)) →
  parse_row_key (tl_key (commit_row c prev))
  = Ok (object_hash c, py_str_opt prev, py_str_nat (commit_id c), type_str (ctype c)).
Proof.
  intros Hwf Hc Hp. apply parse_key_fields.
  - apply hex_no_bar. by eapply stored_hex.
  - apply no_bar_py_str_opt_hex. intros h ->. eapply stored_hex; [done|by apply Hp].
  - apply no_bar_py_str_nat.
  - apply no_bar_type_str.
Qed.

Lemma forget_run_exited p evs st i :
  exited st = true → forget_run p evs (st, i) = (st, i).
Proof.
  intros He. induction evs as [|ev evs IH]; [done|]. simpl. rewrite He. exact IH.
Qed.

Lemma double_press_cons ev evs :
  (∃ l1 l2, ev :: evs = l1 ++ PressF :: PressF :: l2) ↔
  (ev = PressF ∧ head evs = Some PressF) ∨ ∃ l1 l2, evs = l1 ++ PressF :: PressF :: l2.
Proof.
  split.
  - intros ([|e l1] & l2 & E); simplify_eq/=; [by left|]. right. eauto.
  - intros [[-> Hh] | (l1 & l2 & ->)].
    + destruct evs as [|e evs]; simplify_eq/=. by exists [], evs.
    + by exists (ev :: l1), l2.
Qed.

(** Running the protocol from a non-exited state whose timer count matches
    its flag. *)
Lemma forget_run_spec p evs b i :
  let s := forget_run p evs (mk_forget_state b (if b then 1 else 0) false, i) in
  (exited s.1 = true ↔ (b = true ∧ head evs = Some PressF) ∨
                       ∃ l1 l2, evs = l1 ++ PressF :: PressF :: l2) ∧
  s.2 = if exited s.1 then delete_path p i else i.
Proof.
  revert b. induction evs as [|ev evs IH]; intros b; simpl.
  - split; [|done]. split; [done|]. intros [[_ ?] | ([|? ?] & ? & ?)]; discriminate.
  - rewrite double_press_cons. destruct ev, b; simpl.
    + rewrite forget_run_exited by done. simpl. split; [|done]. split; [|done]. by left; split.
    + destruct (IH true) as [IH1 IH2]. split; [|done]. rewrite IH1. naive_solver.
    + destruct (IH false) as [IH1 IH2]. split; [|done]. rewrite IH1. naive_solver.
    + destruct (IH false) as [IH1 IH2]. split; [|done]. rewrite IH1. naive_solver.
Qed.

(** ** Properties *)

Section DashboardProperties.
Context `{Hasher, !HexDigests}.

(** C10. Restore correctness: on a well-formed state, restoring any commit
    of the file's timeline succeeds, makes the file's digest equal to that
    commit's digest, and leaves every other file untouched. *)
Theorem restore_timeline_commit d p now c pred :
  disk_wf d → Committed c pred ∈ build (files d) (db d) p →
  ∃ fs',
    action_restore_selected (Some (tl_key (render now (Committed c pred)))) p (objects d) (files d)
      = Ok (fs', Some (NoticeRestored (String.substring 0 7 (object_hash c)))) ∧
    get_file_hash fs' p = Some (object_hash c) ∧
    ∀ q, q ≠ p → fs' !! q = files d !! q.
Proof.
  intros (Hobj & Hrefs & _) Hin. apply elem_of_build_committed in Hin as [Hc Hp].
  destruct (Hrefs c Hc) as [b Hb].
  assert (Hpred : ∀ h, pred = Some h → is_Some (objects d !! h)).
  { intros h Hh. destruct (Hp h Hh) as (c' & Hc' & <-). by apply Hrefs. }
  exists (<[p := b]> (files d)). change (render now (Committed c pred)) with (commit_row c pred).
  unfold action_restore_selected. rewrite (parse_commit_row_key (objects d)) by eauto. simpl.
  assert ((type_str (ctype c) =? "temp")%string = false) as -> by by destruct (ctype c).
  rewrite (copy_from_objects_present _ _ _ _ b Hb). split_and!; [done| |].
  - unfold get_file_hash. rewrite lookup_insert_eq. simpl. f_equal.
    exact (objects_wf_lookup _ _ _ Hobj Hb).
  - intros q Hq. by rewrite lookup_insert_ne.
Qed.

(** C11. Restoring a row whose blob is missing from the store raises
    [FileNotFoundError] (uncaught in the action), and the files are not
    changed. *)
Theorem restore_missing_blob c prev p objs fs :
  objs !! object_hash c = None →
  is_hex (object_hash c) = true → (∀ h, prev = Some h → is_hex h = true) →
  action_restore_selected (Some (tl_key (commit_row c prev))) p objs fs
  = Err (FileNotFoundError (object_hash c)).
Proof.
  intros Hnone Hh Hp. simpl. rewrite parse_key_fields.
  - simpl. assert ((type_str (ctype c) =? "temp")%string = false) as -> by by destruct (ctype c).
    by rewrite copy_from_objects_missing.
  - by apply hex_no_bar.
  - by apply no_bar_py_str_opt_hex.
  - apply no_bar_py_str_nat.
  - apply no_bar_type_str.
Qed.

(** C12. The commit-message handler on a commit row of a well-formed
    state: a manual row is refused with a warning and nothing changes; an
    auto row is promoted with the typed message, unless the dialog is left
    or submitted empty, in which case nothing changes. *)
Theorem commit_message_on_commit_row d c prev typed :
  disk_wf d → c ∈ rows (db d) → (∀ h, prev = Some h → is_Some (objects d !! h)) →
  action_commit_message (Some (tl_key (commit_row c prev))) typed (db d) =
  match ctype c with
  | Manual => Ok (db d, Some NoticeAlreadyManual)
  | Auto =>
      match typed with
      | Some msg =>
          if (msg =? "")%string then Ok (db d, None)
          else Ok (update_manual msg (commit_id c) (db d), Some (NoticeCommitted msg))
      | None => Ok (db d, None)
      end
  end.
Proof.
  intros (Hobj & Hrefs & _) Hc Hp. unfold action_commit_message.
  rewrite (parse_commit_row_key (objects d)) by eauto. simpl.
  destruct (ctype c); simpl; [|done]. by rewrite py_int_str.
Qed.

(** The "(temp)" row of the working copy cannot be promoted: the
    handler asks for a snapshot first and changes nothing. *)
Theorem commit_message_on_temp_row now h prev typed i :
  is_hex h = true → (∀ d, prev = Some d → is_hex d = true) →
  action_commit_message (Some (tl_key (temp_row now h prev))) typed i
  = Ok (i, Some NoticeSnapshotFirst).
Proof.
  intros Hh Hp. simpl. rewrite parse_key_fields; [done|by apply hex_no_bar|..].
  - by apply no_bar_py_str_opt_hex.
  - done.
  - done.
Qed.

End DashboardProperties.

(** C14. The forget protocol: starting from a fresh dashboard, a sequence
    of [f] presses and timer expiries deletes the file's history (and exits)
    exactly when it contains two consecutive [f] presses, that is, a second
    press before the 5-second timer of the first one fired; otherwise the
    index is untouched. *)
Theorem forget_needs_two_presses p evs i :
  let s := forget_run p evs (forget_init, i) in
  (exited s.1 = true ↔ ∃ l1 l2, evs = l1 ++ PressF :: PressF :: l2) ∧
  s.2 = if exited s.1 then delete_path p i else i.
Proof.
  destruct (forget_run_spec p evs false i) as [H1 H2]. split; [|exact H2].
  rewrite H1. naive_solver.
Qed.

(** ** Witnesses *)

Lemma notes_disk_wf :
  @disk_wf hex_hasher (@store_then_record hex_hasher "/home/u/notes.txt" "a" "t1"
                          (mk_disk {[ "/home/u/notes.txt" := "ab" ]} ∅ (setup_repo None))).
Proof.
  apply store_then_record_wf.
  split_and!; [apply map_Forall_empty|intros r Hr; inversion Hr|split; constructor].
Qed.

Lemma restore_timeline_commit_witness :
  ∃ fs',
    action_restore_selected
      (Some (tl_key (render "t2" (Committed (mk_commit 1 "/home/u/notes.txt" (@hexdigest hex_hasher "a")
                                               None "t1" Auto) None))))
      "/home/u/notes.txt" {[ @hexdigest hex_hasher "a" := "a" ]} {[ "/home/u/notes.txt" := "ab" ]}
    = Ok (fs', Some (NoticeRestored (String.substring 0 7 (@hexdigest hex_hasher "a")))) ∧
    @get_file_hash hex_hasher fs' "/home/u/notes.txt" = Some (@hexdigest hex_hasher "a").
Proof.
  destruct (@restore_timeline_commit hex_hasher _
              (@store_then_record hex_hasher "/home/u/notes.txt" "a" "t1"
                 (mk_disk {[ "/home/u/notes.txt" := "ab" ]} ∅ (setup_repo None)))
              "/home/u/notes.txt" "t2"
              (mk_commit 1 "/home/u/notes.txt" (@hexdigest hex_hasher "a") None "t1" Auto) None)
    as (fs' & H1 & H2 & _).
  - exact notes_disk_wf.
  - apply list_elem_of_In. vm_compute. auto.
  - exists fs'. split; [exact H1|exact H2].
Defined.

Lemma restore_missing_blob_witness :
  action_restore_selected
    (Some (tl_key (commit_row (mk_commit 1 "/home/u/notes.txt" (@hexdigest hex_hasher "a") None "t1" Auto)
                     None)))
    "/home/u/notes.txt" ∅ {[ "/home/u/notes.txt" := "ab" ]}
  = Err (FileNotFoundError (@hexdigest hex_hasher "a")).
Proof.
  apply restore_missing_blob; [reflexivity|reflexivity|intros h [=]].
Defined.

Lemma commit_message_on_commit_row_witness :
  action_commit_message
    (Some (tl_key (commit_row (mk_commit 1 "/home/u/notes.txt" (@hexdigest hex_hasher "a") None "t1" Auto)
                     None)))
    (Some "checkpoint")
    (db (@store_then_record hex_hasher "/home/u/notes.txt" "a" "t1"
           (mk_disk {[ "/home/u/notes.txt" := "ab" ]} ∅ (setup_repo None))))
  = Ok (update_manual "checkpoint" 1
          (db (@store_then_record hex_hasher "/home/u/notes.txt" "a" "t1"
                 (mk_disk {[ "/home/u/notes.txt" := "ab" ]} ∅ (setup_repo None)))),
        Some (NoticeCommitted "checkpoint")).
Proof.
  rewrite (@commit_message_on_commit_row hex_hasher _
             (@store_then_record hex_hasher "/home/u/notes.txt" "a" "t1"
                (mk_disk {[ "/home/u/notes.txt" := "ab" ]} ∅ (setup_repo None)))).
  - reflexivity.
  - exact notes_disk_wf.
  - apply list_elem_of_In. vm_compute. auto.
  - intros h [=].
Defined.

Lemma commit_message_on_temp_row_witness :
  action_commit_message (Some (tl_key (temp_row "t2" (@hexdigest hex_hasher "ab")
                                         (Some (@hexdigest hex_hasher "a")))))
    (Some "checkpoint") (setup_repo None)
  = Ok (setup_repo None, Some NoticeSnapshotFirst).
Proof.
  apply commit_message_on_temp_row; [reflexivity|intros d [= <-]; reflexivity].
Defined.
