(* ===== verification/App.v ===== *)
(** * App: [DashboardApp] as a whole

    [filegit timeline FILE] runs [DashboardApp(Path(filepath))]
    ([src/filegit.py]).  The app's own state is the highlighted row's key,
    the forget protocol's flag and timers, and what its widgets show: the
    header's status, the timeline's rows, the content and diff panels, and
    the notifications.  Key presses are dispatched through [BINDINGS] to the
    handlers of [Snapshot.v] and [Dashboard.v]; a handler that changes the
    disk ends with [refresh_all] exactly where the code calls it, and
    [refresh_all] shows the rows of [load_timeline] with their times passed
    through [format_timestamp].  A Python exception escaping a handler
    stops the app with a traceback: a handler returns the disk as it left
    it and the app or the exception.  The commit message is what
    [CommitInputScreen] is dismissed with.  [timeline_opens] shows that the
    dashboard mounts without raising on an existing file whose stored
    timestamps are [isoformat()] output, and that click refuses a missing
    one. *)

From S2P Require Import Prelude Storage CommitIndex Timestamp Snapshot Timeline Dashboard.

(** [CommitInputScreen.on_input_submitted]: [self.dismiss(event.value or
    None)]; the screen has no other way to close (its prompt mentions ESC,
    but no binding dismisses it). *)
Definition commit_input_result (value : string) : option string :=
  if (value =? "")%string then None else Some value.

Record app := mk_app {
  app_path : path;                      (** [self.filepath] *)
  current_row_key : option string;      (** [self.current_row_key] *)
  app_forget : forget_state;            (** [is_forget_pending] and the timers *)
  header_status : option status;        (** [self.header.sub_text], set by [update_header] *)
  timeline_rows : list tl_row;          (** [self.timeline_panel] *)
  panels : option (option content * diff_view);  (** content and diff panels *)
  notices : list notice                 (** [self.notify] calls, latest first *)
}.

(** [DashboardApp.__init__]: nothing highlighted, no pending forget, empty
    widgets. *)
Definition app_init (p : path) : app := mk_app p None forget_init None [] None [].

(** The keys of [BINDINGS]. *)
Inductive app_key := KeyQuit | KeyAdd | KeyCommit | KeyRestore | KeyForget | KeyRefresh.

(** What reaches the app: a key press ([KeyCommit] carries what is typed in
    the input screen), the highlight of a row, or a timer firing. *)
Inductive app_event :=
| EvKey (k : app_key) (typed : string)
| EvHighlight (key : option string)
| EvTimer.

Section App.
Context `{Hasher}.

Definition set_widgets (a : app) (st : status) (rows : list tl_row) : app :=
  mk_app (app_path a) (current_row_key a) (app_forget a) (Some st) rows (panels a) (notices a).

Definition notify (a : app) (n : option notice) : app :=
  mk_app (app_path a) (current_row_key a) (app_forget a) (header_status a) (timeline_rows a)
    (panels a) (default [] ((λ x, [x]) <$> n) ++ notices a).

(** The time column of a row: [ts = format_timestamp(...)], which raises
    [ValueError] on a timestamp [fromisoformat] rejects. *)
Definition render_row (r : tl_row) : res tl_row :=
  ts ← format_timestamp (tl_time r);
  Ok (mk_tl_row (tl_marker r) ts (tl_hash12 r) (tl_message r) (tl_key r)).

(** [load_timeline()] as the table shows it: the rows of [load_timeline],
    each with its timestamp formatted; the first timestamp that does not
    parse stops the method with [ValueError]. *)
Definition shown_timeline (fs : gmap path content) (i : index) (p : path) (now : isotime)
    : res (list tl_row) :=
  mapM render_row (load_timeline fs i p now).

(** [refresh_all]: [update_header()] then [load_timeline()]. *)
Definition refresh_all (a : app) (d : disk) (now : isotime) : res app :=
  rows ← shown_timeline (files d) (db d) (app_path a) now;
  Ok (set_widgets a (update_header (files d) (db d) (app_path a)) rows).

(** [on_mount]: the columns, then [refresh_all]. *)
Definition on_mount (a : app) (d : disk) (now : isotime) : res app := refresh_all a d now.

(** [action_refresh_status]. *)
Definition action_refresh_status (a : app) (d : disk) (now : isotime) : res app :=
  a' ← refresh_all a d now; Ok (notify a' (Some NoticeRefreshed)).

(** A handler's result once its change to the disk is done: the app after
    [refresh_all] when [refresh] holds, else as it is.  An exception of
    [refresh_all] comes after the change, which stays on the disk. *)
Definition refreshed_if (refresh : bool) (a : app) (d : disk) (now : isotime) : disk * res app :=
  (d, if refresh then refresh_all a d now else Ok a).

(** One event, dispatched as [BINDINGS] and the [@on] handlers do: the disk
    afterwards, and the app or the exception that stops it. *)
Definition app_handle (ev : app_event) (a : app) (d : disk) (now : isotime) : disk * res app :=
  if exited (app_forget a) then (d, Ok a) else
  match ev with
  | EvKey KeyQuit _ =>
      (d, Ok (mk_app (app_path a) (current_row_key a)
                (mk_forget_state (is_forget_pending (app_forget a)) (timers (app_forget a)) true)
                (header_status a) (timeline_rows a) (panels a) (notices a)))
  | EvKey KeyAdd _ =>
      match action_add_snapshot (app_path a) now d with
      | Err e => (d, Err e)
      | Ok (d', n) =>
          refreshed_if (match n with NoticeSnapshotAdded => true | _ => false end) (notify a (Some n)) d' now
      end
  | EvKey KeyCommit typed =>
      match action_commit_message (current_row_key a) (commit_input_result typed) (db d) with
      | Err e => (d, Err e)
      | Ok (i', n) =>
          refreshed_if (match n with Some (NoticeCommitted _) => true | _ => false end) (notify a n)
            (mk_disk (files d) (objects d) i') now
      end
  | EvKey KeyRestore _ =>
      match action_restore_selected (current_row_key a) (app_path a) (objects d) (files d) with
      | Err e => (d, Err e)
      | Ok (fs', n) =>
          refreshed_if (match n with Some (NoticeRestored _) => true | _ => false end) (notify a n)
            (mk_disk fs' (objects d) (db d)) now
      end
  | EvKey KeyForget _ =>
      let '(i', st', n) := action_forget_file (app_path a) (app_forget a) (db d) in
      (mk_disk (files d) (objects d) i',
       Ok (notify (mk_app (app_path a) (current_row_key a) st' (header_status a) (timeline_rows a)
                     (panels a) (notices a)) n))
  | EvKey KeyRefresh _ => (d, action_refresh_status a d now)
  | EvHighlight k =>
      match update_views (objects d) (files d) (app_path a) k with
      | Some (Err e) => (d, Err e)
      | Some (Ok v) =>
          (d, Ok (mk_app (app_path a) k (app_forget a) (header_status a) (timeline_rows a) (Some v) (notices a)))
      | None =>
          (d, Ok (mk_app (app_path a) k (app_forget a) (header_status a) (timeline_rows a) (panels a) (notices a)))
      end
  | EvTimer =>
      match timers (app_forget a) with
      | 0 => (d, Ok a)
      | S m =>
          let '(st', n) := cancel_forget (mk_forget_state (is_forget_pending (app_forget a)) m
                                            (exited (app_forget a))) in
          (d, Ok (notify (mk_app (app_path a) (current_row_key a) st' (header_status a) (timeline_rows a)
                           (panels a) (notices a)) n))
      end
  end.

(** [filegit init]: [setup_repo()] on whatever database file exists. *)
Definition init_cmd (db : option index) : index := setup_repo db.

(** [filegit timeline FILE]: the app is created and mounted, then handles
    the events in order until one raises; the disk is shared with nobody
    else here. *)
Fixpoint app_run (evs : list (app_event * isotime)) (a : app) (d : disk) : disk * res app :=
  match evs with
  | [] => (d, Ok a)
  | (ev, now) :: evs' =>
      match app_handle ev a d now with
      | (d', Ok a') => app_run evs' a' d'
      | (d', Err e) => (d', Err e)
      end
  end.

(** [click.Path(exists=True)] rejects a missing [FILEPATH] with a usage
    error before the command runs: [None]. *)
Definition timeline_cmd (p : path) (d : disk) (now : isotime) (evs : list (app_event * isotime))
    : option (disk * res app) :=
  match files d !! p with
  | None => None
  | Some _ =>
      Some (match on_mount (app_init p) d now with
            | Ok a => app_run evs a d
            | Err e => (d, Err e)
            end)
  end.

End App.

(** ** Lemmas *)

Lemma render_row_key r r' : render_row r = Ok r' → tl_key r' = tl_key r.
Proof. unfold render_row. destruct (format_timestamp (tl_time r)); simpl; by intros [= <-]. Qed.

Lemma render_row_iso r d : dt_valid d = true → tl_time r = isoformat d → ∃ r', render_row r = Ok r'.
Proof.
  intros Hd Ht. unfold render_row, format_timestamp. rewrite Ht, fromisoformat_isoformat by done.
  by eexists.
Qed.

Lemma Forall2_render_keys l l' :
  Forall2 (λ x y, render_row x = Ok y) l l' → tl_key <$> l' = tl_key <$> l.
Proof. induction 1 as [|x y l l' Hxy _ IH]; [done|]. rewrite !fmap_cons, IH. by rewrite (render_row_key x y). Qed.

Section AppLemmas.
Context `{Hasher}.

(** The table shows every row of [load_timeline] when the clock reading
    and every stored timestamp are [isoformat()] output. *)
Lemma shown_timeline_Ok fs i p dn :
  iso_stamped i → dt_valid dn = true →
  ∃ rows, shown_timeline fs i p (isoformat dn) = Ok rows ∧
          tl_key <$> rows = tl_key <$> load_timeline fs i p (isoformat dn).
Proof.
  intros Hi Hdn. unfold shown_timeline.
  destruct (mapM_res_Ok render_row (load_timeline fs i p (isoformat dn))) as (rows & Hm & Hf).
  { intros r [Ht|(c & Hc & _ & Ht)]%load_timeline_times; [by apply (render_row_iso r dn)|].
    destruct (Hi c Hc) as (dc & Hdc & Ec). apply (render_row_iso r dc); congruence. }
  exists rows. split; [done|]. by apply Forall2_render_keys.
Qed.

End AppLemmas.

(** ** Properties *)

Section AppProperties.
Context `{Hasher}.

(** The dashboard opens: when the clock reading and every stored timestamp
    are [isoformat()] output, [filegit timeline FILE] on an existing file
    mounts without raising, with [update_header]'s status in the header and
    the rows of [load_timeline], times formatted, in the table; on a
    missing file click stops with a usage error before the app exists. *)
Theorem timeline_opens p d dn :
  iso_stamped (db d) → dt_valid dn = true →
  (files d !! p = None → timeline_cmd p d (isoformat dn) [] = None) ∧
  (is_Some (files d !! p) →
   ∃ a, timeline_cmd p d (isoformat dn) [] = Some (d, Ok a) ∧
        header_status a = Some (update_header (files d) (db d) p) ∧
        tl_key <$> timeline_rows a = tl_key <$> load_timeline (files d) (db d) p (isoformat dn)).
Proof.
  intros Hi Hdn. unfold timeline_cmd. split; [by intros ->|intros [c ->]].
  destruct (shown_timeline_Ok (files d) (db d) p dn Hi Hdn) as (rows & Hr & Hk).
  unfold on_mount, refresh_all, app_init. cbn [app_path]. rewrite Hr. simpl. by eexists.
Qed.

End AppProperties.
