(* ===== verification/Watchlist.v ===== *)
(** * Watchlist: the set of files the daemon watches

    [~/.filegit/watchlist.json] holds a JSON array of absolute paths.  The
    CLI commands [watch], [unwatch] and [watch-list] ([src/filegit.py]) read
    it with [get_watchlist] as a Python [set] and write it back with
    [save_watchlist].  The program only ever writes an array of strings;
    the other shapes model a file edited by hand, which [set(json.load(f))]
    turns into a set of characters or keys, or rejects with [TypeError]
    (not caught), while text that is not JSON is read as the empty set. *)

From S2P Require Import Prelude.

(** What [json.load] finds in the file. *)
Inductive wl_file :=
| WLStrings (l : list string)   (** an array of strings *)
| WLText (s : string)           (** a string: [set] of its characters *)
| WLObject (keys : list string) (** an object: [set] of its keys *)
| WLUnhashable                  (** a number, boolean or null, or an array holding an
                                    array or an object: [set] raises [TypeError] *)
| WLMalformed.                  (** not JSON: [JSONDecodeError] *)

(** [get_watchlist()]: [None] is a missing file. *)
Definition get_watchlist (wf : option wl_file) : res (gset path) :=
  match wf with
  | None => Ok ∅
  | Some (WLStrings l) => Ok (list_to_set l)
  | Some (WLText s) => Ok (list_to_set ((λ a, String a EmptyString) <$> String.list_ascii_of_string s))
  | Some (WLObject ks) => Ok (list_to_set ks)
  | Some WLUnhashable => Err TypeError
  | Some WLMalformed => Ok ∅
  end.

(** [save_watchlist(watchlist)]: [json.dump(list(watchlist))], in the set's
    iteration order. *)
Definition save_watchlist (wl : gset path) : wl_file := WLStrings (elements wl).

(** What the commands print. *)
Inductive wl_msg :=
| MsgWatchAdded        (** "added to the watch list; restart the daemon" *)
| MsgAlreadyWatched    (** "already watched" *)
| MsgUnwatched         (** "removed from the watch list; restart the daemon" *)
| MsgNotWatched        (** "not in the watch list" *)
| MsgNoSuchPath.       (** click's usage error for [click.Path(exists=True)] *)

(** [watch FILEPATH]: the argument must exist. *)
Definition watch (p : path) (fs : gmap path content) (wf : option wl_file)
    : res (option wl_file * wl_msg) :=
  match fs !! p with
  | None => Ok (wf, MsgNoSuchPath)
  | Some _ =>
      wl ← get_watchlist wf;
      if decide (p ∉ wl) then Ok (Some (save_watchlist ({[p]} ∪ wl)), MsgWatchAdded)
      else Ok (wf, MsgAlreadyWatched)
  end.

(** [unwatch FILEPATH]: the argument need not exist. *)
Definition unwatch (p : path) (wf : option wl_file) : res (option wl_file * wl_msg) :=
  wl ← get_watchlist wf;
  if decide (p ∈ wl) then Ok (Some (save_watchlist (wl ∖ {[p]})), MsgUnwatched)
  else Ok (wf, MsgNotWatched).

(** [watch-list]: [sorted(list(watchlist))]; the empty list is the "no
    watched files" message. *)
Definition watch_list (wf : option wl_file) : res (list path) :=
  wl ← get_watchlist wf;
  Ok (merge_sort String.le (elements wl)).

(** ** Lemmas *)

Lemma get_save_watchlist wl : get_watchlist (Some (save_watchlist wl)) = Ok wl.
Proof. simpl. by rewrite list_to_set_elements_L. Qed.

#[export] Hint Rewrite get_save_watchlist : filegit_simpl.

(** ** Properties *)

(** C15. [watch] and [unwatch] on a readable watch list: [watch] of an
    existing file leaves the set [{p} ∪ wl] in the file and reports "added"
    exactly when [p] was not there; [unwatch] leaves [wl ∖ {p}] and reports
    "removed" exactly when [p] was there. *)
Theorem watch_unwatch_spec p fs c wf wl :
  get_watchlist wf = Ok wl → fs !! p = Some c →
  (∃ wf' m, watch p fs wf = Ok (wf', m) ∧ get_watchlist wf' = Ok ({[p]} ∪ wl) ∧
            (m = MsgWatchAdded ↔ p ∉ wl)) ∧
  (∃ wf' m, unwatch p wf = Ok (wf', m) ∧ get_watchlist wf' = Ok (wl ∖ {[p]}) ∧
            (m = MsgUnwatched ↔ p ∈ wl)).
Proof.
  intros Hwl Hc. unfold watch, unwatch. rewrite Hc, Hwl. simpl. split.
  - case_decide as Hp.
    + eexists _, _. rewrite get_save_watchlist. split_and!; [done..|]. naive_solver.
    + eexists _, _. split_and!; [done| |split; [discriminate|done]].
      rewrite Hwl. f_equal. set_solver.
  - case_decide as Hp.
    + eexists _, _. rewrite get_save_watchlist. split_and!; [done..|]. naive_solver.
    + eexists _, _. split_and!; [done| |split; [discriminate|done]].
      rewrite Hwl. f_equal. set_solver.
Qed.

(** Round trip: watching a file that was not watched and unwatching
    it again gives back the same set of watched files. *)
Theorem watch_then_unwatch p fs c wf wl :
  get_watchlist wf = Ok wl → fs !! p = Some c → p ∉ wl →
  ∃ wf1 wf2,
    watch p fs wf = Ok (wf1, MsgWatchAdded) ∧ unwatch p wf1 = Ok (wf2, MsgUnwatched) ∧
    get_watchlist wf2 = Ok wl.
Proof.
  intros Hwl Hc Hp. unfold watch, unwatch. rewrite Hc, Hwl. simpl.
  rewrite decide_True by done. eexists _, _. split; [done|].
  rewrite get_save_watchlist. simpl. rewrite decide_True by set_solver.
  split; [done|]. rewrite get_save_watchlist. f_equal. set_solver.
Qed.

(** C17. A corrupted watch list: when the file is not JSON, [watch]
    silently replaces it with a list holding only the new path (the
    previous entries are lost); when it holds a JSON value that [set()]
    rejects, the command raises [TypeError]. *)
Theorem watch_corrupt_file p fs c :
  fs !! p = Some c →
  watch p fs (Some WLMalformed) = Ok (Some (save_watchlist {[p]}), MsgWatchAdded) ∧
  watch p fs (Some WLUnhashable) = Err TypeError.
Proof.
  intros Hc. unfold watch. rewrite Hc. simpl. split; [|done].
  rewrite decide_True by set_solver.
  by replace ({[p]} ∪ ∅ : gset path) with ({[p]} : gset path) by set_solver.
Qed.

(** [watch-list] prints every watched path exactly once, in sorted
    order. *)
Theorem watch_list_sorted wf wl :
  get_watchlist wf = Ok wl →
  ∃ l, watch_list wf = Ok l ∧ Sorted String.le l ∧ NoDup l ∧ (∀ q, q ∈ l ↔ q ∈ wl).
Proof.
  intros Hwl. unfold watch_list. rewrite Hwl. eexists. split; [done|].
  split_and!.
  - apply Sorted_merge_sort. apply _.
  - rewrite merge_sort_Permutation. apply NoDup_elements.
  - intros q. rewrite merge_sort_Permutation. apply elem_of_elements.
Qed.

(** ** Witnesses *)

Lemma watch_unwatch_spec_witness :
  ∃ wf' m, watch "/home/u/notes.txt" {[ "/home/u/notes.txt" := "a" ]} (Some (WLStrings ["/home/u/todo.md"]))
             = Ok (wf', m) ∧
           get_watchlist wf' = Ok ({[ "/home/u/notes.txt" ]} ∪ {[ "/home/u/todo.md" ]}).
Proof.
  assert (Hwl : get_watchlist (Some (WLStrings ["/home/u/todo.md"])) = Ok {[ "/home/u/todo.md" ]})
    by (simpl; f_equal; set_solver).
  destruct (watch_unwatch_spec "/home/u/notes.txt" {[ "/home/u/notes.txt" := "a" ]} "a"
              (Some (WLStrings ["/home/u/todo.md"])) {[ "/home/u/todo.md" ]} Hwl (lookup_singleton_eq _ _))
    as [(wf' & m & H1 & H2 & _) _].
  exists wf', m. split; [exact H1|exact H2].
Defined.

Lemma watch_then_unwatch_witness :
  ∃ wf1 wf2,
    watch "/home/u/notes.txt" {[ "/home/u/notes.txt" := "a" ]} None = Ok (wf1, MsgWatchAdded) ∧
    unwatch "/home/u/notes.txt" wf1 = Ok (wf2, MsgUnwatched) ∧ get_watchlist wf2 = Ok ∅.
Proof.
  apply (watch_then_unwatch "/home/u/notes.txt" {[ "/home/u/notes.txt" := "a" ]} "a" None ∅);
    [reflexivity|reflexivity|set_solver].
Defined.

Lemma watch_corrupt_file_witness :
  watch "/home/u/notes.txt" {[ "/home/u/notes.txt" := "a" ]} (Some WLMalformed)
  = Ok (Some (save_watchlist {[ "/home/u/notes.txt" ]}), MsgWatchAdded).
Proof.
  exact (proj1 (watch_corrupt_file "/home/u/notes.txt" {[ "/home/u/notes.txt" := "a" ]} "a" (lookup_singleton_eq _ _))).
Defined.

Lemma watch_list_sorted_witness :
  ∃ l, watch_list (Some (WLStrings ["/b"; "/a"])) = Ok l ∧ Sorted String.le l.
Proof.
  assert (Hwl : get_watchlist (Some (WLStrings ["/b"; "/a"])) = Ok {[ "/b"; "/a" ]})
    by (simpl; f_equal; set_solver).
  destruct (watch_list_sorted (Some (WLStrings ["/b"; "/a"])) {[ "/b"; "/a" ]} Hwl) as (l & H1 & H2 & _).
  exists l. split; [exact H1|exact H2].
Defined.
