(* ===== verification/Daemon.v ===== *)
(** * Daemon: the background watcher

    [run_daemon] ([src/filegit_daemon.py]) reads the watch list once at
    start-up, schedules a non-recursive observer on the parent directory of
    every watched file that exists, and then sleeps forever.  The observer
    calls [WatcherEventHandler.on_modified] for every modification in those
    directories; the handler keeps the events on watched files and runs
    [create_auto_snapshot], printing any exception.  This file models the
    start-up, the event delivery and filtering, and the main loop's exits.
    Path resolution ([Path.resolve()]) is the identity on the absolute,
    symlink-free paths the watch list holds. *)

From S2P Require Import Prelude Storage CommitIndex Snapshot Watchlist.

(** [str(Path(p).parent)] for a path without a trailing slash. *)
Fixpoint last_slash (s : string) (i : nat) (acc : option nat) : option nat :=
  match s with
  | EmptyString => acc
  | String a s' => last_slash s' (S i) (if Ascii.eqb a "/"%char then Some i else acc)
  end.

Definition parent_dir (p : string) : string :=
  match last_slash p 0 None with
  | None => "."
  | Some 0 => "/"
  | Some k => String.substring 0 k p
  end.

(** The running daemon: the watch list read at start-up and the
    directories the observer was scheduled on. *)
Record daemon := mk_daemon {
  watchlist_files : gset path;
  watch_dirs : gset string
}.

(** Lines of [daemon.log]. *)
Inductive log_line :=
| LogStarting
| LogWatching (n : nat)
| LogDirNotFound (dir : string)
| LogSnapshot (p : path) (h : digest)
| LogSnapshotError (p : path)
| LogLoopError
| LogStopped.

(** Start-up of [run_daemon] up to [observer.start()]: an absent watch list
    is created as ["[]"]; a JSON decoding error gives the empty set, a
    [TypeError] of [set()] is not caught.  [dir_exists] is the filesystem's
    answer to [Path(path).exists()]. *)
Definition run_daemon_start (wf : option wl_file) (dir_exists : string → bool)
    : res (option wl_file * daemon * list log_line) :=
  let wf1 := match wf with None => Some (WLStrings []) | Some f => Some f end in
  wl ← get_watchlist wf1;
  let dirs := set_map parent_dir wl : gset string in
  let scheduled := filter (λ dir, dir_exists dir = true) dirs in
  Ok (wf1, mk_daemon wl scheduled,
      [LogStarting; LogWatching (size wl)] ++
      (LogDirNotFound <$> elements (filter (λ dir, dir_exists dir = false) dirs))).

(** A [watchdog] modification event. *)
Record fs_event := mk_fs_event {
  src_path : path;
  is_directory : bool
}.

(** [WatcherEventHandler.on_modified], calling [snap] where the code calls
    [create_auto_snapshot(filepath_str, self.conn)]; an exception of the
    snapshot is caught and printed. *)
Definition on_modified_with (snap : path → isotime → disk → res (disk * option digest))
    (dm : daemon) (ev : fs_event) (now : isotime) (d : disk) : disk * option log_line :=
  if is_directory ev then (d, None)
  else if decide (src_path ev ∈ watchlist_files dm) then
    match snap (src_path ev) now d with
    | Ok (d', Some h) => (d', Some (LogSnapshot (src_path ev) h))
    | Ok (d', None) => (d', None)
    | Err _ => (d, Some (LogSnapshotError (src_path ev)))
    end
  else (d, None).

(** The handler on a database that holds the [commits] table. *)
Definition on_modified (dm : daemon) (ev : fs_event) (now : isotime) (d : disk)
    `{Hasher} : disk * option log_line :=
  on_modified_with create_auto_snapshot dm ev now d.

(** The observer only reports events in the directories it watches. *)
Definition daemon_handle (dm : daemon) (ev : fs_event) (now : isotime) (d : disk)
    `{Hasher} : disk * option log_line :=
  if decide (parent_dir (src_path ev) ∈ watch_dirs dm) then on_modified dm ev now d
  else (d, None).

(** ** The main loop *)

(** What can happen to [while True: time.sleep(5)]: a tick, an exception
    raised in the loop, or [SIGTERM], which [DaemonContext] turns into
    [SystemExit]. *)
Inductive loop_event := Tick | LoopException | Terminate.

Inductive loop_outcome :=
| LoopRunning
| LoopExited (log : list log_line) (observer_stopped : bool).

(** [try: while True: ... except Exception: print; observer.stop()], then
    [print(... stopped)] and [observer.join()].  [SystemExit] is not an
    [Exception]: it leaves [run_daemon] at once. *)
Fixpoint daemon_loop (evs : list loop_event) : loop_outcome :=
  match evs with
  | [] => LoopRunning
  | Tick :: evs' => daemon_loop evs'
  | LoopException :: _ => LoopExited [LogLoopError; LogStopped] true
  | Terminate :: _ => LoopExited [] false
  end.

(** ** Properties *)

(** C19. Start-up of the daemon: with no watch list it creates ["[]"] and
    watches nothing; with a list [set()] rejects it crashes with
    [TypeError]; otherwise it watches exactly the listed files and the
    observer covers the directory of a watched file exactly when that
    directory exists at start-up. *)
Theorem run_daemon_start_spec wf dir_exists :
  (wf = None → ∃ logs, run_daemon_start wf dir_exists = Ok (Some (WLStrings []), mk_daemon ∅ ∅, logs)) ∧
  (wf = Some WLUnhashable → run_daemon_start wf dir_exists = Err TypeError) ∧
  (∀ f wl, wf = Some f → get_watchlist wf = Ok wl →
     ∃ dm logs, run_daemon_start wf dir_exists = Ok (wf, dm, logs) ∧ watchlist_files dm = wl ∧
       ∀ p, p ∈ wl → (parent_dir p ∈ watch_dirs dm ↔ dir_exists (parent_dir p) = true)).
Proof.
  split_and!.
  - intros ->. eexists. unfold run_daemon_start. simpl. repeat f_equal; set_solver.
  - intros ->. done.
  - intros f wl -> Hwl. unfold run_daemon_start. rewrite Hwl. simpl.
    eexists _, _. split_and!; [done|done|]. intros p Hp. simpl.
    rewrite elem_of_filter, elem_of_map. split; [by intros [? _]|].
    intros Hd. split; [done|]. by exists p.
Qed.

(** C20. The daemon changes the shared state only by snapshotting: an
    event leaves the state unchanged unless it is a file event on a
    watched file in a directory the observer covers, and then the new
    state is the file's bytes stored under their digest and one new row. *)
Theorem daemon_handle_cases `{Hasher} dm ev now d :
  (daemon_handle dm ev now d).1 = d ∨
  (src_path ev ∈ watchlist_files dm ∧ parent_dir (src_path ev) ∈ watch_dirs dm ∧
   is_directory ev = false ∧
   ∃ c, files d !! src_path ev = Some c ∧
        (daemon_handle dm ev now d).1 = store_then_record (src_path ev) c now d).
Proof.
  unfold daemon_handle, on_modified, on_modified_with.
  case_decide as Hdir; [|by left]. destruct (is_directory ev) eqn:Hd; [by left|].
  case_decide as Hw; [|by left].
  destruct (create_auto_snapshot_noop (src_path ev) now d) as [E | (c & Hc & _ & _ & E)];
    rewrite E; simpl; [by left|]. right. eauto 10.
Qed.

(** The main loop never ends by itself; an exception in it logs the
    error, stops the observer and logs "stopped", but the termination
    signal sent by [daemon-stop] ends it with neither the "stopped" line
    nor [observer.stop()]. *)
Theorem daemon_loop_exits pre rest :
  Forall (λ e, e = Tick) pre →
  daemon_loop pre = LoopRunning ∧
  daemon_loop (pre ++ LoopException :: rest) = LoopExited [LogLoopError; LogStopped] true ∧
  daemon_loop (pre ++ Terminate :: rest) = LoopExited [] false.
Proof.
  induction 1 as [|e pre He _ IH]; [done|]. subst e. exact IH.
Qed.

(** ** Witnesses *)

Lemma run_daemon_start_spec_witness :
  ∃ dm logs,
    run_daemon_start (Some (WLStrings ["/home/u/notes.txt"])) (λ dir, bool_decide (dir = "/home/u"))
      = Ok (Some (WLStrings ["/home/u/notes.txt"]), dm, logs) ∧
    "/home/u" ∈ watch_dirs dm.
Proof.
  assert (Hwl : get_watchlist (Some (WLStrings ["/home/u/notes.txt"])) = Ok {[ "/home/u/notes.txt" ]})
    by (simpl; f_equal; set_solver).
  destruct (proj2 (proj2 (run_daemon_start_spec (Some (WLStrings ["/home/u/notes.txt"]))
                                                 (λ dir, bool_decide (dir = "/home/u"))))
              _ _ eq_refl Hwl) as (dm & logs & H1 & _ & H3).
  exists dm, logs. split; [exact H1|].
  apply (H3 "/home/u/notes.txt"); [set_solver|reflexivity].
Defined.

Lemma daemon_loop_exits_witness :
  daemon_loop [Tick; Tick; Terminate; Tick] = LoopExited [] false.
Proof.
  exact (proj2 (proj2 (daemon_loop_exits [Tick; Tick] [Tick] ltac:(repeat constructor)))).
Defined.
