(* ===== verification/Lifecycle.v ===== *)
(** * Lifecycle: [daemon-start], [daemon-stop] and [daemon-status]

    The three CLI commands of [src/filegit.py] manage the background
    watcher through [~/.filegit/daemon.pid]: [daemon-start] refuses when
    the file exists, otherwise detaches with [DaemonContext], whose
    [PIDLockFile] writes ["<pid>\n"] and removes the file when the context
    closes (normal exit, an exception, or the [SystemExit] that [SIGTERM]
    raises); [daemon-stop] reads the pid and sends [SIGTERM];
    [daemon-status] probes the pid with signal 0 and shows the last ten log
    lines.  The host is modelled by the pid file, the log, the watch-list
    file and a process table; a process is the filegit daemon (with the
    state [run_daemon] set up), another process of the same user, or a
    process of another user ([os.kill] raises [PermissionError]).  Things
    the program does not do but that happen to it (a [kill -9] of the
    daemon, other processes starting and exiting, reuse of a pid) are
    steps of the environment in [lc_step].  [fg_dir] records whether
    [~/.filegit] exists: [daemon-start] opens its log file there with
    mode ["w+"] before detaching and raises [FileNotFoundError] without
    it; the commands that create it ([init], [watch], [timeline]) are
    [Cli.mkdir_host]. *)

From Stdlib Require Import DecimalString DecimalNat Decimal.
From S2P Require Import Prelude Timeline Watchlist Daemon.

(** ** Reading the pid file *)

(** The characters [str.strip()] removes (the ASCII whitespace). *)
Definition py_space (a : ascii) : bool :=
  Ascii.eqb a " " || Ascii.eqb a "009" || Ascii.eqb a "010" || Ascii.eqb a "011" ||
  Ascii.eqb a "012" || Ascii.eqb a "013".

Fixpoint lstrip (l : list ascii) : list ascii :=
  match l with
  | [] => []
  | a :: l' => if py_space a then lstrip l' else l
  end.

(** [s.strip()]. *)
Definition py_strip (s : string) : string :=
  String.string_of_list_ascii (rev (lstrip (rev (lstrip (String.list_ascii_of_string s))))).

(** What [PIDLockFile] writes: ["%d\n" % os.getpid()], the pid and a
    newline (character 10). *)
Definition pid_contents (n : nat) : string := py_str_nat n +:+ String "010"%char EmptyString.

(** [int(f.read().strip())].  [py_int] accepts exactly the strings of
    decimal digits; Python's [int] also takes a sign, underscores and
    non-ASCII digits, which no pid file the program writes contains. *)
Definition read_pid (s : string) : res nat := py_int (py_strip s).

(** ** The host *)

Inductive proc :=
| PDaemon (dm : daemon)   (** the filegit daemon, in its [run_daemon] loop *)
| POwn                    (** another process of the same user *)
| PForeign.               (** a process of another user *)

(** What [daemon.log] holds: the daemon's own lines, or the failure that
    [daemon_start] prints (its [stderr] is the log). *)
Inductive log_entry :=
| LogDaemon (l : log_line)
| LogStartFailed (e : failure).

Record host := mk_host {
  pid_file : option string;     (** [~/.filegit/daemon.pid] *)
  procs : gmap nat proc;        (** live processes by pid *)
  log : list log_entry;         (** [~/.filegit/daemon.log] *)
  hwl : option wl_file;         (** [~/.filegit/watchlist.json] *)
  fg_dir : bool                 (** the directory [~/.filegit] exists *)
}.

(** A machine where filegit never ran: no [~/.filegit]. *)
Definition host_init : host := mk_host None ∅ [] None false.

(** ** The commands *)

Inductive start_msg :=
| StartAlreadyRunning          (** "the daemon seems to be running already" *)
| StartLaunched                (** "starting the daemon", then the fork *)
| StartCrashed (e : failure).  (** an uncaught exception: a traceback *)

(** [daemon_start], the daemon process getting pid [n] and [dir_exists]
    answering [Path.exists()] in it.  [open(LOG_FILE_PATH, 'w+')] comes
    before the [try]: without [~/.filegit] it raises [FileNotFoundError]
    and nothing starts.  Otherwise the log is truncated; a [TypeError] of
    [run_daemon] is caught by [except Exception], printed to the log, and
    the context closes, removing the pid file. *)
Definition daemon_start (n : nat) (dir_exists : string → bool) (h : host) : host * start_msg :=
  match pid_file h with
  | Some _ => (h, StartAlreadyRunning)
  | None =>
      if negb (fg_dir h) then (h, StartCrashed (FileNotFoundError "~/.filegit/daemon.log")) else
      match run_daemon_start (hwl h) dir_exists with
      | Ok (wf, dm, logs) =>
          (mk_host (Some (pid_contents n)) (<[n := PDaemon dm]> (procs h)) (LogDaemon <$> logs) wf (fg_dir h),
           StartLaunched)
      | Err e =>
          (mk_host None (procs h) [LogDaemon LogStarting; LogStartFailed e] (hwl h) (fg_dir h), StartLaunched)
      end
  end.

Inductive stop_msg :=
| StopNotRunning          (** "the daemon is not running" *)
| StopUnreadable          (** "cannot read the PID file" *)
| StopSignalSent (pid : nat)
| StopNoProcess (pid : nat)   (** [ProcessLookupError]: the pid file is removed *)
| StopError.              (** any other exception of [os.kill] *)

(** [daemon_stop].  [SIGTERM] ends the daemon at once ([SystemExit], see
    [daemon_loop]) and the closing context removes the pid file; another
    process of the user dies of the signal's default action. *)
Definition daemon_stop (h : host) : host * stop_msg :=
  match pid_file h with
  | None => (h, StopNotRunning)
  | Some s =>
      match read_pid s with
      | Err _ => (h, StopUnreadable)
      | Ok pid =>
          match procs h !! pid with
          | Some (PDaemon _) =>
              (mk_host None (delete pid (procs h)) (log h) (hwl h) (fg_dir h), StopSignalSent pid)
          | Some POwn =>
              (mk_host (pid_file h) (delete pid (procs h)) (log h) (hwl h) (fg_dir h), StopSignalSent pid)
          | Some PForeign => (h, StopError)
          | None => (mk_host None (procs h) (log h) (hwl h) (fg_dir h), StopNoProcess pid)
          end
      end
  end.

Inductive status_msg :=
| StatusNotRunning
| StatusRunning (pid : nat) (tail : list log_entry)
| StatusAbnormal.         (** "seems to have died; clean up with daemon-stop" *)

(** [lines[-10:]]. *)
Definition last10 {A} (l : list A) : list A := drop (length l - 10) l.

(** [daemon_status]: [os.kill(pid, 0)] succeeds on any live process of the
    user and raises [OSError] otherwise. *)
Definition daemon_status (h : host) : status_msg :=
  match pid_file h with
  | None => StatusNotRunning
  | Some s =>
      match read_pid s with
      | Err _ => StatusAbnormal
      | Ok pid =>
          match procs h !! pid with
          | Some (PDaemon _) | Some POwn => StatusRunning pid (last10 (log h))
          | Some PForeign | None => StatusAbnormal
          end
      end
  end.

(** ** Runs of the host *)

Inductive lc_step : host → host → Prop :=
| lc_start h n dir_exists :
    procs h !! n = None → lc_step h (daemon_start n dir_exists h).1
| lc_stop h : lc_step h (daemon_stop h).1
(** A [kill -9] of the daemon: the pid file stays. *)
| lc_crash h n dm :
    procs h !! n = Some (PDaemon dm) →
    lc_step h (mk_host (pid_file h) (delete n (procs h)) (log h) (hwl h) (fg_dir h))
(** Another process starts on a free pid, or ends. *)
| lc_spawn h n :
    procs h !! n = None →
    lc_step h (mk_host (pid_file h) (<[n := POwn]> (procs h)) (log h) (hwl h) (fg_dir h))
| lc_spawn_foreign h n :
    procs h !! n = None →
    lc_step h (mk_host (pid_file h) (<[n := PForeign]> (procs h)) (log h) (hwl h) (fg_dir h))
| lc_exit h n :
    (procs h !! n = Some POwn ∨ procs h !! n = Some PForeign) →
    lc_step h (mk_host (pid_file h) (delete n (procs h)) (log h) (hwl h) (fg_dir h))
(** [init], [timeline] or [watch] create [~/.filegit]; [watch] and
    [unwatch] rewrite the watch list in it. *)
| lc_mkdir h : lc_step h (mk_host (pid_file h) (procs h) (log h) (hwl h) true)
| lc_edit_watchlist h wf : fg_dir h = true → lc_step h (mk_host (pid_file h) (procs h) (log h) wf true).

Inductive lc_reach : host → Prop :=
| lc_reach_init : lc_reach host_init
| lc_reach_step h h' : lc_reach h → lc_step h h' → lc_reach h'.

(** ** Lemmas *)

Lemma no_space_uint d : forallb (λ a, negb (py_space a)) (String.list_ascii_of_string (NilEmpty.string_of_uint d)) = true.
Proof. induction d; simpl; auto. Qed.

Lemma py_str_nat_chars n :
  String.list_ascii_of_string (py_str_nat n) ≠ [] ∧
  Forall (λ a, py_space a = false) (String.list_ascii_of_string (py_str_nat n)).
Proof.
  pose proof (to_uint_not_nil n) as Hn. unfold py_str_nat, NilZero.string_of_uint.
  pose proof (no_space_uint (Nat.to_uint n)) as Hs.
  destruct (Nat.to_uint n); [done|..]; (split; [discriminate|]);
    rewrite forallb_forall in Hs; apply Forall_forall; intros a Ha;
    apply negb_true_iff, Hs, list_elem_of_In, Ha.
Qed.

Lemma lstrip_app l l' : l ≠ [] → Forall (λ a, py_space a = false) l → lstrip (l ++ l') = l ++ l'.
Proof. destruct l as [|a l]; [done|]. intros _ Hl. inversion Hl as [|? ? Ha]; subst. simpl. by rewrite Ha. Qed.

Lemma lstrip_nospace l : l ≠ [] → Forall (λ a, py_space a = false) l → lstrip l = l.
Proof. intros Hne Hl. rewrite <- (app_nil_r l) at 1. by rewrite lstrip_app, app_nil_r. Qed.

Lemma lstrip_space a l : py_space a = true → lstrip (a :: l) = lstrip l.
Proof. simpl. by intros ->. Qed.

(** The pid file the program writes reads back as its pid. *)
Lemma read_pid_contents n : read_pid (pid_contents n) = Ok n.
Proof.
  unfold read_pid, py_strip, pid_contents. rewrite list_ascii_of_string_app.
  destruct (py_str_nat_chars n) as [Hne Hsp].
  rewrite lstrip_app by done. rewrite rev_app_distr. cbn [rev app String.list_ascii_of_string].
  rewrite lstrip_space by reflexivity.
  rewrite lstrip_nospace.
  - rewrite rev_involutive, String.string_of_list_ascii_of_string. apply py_int_str.
  - intros E. apply (f_equal (@rev ascii)) in E. rewrite rev_involutive in E. by apply Hne.
  - by apply Forall_rev.
Qed.

#[export] Hint Rewrite read_pid_contents : filegit_simpl.

(** ** The pid file names the daemon *)

(** Every live daemon is the one the pid file names. *)
Definition daemon_pid (h : host) : Prop :=
  ∀ n dm, procs h !! n = Some (PDaemon dm) → pid_file h = Some (pid_contents n).

Lemma pid_contents_inj n m : pid_contents n = pid_contents m → n = m.
Proof.
  intros E. pose proof (read_pid_contents n) as Hn. rewrite E, read_pid_contents in Hn.
  by injection Hn.
Qed.

Lemma daemon_pid_read h s pid n dm :
  daemon_pid h → pid_file h = Some s → read_pid s = Ok pid →
  procs h !! n = Some (PDaemon dm) → n = pid.
Proof.
  intros Hinv Hs Hr Hn. rewrite (Hinv n dm Hn) in Hs. injection Hs as <-.
  rewrite read_pid_contents in Hr. by injection Hr.
Qed.

Lemma daemon_pid_no_file h n dm : daemon_pid h → pid_file h = None → procs h !! n ≠ Some (PDaemon dm).
Proof. intros Hinv Hn Hd. rewrite (Hinv n dm Hd) in Hn. discriminate. Qed.

Lemma daemon_pid_step h h' : daemon_pid h → lc_step h h' → daemon_pid h'.
Proof.
  intros Hinv Hs.
  destruct Hs as [h n dir Hn|h|h n dm0 Hn|h n Hn|h n Hn|h n Hn|h|h wf Hd]; intros m dm Hm; simpl in *.
  - unfold daemon_start in *. destruct (pid_file h) eqn:Hp; [by eapply Hinv|].
    destruct (fg_dir h); simpl in *; [|by eapply Hinv].
    destruct (run_daemon_start (hwl h) dir) as [[[wf dm1] logs]|e]; simpl in *.
    + destruct (decide (m = n)) as [->|Hne]; [done|]. rewrite lookup_insert_ne in Hm by done.
      by destruct (daemon_pid_no_file h m dm Hinv Hp).
    + by destruct (daemon_pid_no_file h m dm Hinv Hp).
  - unfold daemon_stop in *. destruct (pid_file h) as [s|] eqn:Hp; [|by eapply Hinv].
    destruct (read_pid s) as [pid|e] eqn:Hr; [|by eapply Hinv].
    destruct (procs h !! pid) as [[dm1| |]|] eqn:Hpid; simpl in *.
    + destruct (decide (m = pid)) as [->|Hne]; [by rewrite lookup_delete_eq in Hm|].
      rewrite lookup_delete_ne in Hm by done.
      by pose proof (daemon_pid_read h s pid m dm Hinv Hp Hr Hm).
    + destruct (decide (m = pid)) as [->|Hne]; [by rewrite lookup_delete_eq in Hm|].
      rewrite lookup_delete_ne in Hm by done. rewrite <- Hp. by eapply Hinv.
    + by eapply Hinv.
    + pose proof (daemon_pid_read h s pid m dm Hinv Hp Hr Hm). subst. congruence.
  - destruct (decide (m = n)) as [->|Hne]; [by rewrite lookup_delete_eq in Hm|].
    rewrite lookup_delete_ne in Hm by done. by eapply Hinv.
  - destruct (decide (m = n)) as [->|Hne]; [by rewrite lookup_insert_eq in Hm|].
    rewrite lookup_insert_ne in Hm by done. by eapply Hinv.
  - destruct (decide (m = n)) as [->|Hne]; [by rewrite lookup_insert_eq in Hm|].
    rewrite lookup_insert_ne in Hm by done. by eapply Hinv.
  - destruct (decide (m = n)) as [->|Hne]; [by rewrite lookup_delete_eq in Hm|].
    rewrite lookup_delete_ne in Hm by done. by eapply Hinv.
  - by eapply Hinv.
  - by eapply Hinv.
Qed.

Lemma daemon_pid_reach h : lc_reach h → daemon_pid h.
Proof.
  induction 1 as [|h h' _ IH Hs]; [|by eapply daemon_pid_step].
  intros n dm Hn. simpl in Hn. by rewrite lookup_empty in Hn.
Qed.

(** Commands typed by the user, run one after the other. *)
Inductive lc_cmd := CStart (n : nat) (dir_exists : string → bool) | CStop | CStatus.

Definition run_cmd (h : host) (c : lc_cmd) : host :=
  match c with
  | CStart n dir_exists => (daemon_start n dir_exists h).1
  | CStop => (daemon_stop h).1
  | CStatus => h
  end.

Definition run_cmds (cs : list lc_cmd) (h : host) : host := fold_left run_cmd cs h.

(** ** Bringing the daemon up *)

Lemma daemon_stop_procs h : procs (daemon_stop h).1 ⊆ procs h.
Proof.
  unfold daemon_stop. repeat case_match; simpl; try done; apply delete_subseteq.
Qed.

Lemma daemon_stop_hwl h : hwl (daemon_stop h).1 = hwl h.
Proof. unfold daemon_stop. by repeat case_match. Qed.

(** The pid file, if any, is readable and names the daemon or no live
    process: the two cases where [daemon-stop] clears it without relying on
    what [SIGTERM] does to an unrelated process. *)
Definition pid_stoppable (h : host) : Prop :=
  ∀ s, pid_file h = Some s →
    ∃ pid, read_pid s = Ok pid ∧ (procs h !! pid = None ∨ ∃ dm, procs h !! pid = Some (PDaemon dm)).

(** [daemon-stop] then removes the pid file: the daemon's context closes
    on [SIGTERM], or [ProcessLookupError] leads to [os.remove]. *)
Lemma stop_clears h : pid_stoppable h → pid_file (daemon_stop h).1 = None.
Proof.
  intros Hc. unfold daemon_stop. destruct (pid_file h) as [s|] eqn:Hp; simpl; [|by rewrite Hp].
  destruct (Hc s Hp) as (pid & Hr & [Hpid|(dm & Hpid)]); by rewrite Hr, Hpid.
Qed.

Lemma daemon_stop_fg_dir h : fg_dir (daemon_stop h).1 = fg_dir h.
Proof. unfold daemon_stop. by repeat case_match. Qed.

Lemma run_daemon_start_Ok wf dir_exists :
  wf ≠ Some WLUnhashable → ∃ wf' dm logs, run_daemon_start wf dir_exists = Ok (wf', dm, logs).
Proof. intros Hwf. destruct wf as [[]|]; try done; unfold run_daemon_start; simpl; eauto. Qed.

(** ** Properties *)

(** C28. At most one daemon: in every host reached by the three commands
    and the environment's steps (crashes, other processes, pid reuse),
    two live daemons have the same pid, the pid file holds that pid and
    [daemon-status] reports it running. *)
Theorem lc_single_daemon h n m dm dm' :
  lc_reach h → procs h !! n = Some (PDaemon dm) → procs h !! m = Some (PDaemon dm') →
  m = n ∧ pid_file h = Some (pid_contents n) ∧ daemon_status h = StatusRunning n (last10 (log h)).
Proof.
  intros Hr Hn Hm. pose proof (daemon_pid_reach h Hr) as Hinv.
  pose proof (Hinv n dm Hn) as Hp. split_and!; [|done|].
  - eapply (daemon_pid_read h); [done|exact Hp|apply read_pid_contents|exact Hm].
  - unfold daemon_status. by rewrite Hp, read_pid_contents, Hn.
Qed.

(** Start, status, stop: from a host without a pid file, a start
    whose [run_daemon] reaches its loop writes the pid file, after which
    [daemon-status] reports the daemon with the tail of the new log, and
    [daemon-stop] signals it, which removes the pid file and the process. *)
Theorem start_status_stop h n dir_exists wf dm logs :
  fg_dir h = true → pid_file h = None → procs h !! n = None →
  run_daemon_start (hwl h) dir_exists = Ok (wf, dm, logs) →
  let h1 := (daemon_start n dir_exists h).1 in
  (daemon_start n dir_exists h).2 = StartLaunched ∧
  daemon_status h1 = StatusRunning n (last10 (LogDaemon <$> logs)) ∧
  daemon_stop h1 = (mk_host None (procs h) (LogDaemon <$> logs) wf (fg_dir h), StopSignalSent n) ∧
  daemon_status (daemon_stop h1).1 = StatusNotRunning.
Proof.
  intros Hd Hp Hn Hrun. unfold daemon_start. rewrite Hp, Hd, Hrun. simpl.
  unfold daemon_status, daemon_stop. simpl. rewrite read_pid_contents, lookup_insert_eq.
  by rewrite delete_insert_id.
Qed.

(** C30. A stale pid file (the daemon was killed without cleaning up)
    blocks [daemon-start] and makes [daemon-status] report an abnormal end;
    [daemon-stop] then removes it, after which a start goes through. *)
Theorem stale_pid_recovery h n m dir_exists :
  pid_file h = Some (pid_contents n) → procs h !! n = None →
  daemon_start m dir_exists h = (h, StartAlreadyRunning) ∧
  daemon_status h = StatusAbnormal ∧
  daemon_stop h = (mk_host None (procs h) (log h) (hwl h) (fg_dir h), StopNoProcess n) ∧
  pid_file (daemon_stop h).1 = None.
Proof.
  intros Hp Hn. unfold daemon_start, daemon_status, daemon_stop.
  by rewrite Hp, read_pid_contents, Hn.
Qed.

(** C31. An unreadable pid file is never cleaned up: [daemon-status]
    reports an abnormal end and advises [daemon-stop], but no sequence of
    [daemon-start], [daemon-stop] and [daemon-status] changes anything, so
    the daemon cannot be started until the file is removed by hand. *)
Theorem unreadable_pid_stuck h s e cs :
  pid_file h = Some s → read_pid s = Err e →
  daemon_status h = StatusAbnormal ∧ run_cmds cs h = h.
Proof.
  intros Hp Hr. split; [unfold daemon_status; by rewrite Hp, Hr|].
  unfold run_cmds. induction cs as [|c cs IH]; [done|]. simpl.
  replace (run_cmd h c) with h; [exact IH|].
  destruct c; simpl; [unfold daemon_start|unfold daemon_stop|done]; rewrite Hp; try rewrite Hr; done.
Qed.

(** C32. Pid reuse: when the daemon died without cleaning up and its pid
    now belongs to another process of the user, [daemon-status] reports
    the daemon running and [daemon-stop] sends [SIGTERM] to that unrelated
    process, leaving the pid file in place. *)
Theorem pid_reuse_kills_other h n :
  pid_file h = Some (pid_contents n) → procs h !! n = Some POwn →
  daemon_status h = StatusRunning n (last10 (log h)) ∧
  daemon_stop h = (mk_host (pid_file h) (delete n (procs h)) (log h) (hwl h) (fg_dir h), StopSignalSent n).
Proof.
  intros Hp Hn. unfold daemon_status, daemon_stop. by rewrite Hp, read_pid_contents, Hn.
Qed.

(** C40. The daemon can be brought back: on a host where [~/.filegit]
    exists, whose pid file, if any, is readable and names the daemon or a
    process that is gone, and whose watch list [set()] accepts,
    [daemon-stop] then [daemon-start] leave a running daemon that
    [daemon-status] reports.  Without the directory [daemon-start] raises
    instead ([FileNotFoundError] of the log file). *)
Theorem daemon_restartable h n dir_exists :
  fg_dir h = true → pid_stoppable h → procs h !! n = None → hwl h ≠ Some WLUnhashable →
  let h' := run_cmds [CStop; CStart n dir_exists] h in
  (∃ dm, procs h' !! n = Some (PDaemon dm)) ∧ daemon_status h' = StatusRunning n (last10 (log h')).
Proof.
  intros Hd Hc Hn Hwl. cbn [run_cmds fold_left run_cmd].
  pose proof (stop_clears h Hc) as Hp.
  set (h1 := (daemon_stop h).1) in *.
  assert (procs h1 !! n = None) as Hn1.
  { destruct (procs h1 !! n) eqn:E; [|done]. apply (lookup_weaken (procs h1) (procs h)) in E; [congruence|].
    apply daemon_stop_procs. }
  assert (hwl h1 = hwl h) as Hh by apply daemon_stop_hwl.
  assert (fg_dir h1 = true) as Hd1 by (unfold h1; by rewrite daemon_stop_fg_dir).
  destruct (run_daemon_start_Ok (hwl h) dir_exists Hwl) as (wf & dm & logs & Hrun).
  unfold daemon_start. rewrite Hp, Hd1, Hh, Hrun. simpl. split; [eexists; apply lookup_insert_eq|].
  unfold daemon_status. simpl. by rewrite read_pid_contents, lookup_insert_eq.
Qed.

(** ** Witnesses *)

(** A daemon started with pid 42 on a fresh host, every directory existing. *)
Definition lc_demo : host := (daemon_start 42 (λ _, true) (mk_host None ∅ [] None true)).1.

Lemma lc_demo_reach : lc_reach lc_demo.
Proof.
  apply (lc_reach_step (mk_host None ∅ [] None true)); [|by apply lc_start].
  apply (lc_reach_step host_init); [apply lc_reach_init|apply lc_mkdir].
Qed.

Lemma lc_single_daemon_witness : pid_file lc_demo = Some (pid_contents 42).
Proof.
  exact (proj1 (proj2 (lc_single_daemon lc_demo 42 42 (mk_daemon ∅ ∅) (mk_daemon ∅ ∅) lc_demo_reach
                         ltac:(vm_compute; reflexivity) ltac:(vm_compute; reflexivity)))).
Defined.

Lemma start_status_stop_witness :
  daemon_status (daemon_stop (daemon_start 42 (λ _, true) (mk_host None ∅ [] None true)).1).1 = StatusNotRunning.
Proof.
  exact (proj2 (proj2 (proj2 (start_status_stop (mk_host None ∅ [] None true) 42 (λ _, true) (Some (WLStrings []))
           (mk_daemon ∅ ∅) [LogStarting; LogWatching 0] eq_refl eq_refl eq_refl ltac:(vm_compute; reflexivity))))).
Defined.

Lemma stale_pid_recovery_witness :
  pid_file (daemon_stop (mk_host (Some (pid_contents 42)) ∅ [] None true)).1 = None.
Proof.
  exact (proj2 (proj2 (proj2 (stale_pid_recovery (mk_host (Some (pid_contents 42)) ∅ [] None true) 42 7
                                (λ _, true) eq_refl eq_refl)))).
Defined.

Lemma unreadable_pid_stuck_witness :
  run_cmds [CStart 7 (λ _, true); CStop; CStatus] (mk_host (Some "") ∅ [] None true)
  = mk_host (Some "") ∅ [] None true.
Proof.
  exact (proj2 (unreadable_pid_stuck (mk_host (Some "") ∅ [] None true) "" ValueError
                  [CStart 7 (λ _, true); CStop; CStatus] eq_refl ltac:(vm_compute; reflexivity))).
Defined.

Lemma pid_reuse_kills_other_witness :
  daemon_status (mk_host (Some (pid_contents 42)) {[42 := POwn]} [] None true) = StatusRunning 42 [].
Proof.
  exact (proj1 (pid_reuse_kills_other (mk_host (Some (pid_contents 42)) {[42 := POwn]} [] None true) 42
                  eq_refl (lookup_singleton_eq _ _))).
Defined.

Lemma daemon_restartable_witness :
  ∃ dm, procs (run_cmds [CStop; CStart 7 (λ _, true)]
                 (mk_host (Some (pid_contents 42)) ∅ [] None true)) !! 7 = Some (PDaemon dm).
Proof.
  refine (proj1 (daemon_restartable (mk_host (Some (pid_contents 42)) ∅ [] None true) 7
                   (λ _, true) eq_refl _ eq_refl ltac:(discriminate))).
  intros s [= <-]. exists 42. split; [apply read_pid_contents|]. by left.
Defined.
