(* ===== verification/Cli.v ===== *)
(** * Cli: the click group [cli] and its eight commands

    [src/filegit.py] declares [cli] as a [click.group()] and registers
    [init], [timeline], [watch], [unwatch], [watch-list], [daemon-start],
    [daemon-stop] and [daemon-status] on it.  One invocation of the
    program runs one command on the machine: the user's files and the
    repository ([disk], [Snapshot.v]) and the host's pid file, processes,
    log and watch-list file ([host], [Lifecycle.v]).  [cli] dispatches to
    the definitions of the other files; an invocation ends with the
    machine as the command left it, and with its output or the exception
    that ended it (what was written before the exception stays written).
    A shell session is a sequence of invocations.

    The composition theorem: a file added with [watch] is watched by the
    daemon the next [daemon-start] launches, and [daemon-status] then
    reports that daemon. *)

From S2P Require Import Prelude Storage CommitIndex Timestamp Snapshot Timeline Dashboard App Watchlist Daemon Lifecycle.

(** The file [~/.filegit/index.db]: [sqlite3.connect] creates it empty
    when it is missing, and only [setup_repo] creates the table. *)
Inductive db_file := DbMissing | DbNoTable | DbReady.

(** What one invocation acts on. *)
Record machine := mk_machine {
  m_disk : disk;     (** the user's files, [~/.filegit/objects], the rows of [commits] *)
  m_host : host;     (** [daemon.pid], the processes, [daemon.log], [watchlist.json] *)
  m_dbf : db_file    (** whether [index.db] exists and holds the table *)
}.

Definition has_table (f : db_file) : bool := match f with DbReady => true | _ => false end.

(** [sqlite3.connect(DB_PATH)]. *)
Definition connect_db (f : db_file) : db_file := match f with DbMissing => DbNoTable | _ => f end.

(** [setup_repo()] on the machine's database: the rows kept when the table
    exists, an empty table otherwise. *)
Definition repo_disk (d : disk) (f : db_file) : disk :=
  mk_disk (files d) (objects d) (setup_repo (if has_table f then Some (db d) else None)).

(** The commands registered on the group, with their arguments; the
    clock, the events of the dashboard and the daemon's pid and view of
    the directories are the environment's. *)
Inductive cli_cmd :=
| CmdInit
| CmdTimeline (p : path) (now : isotime) (evs : list (app_event * isotime))
| CmdWatch (p : path)
| CmdUnwatch (p : path)
| CmdWatchList
| CmdDaemonStart (n : nat) (dir_exists : string → bool)
| CmdDaemonStop
| CmdDaemonStatus.

(** What an invocation prints, by command. *)
Inductive cli_out :=
| OutUsageError                 (** click: the path does not exist (exit status 2) *)
| OutInit                       (** "filegit initialised" *)
| OutTimeline (a : app)         (** the dashboard when it quits *)
| OutWatch (m : wl_msg)
| OutWatchList (l : list path)
| OutStart (m : start_msg)
| OutStop (m : stop_msg)
| OutStatus (m : status_msg).

(** The host with another watch-list file. *)
Definition set_hwl (h : host) (wf : option wl_file) : host :=
  mk_host (pid_file h) (procs h) (log h) wf (fg_dir h).

(** [FILEGIT_DIR.mkdir(exist_ok=True)], or the [OBJECTS_DIR.mkdir(parents=True)]
    of [setup_repo]. *)
Definition mkdir_host (h : host) : host :=
  mk_host (pid_file h) (procs h) (log h) (hwl h) true.

Section Cli.
Context `{Hasher}.

(** The daemon [daemon-start] launches gets as far as
    [WatcherEventHandler(watchlist_files)], whose [sqlite3.connect] opens the
    database: there was no pid file and [set(json.load(f))] did not raise. *)
Definition handler_created (n : nat) (dir_exists : string → bool) (h : host) : bool :=
  match pid_file h, run_daemon_start (hwl h) dir_exists with
  | None, Ok _ => true
  | _, _ => false
  end.

(** [cli()]: the command named on the command line, run on the machine. *)
Definition cli (c : cli_cmd) (m : machine) : machine * res cli_out :=
  let d := m_disk m in
  let h := m_host m in
  match c with
  | CmdInit =>
      (mk_machine (mk_disk (files d) (objects d) (init_cmd (if has_table (m_dbf m) then Some (db d) else None)))
         (mkdir_host h) DbReady, Ok OutInit)
  | CmdTimeline p now evs =>
      (* [DashboardApp.__init__] runs [setup_repo()] once click accepted the path *)
      match timeline_cmd p (repo_disk d (m_dbf m)) now evs with
      | None => (m, Ok OutUsageError)
      | Some (d', r) => (mk_machine d' (mkdir_host h) DbReady, OutTimeline <$> r)
      end
  | CmdWatch p =>
      (* the directory is created once click accepted the path *)
      let h0 := if bool_decide (is_Some (files d !! p)) then mkdir_host h else h in
      match watch p (files d) (hwl h0) with
      | Ok (wf, msg) => (mk_machine d (set_hwl h0 wf) (m_dbf m), Ok (OutWatch msg))
      | Err e => (mk_machine d h0 (m_dbf m), Err e)
      end
  | CmdUnwatch p =>
      match unwatch p (hwl h) with
      | Ok (wf, msg) => (mk_machine d (set_hwl h wf) (m_dbf m), Ok (OutWatch msg))
      | Err e => (m, Err e)
      end
  | CmdWatchList => (m, OutWatchList <$> watch_list (hwl h))
  | CmdDaemonStart n dir_exists =>
      let '(h', msg) := daemon_start n dir_exists h in
      (mk_machine d h' (if handler_created n dir_exists h then connect_db (m_dbf m) else m_dbf m),
       Ok (OutStart msg))
  | CmdDaemonStop => let '(h', msg) := daemon_stop h in (mk_machine d h' (m_dbf m), Ok (OutStop msg))
  | CmdDaemonStatus => (m, Ok (OutStatus (daemon_status h)))
  end.

(** A shell session: each invocation starts from the machine the previous
    one left, whether it ended normally or with a traceback. *)
Fixpoint cli_session (cs : list cli_cmd) (m : machine) : machine * list (res cli_out) :=
  match cs with
  | [] => (m, [])
  | c :: cs' =>
      let '(m', o) := cli c m in
      let '(m'', os) := cli_session cs' m' in
      (m'', o :: os)
  end.

(** [create_auto_snapshot] on the daemon's connection: without the table,
    its [SELECT] raises [sqlite3.OperationalError]. *)
Definition snapshot_in (f : db_file) (p : path) (now : isotime) (d : disk) : res (disk * option digest) :=
  if has_table f then create_auto_snapshot p now d else Err OperationalError.

(** A modification event handled by the daemon [daemon-start] launched.
    That daemon runs [run_daemon] directly: the [__main__] block of
    [src/filegit_daemon.py], which creates the table, does not run, and
    [WatcherEventHandler.__init__]'s [sqlite3.connect] creates an empty
    database file when there is none. *)
Definition machine_event (dm : daemon) (ev : fs_event) (now : isotime) (m : machine)
    : machine * option log_line :=
  let '(d', l) := on_modified_with (snapshot_in (m_dbf m)) dm ev now (m_disk m) in
  (mk_machine d' (m_host m) (m_dbf m), l).

(** [python filegit_daemon.py]: the [__main__] block creates the table
    only [if not DB_PATH.exists()] (its [sqlite3.connect] raises
    [OperationalError] when [~/.filegit] is missing), then calls
    [run_daemon()] in the foreground (no pid file, the log on standard
    output). *)
Definition daemon_script (dir_exists : string → bool) (m : machine) : machine * res daemon :=
  let d := m_disk m in
  let h := m_host m in
  if negb (fg_dir h) then (m, Err OperationalError) else
  let m1 := match m_dbf m with
            | DbMissing => mk_machine (repo_disk d DbMissing) h DbReady
            | _ => m
            end in
  match run_daemon_start (hwl h) dir_exists with
  | Ok (wf, dm, _) => (mk_machine (m_disk m1) (set_hwl h wf) (connect_db (m_dbf m1)), Ok dm)
  | Err e => (m1, Err e)
  end.

End Cli.

(** ** Lemmas *)

(** [watch] on an existing file and a readable list leaves a readable list
    holding the file. *)
Lemma watch_readable p fs c wf wl :
  fs !! p = Some c → get_watchlist wf = Ok wl →
  ∃ wf', watch p fs wf = Ok (wf', if decide (p ∈ wl) then MsgAlreadyWatched else MsgWatchAdded) ∧
         get_watchlist wf' = Ok ({[p]} ∪ wl).
Proof.
  intros Hc Hwl. unfold watch. rewrite Hc, Hwl. simpl.
  destruct (decide (p ∈ wl)) as [Hp|Hp].
  - rewrite decide_False by tauto. eexists. split; [done|]. rewrite Hwl. f_equal. set_solver.
  - rewrite decide_True by done. eexists. split; [done|]. apply get_save_watchlist.
Qed.

(** The daemon launched on a readable list watches exactly that list. *)
Lemma run_daemon_start_watchlist wf dir_exists wl :
  get_watchlist wf = Ok wl →
  ∃ wf' dm logs, run_daemon_start wf dir_exists = Ok (wf', dm, logs) ∧ watchlist_files dm = wl.
Proof. intros Hwl. destruct wf as [[]|]; simpl in *; simplify_eq; unfold run_daemon_start; simpl; eauto. Qed.

Section CliLemmas.
Context `{Hasher}.

Lemma cli_session_app cs1 cs2 m :
  cli_session (cs1 ++ cs2) m =
  let '(m1, o1) := cli_session cs1 m in let '(m2, o2) := cli_session cs2 m1 in (m2, o1 ++ o2).
Proof.
  revert m. induction cs1 as [|c cs1 IH]; intros m; simpl; [by destruct (cli_session cs2 m)|].
  destruct (cli c m) as [m1 o]. rewrite IH.
  destruct (cli_session cs1 m1) as [m2 o1]. by destruct (cli_session cs2 m2).
Qed.

(** [watch FILE] then [daemon-start] on an existing file, a readable list
    and no pid file: the disk and the table are untouched and a daemon
    watching the list with the file added runs under the pid file. *)
Lemma watch_start_session p m c wl n dir_exists :
  files (m_disk m) !! p = Some c → get_watchlist (hwl (m_host m)) = Ok wl → pid_file (m_host m) = None →
  let '(m1, outs) := cli_session [CmdWatch p; CmdDaemonStart n dir_exists] m in
  ∃ dm, m_disk m1 = m_disk m ∧ m_dbf m1 = connect_db (m_dbf m) ∧ pid_file (m_host m1) = Some (pid_contents n) ∧
    fg_dir (m_host m1) = true ∧ procs (m_host m1) !! n = Some (PDaemon dm) ∧ watchlist_files dm = {[p]} ∪ wl ∧
    outs = [Ok (OutWatch (if decide (p ∈ wl) then MsgAlreadyWatched else MsgWatchAdded)); Ok (OutStart StartLaunched)].
Proof.
  intros Hc Hwl Hpid. destruct (watch_readable p _ c _ wl Hc Hwl) as (wf & Hw & Hwf).
  destruct (run_daemon_start_watchlist wf dir_exists _ Hwf) as (wf' & dm & logs & Hr & Hdm).
  cbn [cli_session cli]. rewrite bool_decide_true by (rewrite Hc; by eexists).
  unfold mkdir_host at 1. cbn [hwl]. rewrite Hw. unfold daemon_start, handler_created, set_hwl, mkdir_host.
  cbn [m_host m_disk m_dbf pid_file hwl procs log fg_dir negb]. rewrite Hpid, Hr.
  cbn [m_host m_disk m_dbf procs pid_file]. exists dm. by rewrite lookup_insert_eq.
Qed.

Lemma daemon_status_launched h n dm :
  pid_file h = Some (pid_contents n) → procs h !! n = Some (PDaemon dm) →
  daemon_status h = StatusRunning n (last10 (log h)).
Proof. intros Hp Hn. unfold daemon_status. by rewrite Hp, read_pid_contents, Hn. Qed.

End CliLemmas.

(** ** Properties *)

Section CliProperties.
Context `{Hasher}.

(** C21. What [watch] writes is what the next daemon reads: on an existing file
    with a readable watch list and no pid file, the session [watch FILE],
    [daemon-start], [daemon-status] launches a daemon whose watch list is
    the old one with the file added, and reports it running; the watch
    message says whether the file was already listed. *)
Theorem watched_by_next_daemon p m c wl n dir_exists :
  files (m_disk m) !! p = Some c → get_watchlist (hwl (m_host m)) = Ok wl → pid_file (m_host m) = None →
  let '(m', outs) := cli_session [CmdWatch p; CmdDaemonStart n dir_exists; CmdDaemonStatus] m in
  ∃ dm tail, procs (m_host m') !! n = Some (PDaemon dm) ∧ watchlist_files dm = {[p]} ∪ wl ∧
    outs = [Ok (OutWatch (if decide (p ∈ wl) then MsgAlreadyWatched else MsgWatchAdded));
            Ok (OutStart StartLaunched); Ok (OutStatus (StatusRunning n tail))].
Proof.
  intros Hc Hwl Hpid. change [CmdWatch p; CmdDaemonStart n dir_exists; CmdDaemonStatus]
    with ([CmdWatch p; CmdDaemonStart n dir_exists] ++ [CmdDaemonStatus]).
  rewrite cli_session_app. pose proof (watch_start_session p m c wl n dir_exists Hc Hwl Hpid) as Hs.
  destruct (cli_session _ m) as [m1 outs]. destruct Hs as (dm & _ & _ & Hp & _ & Hn & Hdm & ->).
  cbn [cli_session cli]. exists dm. eexists. split_and!; [done|done|].
  by rewrite (daemon_status_launched _ n dm).
Qed.

(** C29. The daemon stores nothing before [init]: on a machine whose database
    has no [commits] table, [watch FILE] then [daemon-start] launch a
    daemon that, on every modification of the file, catches
    [sqlite3.OperationalError], logs "Error creating snapshot" and leaves
    the machine as it was, although the [__main__] block of the daemon's
    script is meant to create the table when the daemon starts; once
    [init] has created it, the same event stores the file and logs the
    snapshot. *)
Theorem daemon_needs_table `{!HexDigests} p m c wl n dir_exists now :
  m_dbf m ≠ DbReady → files (m_disk m) !! p = Some c → get_watchlist (hwl (m_host m)) = Ok wl →
  pid_file (m_host m) = None →
  let m1 := (cli_session [CmdWatch p; CmdDaemonStart n dir_exists] m).1 in
  ∃ dm, procs (m_host m1) !! n = Some (PDaemon dm) ∧ m_dbf m1 = DbNoTable ∧
    machine_event dm (mk_fs_event p false) now m1 = (m1, Some (LogSnapshotError p)) ∧
    m_dbf (daemon_script dir_exists m1).1 = DbNoTable ∧
    (machine_event dm (mk_fs_event p false) now (cli CmdInit m1).1).2 = Some (LogSnapshot p (hexdigest c)).
Proof.
  intros Ht Hc Hwl Hpid. pose proof (watch_start_session p m c wl n dir_exists Hc Hwl Hpid) as Hs.
  destruct (cli_session _ m) as [m1 outs]. destruct Hs as (dm & Hd & Ht1 & _ & Hfg & Hn & Hdm & _). cbn [fst].
  assert (Hf : m_dbf m1 = DbNoTable) by (rewrite Ht1; by destruct (m_dbf m)).
  assert (Hp : p ∈ watchlist_files dm) by (rewrite Hdm; set_solver).
  exists dm. split_and!; [done|done|..]; unfold machine_event, on_modified_with; cbn [is_directory src_path].
  - rewrite decide_True by done. rewrite Hf. unfold snapshot_in. destruct m1 as [d1 h1 f1]; simpl in *. congruence.
  - unfold daemon_script. rewrite Hfg. cbn [negb]. rewrite Hf. destruct (run_daemon_start _ _) as [[[? ?] ?]|]; simpl; by rewrite Hf.
  - rewrite decide_True by done. cbn [cli fst m_dbf m_disk]. unfold snapshot_in, init_cmd.
    rewrite create_auto_snapshot_spec. cbn [files has_table]. rewrite Hd, Hc, hexdigest_nonempty, Hf.
    by rewrite decide_False.
Qed.

End CliProperties.

(** ** Witnesses *)

(** A fresh machine: one file, no repository, no daemon. *)
Definition cli_demo : machine :=
  mk_machine (mk_disk {[ "/home/u/notes.txt" := "abc" ]} ∅ (mk_index [] 0)) host_init DbMissing.

Lemma daemon_needs_table_witness :
  let m1 := (@cli_session hex_hasher [CmdWatch "/home/u/notes.txt"; CmdDaemonStart 7 (λ _, true)] cli_demo).1 in
  ∃ dm, procs (m_host m1) !! 7 = Some (PDaemon dm) ∧ m_dbf m1 = DbNoTable ∧
    @machine_event hex_hasher dm (mk_fs_event "/home/u/notes.txt" false) "2024-03-09T07:05:03" m1
      = (m1, Some (LogSnapshotError "/home/u/notes.txt")) ∧
    m_dbf (daemon_script (λ _, true) m1).1 = DbNoTable ∧
    (@machine_event hex_hasher dm (mk_fs_event "/home/u/notes.txt" false) "2024-03-09T07:05:03"
       (@cli hex_hasher CmdInit m1).1).2
      = Some (LogSnapshot "/home/u/notes.txt" (@hexdigest hex_hasher "abc")).
Proof.
  exact (@daemon_needs_table hex_hasher _ "/home/u/notes.txt" cli_demo "abc" ∅ 7 (λ _, true)
           "2024-03-09T07:05:03" ltac:(discriminate) (lookup_singleton_eq _ _) eq_refl eq_refl).
Defined.

Lemma watched_by_next_daemon_witness :
  let '(m', outs) := @cli_session hex_hasher
    [CmdWatch "/home/u/notes.txt"; CmdDaemonStart 7 (λ _, true); CmdDaemonStatus] cli_demo in
  ∃ dm tail, procs (m_host m') !! 7 = Some (PDaemon dm) ∧ watchlist_files dm = {[ "/home/u/notes.txt" ]} ∪ ∅ ∧
    outs = [Ok (OutWatch (if decide ("/home/u/notes.txt" ∈ (∅ : gset path)) then MsgAlreadyWatched
                          else MsgWatchAdded));
            Ok (OutStart StartLaunched); Ok (OutStatus (StatusRunning 7 tail))].
Proof.
  exact (@watched_by_next_daemon hex_hasher "/home/u/notes.txt" cli_demo "abc" ∅ 7 (λ _, true)
           (lookup_singleton_eq _ _) eq_refl eq_refl).
Defined.
