(* ===== verification/System.v ===== *)
(** * System: the dashboard and the daemon running side by side

    The two processes share [~/.filegit] without any lock, and the user's
    editor writes the files at any time.  This file puts every
    state-changing operation of the program into one step relation over a
    world holding the shared disk, the watch-list file, the running daemon
    (if any) and, per process, the snapshot in flight.  A snapshot is not
    atomic in the code: [get_file_hash] reads the file, then [shutil.copy]
    reads it again into [objects/<hash>], then the row is inserted.  The
    relation has one step for each of the three, so that any other step
    (of the other process, of the editor, a crash) can come in between.
    The other handlers are single steps that reuse the handler models of
    the other files.

    The theorems say what survives every interleaving (each row references
    a stored blob, ids stay distinct, a manual commit stays manual), what
    does not (a write between hashing and copying stores bytes under the
    digest of other bytes, and a restore of that commit writes them), and
    when it does (no write to a file while its snapshot is in flight: the
    store stays content-addressed and the dashboard's panels show each
    version and its predecessor).  [daemon_handle_refines] ties the step
    relation to the handler of [Daemon.v]. *)

From S2P Require Import Prelude Storage CommitIndex Snapshot Timeline Dashboard Watchlist Daemon.

(** A snapshot in flight in one process. *)
Inductive inflight :=
| Idle
| Hashed (p : path) (h : digest)     (** [get_file_hash] done *)
| Copied (p : path) (h : digest).    (** [shutil.copy] done, [INSERT] pending *)

Record world := mk_world {
  wdisk : disk;
  wlf : option wl_file;      (** [~/.filegit/watchlist.json] *)
  dmn : option daemon;       (** the running daemon *)
  dash_op : inflight;        (** the dashboard's snapshot in flight *)
  daemon_op : inflight       (** the daemon's snapshot in flight *)
}.

Definition world_init : world :=
  mk_world (mk_disk ∅ ∅ (setup_repo None)) None None Idle Idle.

Definition set_files (w : world) (fs : gmap path content) : world :=
  mk_world (mk_disk fs (objects (wdisk w)) (db (wdisk w))) (wlf w) (dmn w) (dash_op w) (daemon_op w).
Definition set_objects (w : world) (objs : gmap digest content) : world :=
  mk_world (mk_disk (files (wdisk w)) objs (db (wdisk w))) (wlf w) (dmn w) (dash_op w) (daemon_op w).
Definition set_db (w : world) (i : index) : world :=
  mk_world (mk_disk (files (wdisk w)) (objects (wdisk w)) i) (wlf w) (dmn w) (dash_op w) (daemon_op w).
Definition set_dash_op (w : world) (o : inflight) : world :=
  mk_world (wdisk w) (wlf w) (dmn w) o (daemon_op w).
Definition set_daemon_op (w : world) (o : inflight) : world :=
  mk_world (wdisk w) (wlf w) (dmn w) (dash_op w) o.

Section Steps.
Context `{Hasher}.

Inductive sys_step : world → world → Prop :=
(** The editor writes or deletes a file. *)
| step_write w p c : sys_step w (set_files w (<[p := c]> (files (wdisk w))))
| step_delete w p : sys_step w (set_files w (delete p (files (wdisk w))))
(** [create_auto_snapshot], in three steps: the guard with the hash, *)
| step_daemon_hash w dm p h :
    dmn w = Some dm → daemon_op w = Idle →
    parent_dir p ∈ watch_dirs dm → p ∈ watchlist_files dm →
    get_file_hash (files (wdisk w)) p = Some h → (h =? "")%string = false →
    Some h ≠ select_last_hash p (db (wdisk w)) →
    sys_step w (set_daemon_op w (Hashed p h))
(** the copy (its [FileNotFoundError] is caught by [on_modified]), *)
| step_daemon_copy w p h objs :
    daemon_op w = Hashed p h → copy_to_objects (files (wdisk w)) p h (objects (wdisk w)) = Ok objs →
    sys_step w (set_daemon_op (set_objects w objs) (Copied p h))
| step_daemon_copy_fail w p h e :
    daemon_op w = Hashed p h → copy_to_objects (files (wdisk w)) p h (objects (wdisk w)) = Err e →
    sys_step w (set_daemon_op w Idle)
(** and the insert. *)
| step_daemon_insert w p h now :
    daemon_op w = Copied p h →
    sys_step w (set_daemon_op (set_db w (insert_commit p h now Auto (db (wdisk w))).1) Idle)
(** [action_add_snapshot], in the same three steps, without the comparison
    with the latest commit. *)
| step_dash_hash w p h :
    dash_op w = Idle → get_file_hash (files (wdisk w)) p = Some h → (h =? "")%string = false →
    sys_step w (set_dash_op w (Hashed p h))
| step_dash_copy w p h objs :
    dash_op w = Hashed p h → copy_to_objects (files (wdisk w)) p h (objects (wdisk w)) = Ok objs →
    sys_step w (set_dash_op (set_objects w objs) (Copied p h))
| step_dash_copy_fail w p h e :
    dash_op w = Hashed p h → copy_to_objects (files (wdisk w)) p h (objects (wdisk w)) = Err e →
    sys_step w (set_dash_op w Idle)
| step_dash_insert w p h now :
    dash_op w = Copied p h →
    sys_step w (set_dash_op (set_db w (insert_commit p h now Auto (db (wdisk w))).1) Idle)
(** The dashboard's other handlers, each atomic. *)
| step_commit_message w key typed i n :
    dash_op w = Idle → action_commit_message key typed (db (wdisk w)) = Ok (i, n) →
    sys_step w (set_db w i)
| step_restore w key p fs n :
    dash_op w = Idle → action_restore_selected key p (objects (wdisk w)) (files (wdisk w)) = Ok (fs, n) →
    sys_step w (set_files w fs)
| step_forget w p st :
    dash_op w = Idle → sys_step w (set_db w (action_forget_file p st (db (wdisk w))).1.1)
(** A process dies with its snapshot in flight. *)
| step_dash_crash w : sys_step w (set_dash_op w Idle)
(** The CLI commands. *)
| step_watch w p wf m :
    watch p (files (wdisk w)) (wlf w) = Ok (wf, m) →
    sys_step w (mk_world (wdisk w) wf (dmn w) (dash_op w) (daemon_op w))
| step_unwatch w p wf m :
    unwatch p (wlf w) = Ok (wf, m) →
    sys_step w (mk_world (wdisk w) wf (dmn w) (dash_op w) (daemon_op w))
| step_daemon_start w dir_exists wf dm logs :
    dmn w = None → run_daemon_start (wlf w) dir_exists = Ok (wf, dm, logs) →
    sys_step w (mk_world (wdisk w) wf (Some dm) (dash_op w) Idle)
| step_daemon_stop w :
    sys_step w (mk_world (wdisk w) (wlf w) None (dash_op w) Idle).

(** Reachable worlds: reflexive-transitive closure of the step relation. *)
Inductive reachable : world → Prop :=
| reach_init : reachable world_init
| reach_step w w' : reachable w → sys_step w w' → reachable w'.

End Steps.

(** ** What each handler does to the index *)

(** [action_commit_message] either leaves the index alone or runs one
    [UPDATE ... WHERE id = ?]. *)
Lemma action_commit_message_cases key typed i i' n :
  action_commit_message key typed i = Ok (i', n) →
  i' = i ∨ ∃ msg cid, i' = update_manual msg cid i.
Proof.
  unfold action_commit_message. intros E.
  destruct key as [k|]; [|res_inv; by left].
  destruct (parse_row_key k) as [[[[a b] cid] t]|e]; simpl in E; [|discriminate].
  destruct (t =? "manual")%string; [res_inv; by left|].
  destruct (t =? "temp")%string; [res_inv; by left|].
  destruct (py_int cid) as [n'|e]; simpl in E; [|discriminate].
  destruct typed as [msg|]; [|res_inv; by left].
  destruct (msg =? "")%string; res_inv; [by left|]. right. eauto.
Qed.

(** [action_forget_file] either leaves the index alone or deletes every row
    of the file. *)
Lemma action_forget_file_cases p st i :
  (action_forget_file p st i).1.1 = i ∨ (action_forget_file p st i).1.1 = delete_path p i.
Proof. unfold action_forget_file. destruct (is_forget_pending st); simpl; auto. Qed.

(** The statements that remove or promote rows keep the digest of every
    row that remains. *)
Lemma update_manual_hashes msg cid i r' :
  r' ∈ rows (update_manual msg cid i) → ∃ r, r ∈ rows i ∧ object_hash r = object_hash r'.
Proof.
  simpl. intros (r & -> & Hr)%list_elem_of_fmap. exists r. split; [done|].
  unfold promote_row. by case_decide.
Qed.

Lemma delete_path_hashes p i r' :
  r' ∈ rows (delete_path p i) → r' ∈ rows i.
Proof. simpl. by intros [_ ?]%list_elem_of_filter. Qed.

(** ** The invariant of every reachable world *)

(** A snapshot whose copy is done has its blob in the store. *)
Definition op_stored (objs : gmap digest content) (o : inflight) : Prop :=
  match o with Copied _ h => is_Some (objs !! h) | _ => True end.

Definition sys_inv (w : world) : Prop :=
  refs_ok (wdisk w) ∧ index_wf (db (wdisk w)) ∧
  op_stored (objects (wdisk w)) (dash_op w) ∧ op_stored (objects (wdisk w)) (daemon_op w).

Lemma op_stored_insert objs h c o :
  op_stored objs o → op_stored (<[h := c]> objs) o.
Proof.
  destruct o as [| |p h']; simpl; [done|done|].
  intros Hs. destruct (decide (h = h')) as [->|]; [rewrite lookup_insert_eq; by eexists|].
  by rewrite lookup_insert_ne.
Qed.

Lemma refs_ok_insert_objects fs objs i h c :
  refs_ok (mk_disk fs objs i) → refs_ok (mk_disk fs (<[h := c]> objs) i).
Proof. intros Hr r Hin. apply (op_stored_insert objs h c (Copied "" (object_hash r))). by apply Hr. Qed.

Lemma refs_ok_insert_commit fs objs i p h ts ty :
  refs_ok (mk_disk fs objs i) → is_Some (objs !! h) →
  refs_ok (mk_disk fs objs (insert_commit p h ts ty i).1).
Proof.
  intros Hr Hh r. cbn [db]. rewrite insert_commit_rows. intros [Hin | ->%list_elem_of_singleton]%elem_of_app;
    [by apply Hr|done].
Qed.

Lemma refs_ok_update_manual fs objs i msg cid :
  refs_ok (mk_disk fs objs i) → refs_ok (mk_disk fs objs (update_manual msg cid i)).
Proof. intros Hr r' (r & Hin & <-)%update_manual_hashes. by apply Hr. Qed.

Lemma refs_ok_delete_path fs objs i p :
  refs_ok (mk_disk fs objs i) → refs_ok (mk_disk fs objs (delete_path p i)).
Proof. intros Hr r' Hin%delete_path_hashes. by apply Hr. Qed.

#[export] Hint Resolve op_stored_insert refs_ok_insert_objects refs_ok_update_manual
  refs_ok_delete_path insert_commit_wf update_manual_wf delete_path_wf : filegit.

Section Invariant.
Context `{Hasher}.

Lemma sys_inv_step w w' : sys_inv w → sys_step w w' → sys_inv w'.
Proof.
  intros Hinv Hs.
  destruct Hs as [w p c|w p|w dm p h ??????|w p h objs' Hop Hcp|w p h e|w p h now Hop
    |w p h ???|w p h objs' Hop Hcp|w p h e|w p h now Hop|w key typed i' n _ Hcm
    |w key p fs n|w p st|w|w p wf m|w p wf m|w dir_exists wf dm logs|w];
    destruct w as [[fs0 objs0 i0] wlf0 dmn0 dop mop];
    destruct Hinv as (Hr & Hw & Hd & Hm); unfold sys_inv, set_files, set_objects, set_db,
    set_dash_op, set_daemon_op in *; simpl in *; subst; try (split_and!; done).
  - apply copy_to_objects_Ok in Hcp as (c & _ & ->).
    split_and!; eauto with filegit. simpl. rewrite lookup_insert_eq. by eexists.
  - split_and!; [by apply refs_ok_insert_commit|by apply insert_commit_wf|done|done].
  - apply copy_to_objects_Ok in Hcp as (c & _ & ->).
    split_and!; eauto with filegit. simpl. rewrite lookup_insert_eq. by eexists.
  - split_and!; [by apply refs_ok_insert_commit|by apply insert_commit_wf|done|done].
  - destruct (action_commit_message_cases _ _ _ _ _ Hcm) as [-> | (msg & cid & ->)];
      split_and!; eauto with filegit.
  - destruct (action_forget_file_cases p st i0) as [-> | ->]; split_and!; eauto with filegit.
Qed.

Lemma sys_inv_init : sys_inv world_init.
Proof.
  split_and!; simpl; [intros r Hr; inversion Hr| |done|done].
  split; [constructor|constructor].
Qed.

Lemma reachable_sys_inv w : reachable w → sys_inv w.
Proof. induction 1 as [|w w' _ IH Hs]; [apply sys_inv_init|by eapply sys_inv_step]. Qed.

End Invariant.

(** ** Interleavings without a racing write *)

(** A hashed snapshot is fresh when the file still has the digest taken. *)
Definition op_fresh `{Hasher} (fs : gmap path content) (o : inflight) : Prop :=
  match o with Hashed p h => get_file_hash fs p = Some h | _ => True end.

Definition integ `{Hasher} (w : world) : Prop :=
  objects_wf (objects (wdisk w)) ∧
  op_fresh (files (wdisk w)) (dash_op w) ∧ op_fresh (files (wdisk w)) (daemon_op w).

(** A step is quiet when it leaves alone every file whose snapshot is
    between [get_file_hash] and [shutil.copy]. *)
Definition quiet (w w' : world) : Prop :=
  ∀ p h, dash_op w = Hashed p h ∨ daemon_op w = Hashed p h →
    files (wdisk w') !! p = files (wdisk w) !! p.

Section Quiet.
Context `{Hasher}.

Inductive quiet_reachable : world → Prop :=
| qreach_init : quiet_reachable world_init
| qreach_step w w' : quiet_reachable w → sys_step w w' → quiet w w' → quiet_reachable w'.

Lemma op_fresh_files fs fs' o :
  (∀ p h, o = Hashed p h → fs' !! p = fs !! p) → op_fresh fs o → op_fresh fs' o.
Proof.
  destruct o as [|p h|]; simpl; [done| |done]. intros E. unfold get_file_hash.
  by rewrite (E p h eq_refl).
Qed.

Lemma integ_step w w' : integ w → sys_step w w' → quiet w w' → integ w'.
Proof.
  intros (Hwf & Hd & Hm) Hs Hq.
  assert (∀ fs', files (wdisk w') = fs' →
    op_fresh fs' (dash_op w) ∧ op_fresh fs' (daemon_op w)) as Hfr.
  { intros fs' <-. split; (eapply op_fresh_files; [|done]); intros p h ?; apply (Hq p h); auto. }
  destruct Hs as [w p c|w p|w dm p h ?? _ _ Hh ??|w p h objs' Hop Hcp|w p h e|w p h now Hop
    |w p h ? Hh ?|w p h objs' Hop Hcp|w p h e|w p h now Hop|w key typed i' n _ Hcm
    |w key p fs n|w p st|w|w p wf m|w p wf m|w dir_exists wf dm logs|w];
    destruct w as [[fs0 objs0 i0] wlf0 dmn0 dop mop];
    unfold integ, quiet, set_files, set_objects, set_db, set_dash_op, set_daemon_op in *;
    simpl in *; subst; try (split_and!; done);
    try (destruct (Hfr _ eq_refl); split_and!; done).
  - apply copy_to_objects_Ok in Hcp as (c & Hc & ->). unfold op_fresh in Hm.
    apply get_file_hash_Some in Hm as (c' & Hc' & <-). simplify_eq.
    split_and!; [by apply objects_wf_insert|done|done].
  - apply copy_to_objects_Ok in Hcp as (c & Hc & ->). unfold op_fresh in Hd.
    apply get_file_hash_Some in Hd as (c' & Hc' & <-). simplify_eq.
    split_and!; [by apply objects_wf_insert|done|done].
Qed.

Lemma quiet_reachable_reachable w : quiet_reachable w → reachable w.
Proof. induction 1; [constructor|by eapply reach_step]. Qed.

Lemma integ_init : integ world_init.
Proof. split_and!; [apply map_Forall_empty|done|done]. Qed.

Lemma quiet_integ w : quiet_reachable w → integ w.
Proof. induction 1 as [|w w' _ IH Hs Hqs]; [apply integ_init|by eapply integ_step]. Qed.

End Quiet.

(** ** The watch-list file *)

(** What the program writes to [watchlist.json]: nothing yet, or a JSON
    array of strings. *)
Definition wl_is_array (o : option wl_file) : Prop :=
  match o with
  | None | Some (WLStrings _) => True
  | _ => False
  end.

Lemma wl_is_array_read o : wl_is_array o → ∃ wl, get_watchlist o = Ok wl.
Proof. destruct o as [[]|]; simpl; try done; eauto. Qed.

Lemma watch_is_array p fs o o' m : wl_is_array o → watch p fs o = Ok (o', m) → wl_is_array o'.
Proof.
  intros Ho Hw. unfold watch in Hw. destruct (fs !! p); [|by injection Hw as <-].
  destruct (wl_is_array_read o Ho) as [wl Hwl]. rewrite Hwl in Hw. simpl in Hw.
  case_decide; by injection Hw as <-.
Qed.

Lemma unwatch_is_array p o o' m : wl_is_array o → unwatch p o = Ok (o', m) → wl_is_array o'.
Proof.
  intros Ho Hw. unfold unwatch in Hw.
  destruct (wl_is_array_read o Ho) as [wl Hwl]. rewrite Hwl in Hw. simpl in Hw.
  case_decide; by injection Hw as <-.
Qed.

Lemma run_daemon_start_is_array o dir_exists o' dm logs :
  wl_is_array o → run_daemon_start o dir_exists = Ok (o', dm, logs) → wl_is_array o'.
Proof.
  intros Ho E. unfold run_daemon_start in E.
  destruct (get_watchlist (match o with None => Some (WLStrings []) | Some f => Some f end)) as [wl|e];
    simpl in E; [|discriminate].
  assert (o' = match o with None => Some (WLStrings []) | Some f => Some f end) as -> by congruence.
  by destruct o.
Qed.

(** ** The write race *)

Section Race.
Context `{Hasher}.

(** The editor writes [c1], the dashboard hashes it, the editor writes
    [c2], the dashboard copies the file and inserts the row. *)
Definition race_world (p : path) (c1 c2 : content) (now : isotime) : world :=
  let h := hexdigest c1 in
  let w1 := set_files world_init (<[p := c1]> ∅) in
  let w2 := set_dash_op w1 (Hashed p h) in
  let w3 := set_files w2 (<[p := c2]> (files (wdisk w2))) in
  let w4 := set_dash_op (set_objects w3 (<[h := c2]> (objects (wdisk w3)))) (Copied p h) in
  set_dash_op (set_db w4 (insert_commit p h now Auto (db (wdisk w4))).1) Idle.

Lemma race_world_reachable `{!HexDigests} p c1 c2 now : reachable (race_world p c1 c2 now).
Proof.
  eapply reach_step; [|by apply step_dash_insert].
  eapply reach_step; [|apply step_dash_copy; [done|]].
  2:{ apply (copy_to_objects_present _ _ _ _ c2). simpl. by rewrite lookup_insert_eq. }
  eapply reach_step; [|apply step_write].
  eapply reach_step; [|apply step_dash_hash; [done| |apply hexdigest_nonempty]].
  2:{ apply get_file_hash_Some. exists c1. simpl. by rewrite lookup_insert_eq. }
  eapply reach_step; [apply reach_init|apply step_write].
Qed.

End Race.

(** ** A manual commit stays manual *)

(** Every row with id [cid] is manual, and [cid] has been handed out. *)
Definition manual_at (cid : nat) (i : index) : Prop :=
  cid ≤ seq i ∧ ∀ r, r ∈ rows i → commit_id r = cid → ctype r = Manual.

Lemma manual_at_intro i r :
  index_wf i → r ∈ rows i → ctype r = Manual → manual_at (commit_id r) i.
Proof.
  intros [Hnd Hb] Hr Hm. split.
  - rewrite Forall_forall in Hb. by destruct (Hb r Hr).
  - intros r' Hr' Hid. by rewrite <- (NoDup_fmap_elem_inj commit_id (rows i) r r').
Qed.

Lemma manual_at_insert cid p h ts ty i :
  manual_at cid i → manual_at cid (insert_commit p h ts ty i).1.
Proof.
  intros [Hle Hm]. split; [simpl; lia|]. intros r. rewrite insert_commit_rows.
  intros [Hr | ->%list_elem_of_singleton]%elem_of_app; [by apply Hm|simpl; lia].
Qed.

Lemma manual_at_update cid msg cid' i : manual_at cid i → manual_at cid (update_manual msg cid' i).
Proof.
  intros [Hle Hm]. split; [done|]. simpl. intros r' (r & -> & Hr)%list_elem_of_fmap.
  rewrite promote_row_id. intros Hid. unfold promote_row. case_decide; [done|]. by apply Hm.
Qed.

Lemma manual_at_delete cid p i : manual_at cid i → manual_at cid (delete_path p i).
Proof. intros [Hle Hm]. split; [done|]. intros r Hr%delete_path_hashes. by apply Hm. Qed.

#[export] Hint Resolve manual_at_insert manual_at_update manual_at_delete : filegit.

Lemma manual_at_step `{Hasher} cid w w' :
  manual_at cid (db (wdisk w)) → sys_step w w' → manual_at cid (db (wdisk w')).
Proof.
  intros Hm Hs.
  destruct Hs as [w p c|w p|w dm p h ???????|w p h objs' ??|w p h e|w p h now ?
    |w p h ???|w p h objs' ??|w p h e|w p h now ?|w key typed i' n _ Hcm
    |w key p fs n|w p st|w|w p wf m|w p wf m|w dir_exists wf dm logs|w];
    unfold set_files, set_objects, set_db, set_dash_op, set_daemon_op; cbn [wdisk db];
    eauto with filegit.
  - destruct (action_commit_message_cases _ _ _ _ _ Hcm) as [-> | (msg & cid' & ->)];
      eauto with filegit.
  - destruct (action_forget_file_cases p st (db (wdisk w))) as [-> | ->]; eauto with filegit.
Qed.

(** Steps during which the daemon keeps running. *)
Definition daemon_alive_step `{Hasher} (w w' : world) : Prop :=
  sys_step w w' ∧ dmn w' ≠ None.

(** The world after the daemon's [INSERT] of a copied snapshot. *)
Definition daemon_inserted (w : world) (p : path) (h : digest) (now : isotime) : world :=
  set_daemon_op (set_db w (insert_commit p h now Auto (db (wdisk w))).1) Idle.

(** While the daemon keeps running, its record (the watch list and the
    directories read at start-up) stays the same. *)
Lemma daemon_kept `{Hasher} w w' dm :
  dmn w = Some dm → rtc daemon_alive_step w w' → dmn w' = Some dm.
Proof.
  intros Hdm Hpath. induction Hpath as [w|w w1 w' [Hs Halive] _ IH]; [done|].
  apply IH. destruct Hs; simpl in *; try done; congruence.
Qed.

(** ** Properties *)

Section SystemProperties.
Context `{Hasher}.

(** C22. Whatever the interleaving of the dashboard, the daemon, the
    editor, the CLI and crashes, every row of the index references a blob
    of the store and the commit ids are distinct, positive and bounded by
    the sequence: the code writes the blob before the row in both
    snapshot paths and never deletes a blob. *)
Theorem reachable_refs_ok w :
  reachable w → refs_ok (wdisk w) ∧ index_wf (db (wdisk w)).
Proof. intros (? & ? & _)%reachable_sys_inv. by split. Qed.

(** C23. The snapshot is not atomic: if the editor writes [p] between the
    dashboard's [get_file_hash] and its [shutil.copy], the store holds the
    new bytes under the digest of the old ones, the store is no longer
    content-addressed, and the file's latest commit names that digest. *)
Theorem snapshot_write_race `{!HexDigests, !CollisionFree} p c1 c2 (now : isotime) :
  c1 ≠ c2 →
  ∃ w, reachable w ∧ objects (wdisk w) !! hexdigest c1 = Some c2 ∧
       ¬ objects_wf (objects (wdisk w)) ∧
       select_last_hash p (db (wdisk w)) = Some (hexdigest c1).
Proof.
  intros Hne. exists (race_world p c1 c2 now).
  assert (objects (wdisk (race_world p c1 c2 now)) !! hexdigest c1 = Some c2) as Hobj
    by (simpl; by rewrite lookup_insert_eq).
  split_and!; [by apply race_world_reachable|done| |].
  - intros Hwf. apply Hne, hexdigest_inj. symmetry. by apply (objects_wf_lookup _ _ _ Hwf).
  - apply last_hash_insert_same. intros r Hr. inversion Hr.
Qed.

(** C35. Consequence of the race for the user: the file's timeline lists
    a commit under the digest of [c1], and restoring it (key [r]) succeeds
    but writes [c2], whose digest is not the one the row shows. *)
Theorem race_restore_wrong_bytes `{!HexDigests, !CollisionFree} p c1 c2 (now now' : isotime) :
  c1 ≠ c2 →
  ∃ w c, reachable w ∧ Committed c None ∈ build (files (wdisk w)) (db (wdisk w)) p ∧
    object_hash c = hexdigest c1 ∧
    ∃ fs' n, action_restore_selected (Some (tl_key (render now' (Committed c None)))) p
               (objects (wdisk w)) (files (wdisk w)) = Ok (fs', n) ∧
             fs' !! p = Some c2 ∧ get_file_hash fs' p ≠ Some (object_hash c).
Proof.
  intros Hne. set (c := mk_commit 1 p (hexdigest c1) None now Auto).
  exists (race_world p c1 c2 now), c. split_and!; [by apply race_world_reachable| |done|].
  - unfold build. apply elem_of_app. right.
    change (db (wdisk (race_world p c1 c2 now)))
      with (insert_commit p (hexdigest c1) now Auto (mk_index [] 0)).1.
    rewrite history_insert_same by (intros r Hr; inversion Hr). simpl. by left.
  - eexists _, _. change (render now' (Committed c None)) with (commit_row c None).
    unfold action_restore_selected. cbn [tl_key commit_row].
    rewrite parse_key_fields; [|apply hex_no_bar, hexdigest_hex|reflexivity|apply no_bar_py_str_nat|apply no_bar_type_str].
    simpl. rewrite (copy_from_objects_present _ _ _ _ c2) by (simpl; by rewrite lookup_insert_eq).
    split_and!; [done|by rewrite lookup_insert_eq|].
    unfold get_file_hash. rewrite lookup_insert_eq. simpl. intros [= E%hexdigest_inj]. by apply Hne.
Qed.

(** C24. Without a racing write the store stays content-addressed: in
    every world reached by steps none of which changes a file while a
    snapshot of it is between [get_file_hash] and [shutil.copy], every blob
    is stored under the digest of its bytes, every row references a blob
    and the ids are well formed. *)
Theorem quiet_disk_wf w : quiet_reachable w → disk_wf (wdisk w).
Proof.
  intros Hq. destruct (quiet_integ w Hq) as (Hwf & _ & _).
  destruct (reachable_sys_inv w (quiet_reachable_reachable w Hq)) as (Hr & Hi & _).
  by split_and!.
Qed.

(** C25. The daemon's handler is the composition of the model's daemon
    steps: whatever [daemon_handle] (the observer's filter, then
    [on_modified], then [create_auto_snapshot]) does to the disk, the step
    relation reaches the same disk from the same world through the hash,
    copy and insert steps, ending with no snapshot in flight. *)
Theorem daemon_handle_refines w dm ev now :
  dmn w = Some dm → daemon_op w = Idle →
  rtc sys_step w (mk_world (daemon_handle dm ev now (wdisk w)).1 (wlf w) (dmn w) (dash_op w) Idle).
Proof.
  intros Hdm Hidle. destruct w as [d wf0 dmn0 dop mop]; simpl in *; subst.
  unfold daemon_handle, on_modified, on_modified_with.
  case_decide as Hdir; [|apply rtc_refl]. destruct (is_directory ev); [apply rtc_refl|].
  case_decide as Hw; [|apply rtc_refl].
  destruct (create_auto_snapshot_noop (src_path ev) now d) as [E | (c & Hc & He & Hne & E)];
    rewrite E; [apply rtc_refl|]. simpl.
  eapply rtc_l.
  { eapply (step_daemon_hash _ dm (src_path ev) (hexdigest c)); simpl; try done.
    apply get_file_hash_Some. eauto. }
  eapply rtc_l.
  { eapply (step_daemon_copy _ (src_path ev) (hexdigest c)); [done|].
    by apply copy_to_objects_present. }
  eapply rtc_l; [by apply (step_daemon_insert _ (src_path ev) (hexdigest c) now)|].
  apply rtc_refl.
Qed.

(** C26. A promotion is permanent: once a reachable world holds a manual
    commit, every later world, whatever steps lead to it, holds no
    automatic commit with that id (the id is not reused after a forget,
    and [UPDATE] only ever sets the type to manual). *)
Theorem manual_stays_manual w w' r :
  reachable w → r ∈ rows (db (wdisk w)) → ctype r = Manual → rtc sys_step w w' →
  ∀ r', r' ∈ rows (db (wdisk w')) → commit_id r' = commit_id r → ctype r' = Manual.
Proof.
  intros Hr Hin Hm Hpath.
  assert (manual_at (commit_id r) (db (wdisk w))) as Hat
    by (apply manual_at_intro; [apply reachable_sys_inv|..]; done).
  clear Hr Hin Hm. induction Hpath as [w|w w1 w' Hs _ IH]; [apply Hat|].
  apply IH. by eapply manual_at_step.
Qed.

(** C27. No hot reload: a running daemon keeps snapshotting the files it
    read at start-up, whatever [watch] and [unwatch] write to the
    watch-list file meanwhile.  From a world where the daemon watches [p]
    in an observed directory, after any steps that keep it running, its
    snapshot of [p] starts as soon as the file's digest differs from the
    latest commit's, even when the watch-list file no longer names [p]. *)
Theorem daemon_no_reload w w' dm p h :
  dmn w = Some dm → p ∈ watchlist_files dm → parent_dir p ∈ watch_dirs dm →
  rtc daemon_alive_step w w' → daemon_op w' = Idle →
  get_file_hash (files (wdisk w')) p = Some h → (h =? "")%string = false →
  Some h ≠ select_last_hash p (db (wdisk w')) →
  sys_step w' (set_daemon_op w' (Hashed p h)).
Proof.
  intros Hdm Hp Hd Hpath Hop Hh Hne Hlast.
  by apply (step_daemon_hash _ dm); [apply (daemon_kept w)|..].
Qed.

(** C34. End to end: in every run without a racing write, highlighting
    any row of any file's timeline on the dashboard shows that version's
    bytes and the diff against its predecessor's bytes. *)
Theorem quiet_views_correct `{!HexDigests, !CollisionFree} w p now e :
  quiet_reachable w → e ∈ build (files (wdisk w)) (db (wdisk w)) p →
  update_views (objects (wdisk w)) (files (wdisk w)) p (Some (tl_key (render now e)))
  = Some (Ok (entry_view (objects (wdisk w)) (files (wdisk w)) p e)).
Proof.
  intros Hq He. destruct (quiet_integ w Hq) as (Hwf & _ & _).
  destruct (reachable_sys_inv w (quiet_reachable_reachable w Hq)) as (Hr & _).
  apply (update_views_entry _ _ (db (wdisk w))); [done| |done].
  intros r Hin _. by apply Hr.
Qed.

(** C36. The daemon's duplicate check races with the dashboard: the user
    writes [c] once to a watched file and the daemon compares its digest
    with the (absent) latest commit; the dashboard's snapshot then stores
    and records it, and the daemon copies it.  In the world reached, the
    daemon's [INSERT] is pending although the file's latest commit already
    has that digest (its check is stale), and the insert records a second
    commit of the same digest for one change.  A daemon whose check and
    insert were one step never reaches such a world. *)
Theorem dedup_check_race `{!HexDigests} p c (t1 t2 : isotime) :
  ∃ w, reachable w ∧ dmn w ≠ None ∧ daemon_op w = Copied p (hexdigest c) ∧
    rows (db (wdisk w)) = [mk_commit 1 p (hexdigest c) None t1 Auto] ∧
    select_last_hash p (db (wdisk w)) = Some (hexdigest c) ∧
    sys_step w (daemon_inserted w p (hexdigest c) t2) ∧
    rows (db (wdisk (daemon_inserted w p (hexdigest c) t2)))
    = [mk_commit 1 p (hexdigest c) None t1 Auto; mk_commit 2 p (hexdigest c) None t2 Auto].
Proof.
  set (h := hexdigest c).
  set (w1 := set_files world_init (<[p := c]> ∅)).
  assert (reachable w1) as R1 by (eapply reach_step; [apply reach_init|apply step_write]).
  assert (Hfile : ∀ w, files (wdisk w) = <[p := c]> ∅ → get_file_hash (files (wdisk w)) p = Some h).
  { intros w ->. apply get_file_hash_Some. exists c. by rewrite lookup_insert_eq. }
  assert (watch p (files (wdisk w1)) (wlf w1) = Ok (Some (save_watchlist ({[p]} ∪ ∅)), MsgWatchAdded))
    as Hw by (unfold watch; simpl; rewrite lookup_insert_eq; simpl; by rewrite decide_True by set_solver).
  set (w2 := mk_world (wdisk w1) (Some (save_watchlist ({[p]} ∪ ∅))) (dmn w1) (dash_op w1) (daemon_op w1)).
  assert (reachable w2) as R2 by (eapply reach_step; [exact R1|exact (step_watch _ _ _ _ Hw)]).
  assert (∃ dm logs, run_daemon_start (wlf w2) (λ _, true) = Ok (wlf w2, dm, logs) ∧
            p ∈ watchlist_files dm ∧ parent_dir p ∈ watch_dirs dm) as (dm & logs & Hst & Hp & Hd).
  { eexists _, _. unfold run_daemon_start. cbn [wlf w2]. rewrite get_save_watchlist. simpl.
    split_and!; [reflexivity|set_solver|]. apply elem_of_filter. split; [done|set_solver]. }
  set (w3 := mk_world (wdisk w2) (wlf w2) (Some dm) (dash_op w2) Idle).
  assert (reachable w3) as R3 by (eapply reach_step; [exact R2|exact (step_daemon_start w2 _ _ _ _ eq_refl Hst)]).
  assert (reachable (set_daemon_op w3 (Hashed p h))) as R4.
  { eapply reach_step; [exact R3|]. apply (step_daemon_hash _ dm); try done.
    - by apply Hfile.
    - apply hexdigest_nonempty. }
  set (w4 := set_daemon_op w3 (Hashed p h)).
  assert (reachable (set_dash_op w4 (Hashed p h))) as R5.
  { eapply reach_step; [exact R4|]. apply step_dash_hash; [done|by apply Hfile|apply hexdigest_nonempty]. }
  set (w5 := set_dash_op w4 (Hashed p h)).
  assert (Hcp : ∀ w, files (wdisk w) = <[p := c]> ∅ →
            copy_to_objects (files (wdisk w)) p h (objects (wdisk w)) = Ok (<[h := c]> (objects (wdisk w)))).
  { intros w ->. apply copy_to_objects_present. by rewrite lookup_insert_eq. }
  assert (reachable (set_dash_op (set_objects w5 (<[h := c]> (objects (wdisk w5)))) (Copied p h))) as R6
    by (eapply reach_step; [exact R5|apply step_dash_copy; [done|by apply Hcp]]).
  set (w6 := set_dash_op (set_objects w5 (<[h := c]> (objects (wdisk w5)))) (Copied p h)).
  assert (reachable (set_dash_op (set_db w6 (insert_commit p h t1 Auto (db (wdisk w6))).1) Idle)) as R7
    by (eapply reach_step; [exact R6|by apply step_dash_insert]).
  set (w7 := set_dash_op (set_db w6 (insert_commit p h t1 Auto (db (wdisk w6))).1) Idle).
  assert (reachable (set_daemon_op (set_objects w7 (<[h := c]> (objects (wdisk w7)))) (Copied p h))) as R8
    by (eapply reach_step; [exact R7|apply step_daemon_copy; [done|by apply Hcp]]).
  set (w8 := set_daemon_op (set_objects w7 (<[h := c]> (objects (wdisk w7)))) (Copied p h)).
  exists w8. split_and!; [exact R8|by simpl|done|reflexivity| |by apply step_daemon_insert|reflexivity].
  apply last_hash_insert_same. intros r Hr. by apply not_elem_of_nil in Hr.
Qed.

(** C39. The watch-list file has the type the program gives it: in every
    reachable world it is absent or a JSON array of strings, since [watch],
    [unwatch] and the daemon's start-up only ever write such an array;
    hence reading it never raises the [TypeError] of C17, which needs a
    file edited by hand. *)
Theorem watchlist_file_typed w :
  reachable w → wl_is_array (wlf w) ∧ ∃ wl, get_watchlist (wlf w) = Ok wl.
Proof.
  intros Hr. assert (wl_is_array (wlf w)) as Ha; [|split; [done|by apply wl_is_array_read]].
  induction Hr as [|w w' _ IH Hs]; [done|].
  destruct Hs; simpl; try done; eauto using watch_is_array, unwatch_is_array, run_daemon_start_is_array.
Qed.

End SystemProperties.

(** ** Witnesses *)

(** The editor writes ["a"] to the file, then the dashboard snapshots it. *)
Definition demo_path : path := "/home/u/notes.txt".
Definition demo_hash : digest := @hexdigest hex_hasher "a".
Definition demo_w1 : world := set_files world_init (<[demo_path := "a"]> ∅).
Definition demo_w2 : world := set_dash_op demo_w1 (Hashed demo_path demo_hash).
Definition demo_w3 : world :=
  set_dash_op (set_objects demo_w2 (<[demo_hash := "a"]> ∅)) (Copied demo_path demo_hash).
Definition demo_w4 : world :=
  set_dash_op (set_db demo_w3 (insert_commit demo_path demo_hash "2025-01-01T10:00:00" Auto
                                  (db (wdisk demo_w3))).1) Idle.

Lemma demo_w4_quiet : @quiet_reachable hex_hasher demo_w4.
Proof.
  eapply qreach_step; [|apply step_dash_insert; reflexivity|intros ?? [[=]|[=]]].
  eapply qreach_step; [|apply step_dash_copy; reflexivity|intros ?? _; reflexivity].
  eapply qreach_step; [|apply step_dash_hash; reflexivity|intros ?? [[=]|[=]]].
  eapply qreach_step; [apply qreach_init|apply step_write|intros ?? [[=]|[=]]].
Qed.

(** A daemon started on the same file, which then changes to ["b"]. *)
Definition demo_daemon : daemon := mk_daemon {[demo_path]} {["/home/u"]}.
Definition demo_w5 : world :=
  mk_world (mk_disk (<[demo_path := "b"]> (files (wdisk demo_w4))) (objects (wdisk demo_w4))
              (db (wdisk demo_w4)))
    (Some (WLStrings [demo_path])) (Some demo_daemon) Idle Idle.

Lemma reachable_refs_ok_witness :
  @refs_ok (wdisk demo_w4) ∧ index_wf (db (wdisk demo_w4)).
Proof. exact (@reachable_refs_ok hex_hasher demo_w4 (quiet_reachable_reachable _ demo_w4_quiet)). Defined.

Lemma snapshot_write_race_witness :
  ∃ w, @reachable hex_hasher w ∧ objects (wdisk w) !! demo_hash = Some "b" ∧
       ¬ @objects_wf hex_hasher (objects (wdisk w)).
Proof.
  destruct (@snapshot_write_race hex_hasher _ _ demo_path "a" "b" "t" ltac:(discriminate))
    as (w & H1 & H2 & H3 & _).
  exists w. split_and!; [exact H1|exact H2|exact H3].
Defined.

Lemma quiet_disk_wf_witness : @disk_wf hex_hasher (wdisk demo_w4).
Proof. exact (@quiet_disk_wf hex_hasher demo_w4 demo_w4_quiet). Defined.

Lemma daemon_handle_refines_witness :
  rtc (@sys_step hex_hasher) demo_w5
    (mk_world (@daemon_handle demo_daemon (mk_fs_event demo_path false) "2025-01-01T10:00:05"
                 (wdisk demo_w5) hex_hasher).1
       (wlf demo_w5) (dmn demo_w5) Idle Idle).
Proof. exact (@daemon_handle_refines hex_hasher demo_w5 demo_daemon _ _ eq_refl eq_refl). Defined.

(** The dashboard then promotes the commit with a message. *)
Definition demo_row : commit := mk_commit 1 demo_path demo_hash None "2025-01-01T10:00:00" Auto.
Definition demo_w6 : world := set_db demo_w4 (update_manual "first draft" 1 (db (wdisk demo_w4))).

Lemma demo_w6_reachable : @reachable hex_hasher demo_w6.
Proof.
  eapply reach_step; [exact (quiet_reachable_reachable _ demo_w4_quiet)|].
  eapply (step_commit_message _ (Some (tl_key (commit_row demo_row None))) (Some "first draft"));
    [reflexivity|vm_compute; reflexivity].
Qed.

Lemma manual_stays_manual_witness :
  ctype (set_manual "first draft" demo_row) = Manual.
Proof.
  exact (@manual_stays_manual hex_hasher demo_w6
           (set_files demo_w6 (<[demo_path := "c"]> (files (wdisk demo_w6))))
           (set_manual "first draft" demo_row)
           demo_w6_reachable ltac:(vm_compute; constructor) eq_refl
           (rtc_once _ _ (step_write _ _ _))
           (set_manual "first draft" demo_row) ltac:(vm_compute; constructor) eq_refl).
Defined.

Lemma daemon_no_reload_witness :
  let w' := mk_world (wdisk demo_w5) (Some (save_watchlist ({[demo_path]} ∖ {[demo_path]}))) (dmn demo_w5)
              (dash_op demo_w5) (daemon_op demo_w5) in
  get_watchlist (wlf w') = Ok ∅ ∧
  @sys_step hex_hasher w' (set_daemon_op w' (Hashed demo_path (@hexdigest hex_hasher "b"))).
Proof.
  intros w'. assert (Hp : rtc (@daemon_alive_step hex_hasher) demo_w5 w').
  { apply rtc_once. split; [|discriminate]. apply (step_unwatch _ demo_path _ MsgUnwatched).
    vm_compute. reflexivity. }
  split; [vm_compute; reflexivity|].
  exact (@daemon_no_reload hex_hasher demo_w5 w' demo_daemon demo_path _ eq_refl
           ltac:(vm_compute; set_solver) ltac:(vm_compute; set_solver) Hp eq_refl
           ltac:(vm_compute; reflexivity) eq_refl ltac:(vm_compute; discriminate)).
Defined.

Lemma quiet_views_correct_witness :
  update_views (objects (wdisk demo_w4)) (files (wdisk demo_w4)) demo_path
    (Some (tl_key (render "t" (Committed demo_row None))))
  = Some (Ok (Some "a", DiffNoPrevious)).
Proof.
  rewrite (@quiet_views_correct hex_hasher _ _ demo_w4 demo_path "t" (Committed demo_row None)
             demo_w4_quiet ltac:(vm_compute; constructor)).
  reflexivity.
Defined.

Lemma race_restore_wrong_bytes_witness :
  ∃ w c, @reachable hex_hasher w ∧ Committed c None ∈ @build hex_hasher (files (wdisk w)) (db (wdisk w)) demo_path ∧
    object_hash c = demo_hash ∧
    ∃ fs' n, action_restore_selected (Some (tl_key (render "t2" (Committed c None)))) demo_path
               (objects (wdisk w)) (files (wdisk w)) = Ok (fs', n) ∧
             fs' !! demo_path = Some "b" ∧ @get_file_hash hex_hasher fs' demo_path ≠ Some (object_hash c).
Proof. exact (@race_restore_wrong_bytes hex_hasher _ _ demo_path "a" "b" "t" "t2" ltac:(discriminate)). Defined.

Lemma dedup_check_race_witness :
  ∃ w, @reachable hex_hasher w ∧ dmn w ≠ None ∧ daemon_op w = Copied demo_path demo_hash ∧
    rows (db (wdisk w)) = [mk_commit 1 demo_path demo_hash None "t1" Auto] ∧
    select_last_hash demo_path (db (wdisk w)) = Some demo_hash ∧
    @sys_step hex_hasher w (daemon_inserted w demo_path demo_hash "t2") ∧
    rows (db (wdisk (daemon_inserted w demo_path demo_hash "t2")))
    = [mk_commit 1 demo_path demo_hash None "t1" Auto; mk_commit 2 demo_path demo_hash None "t2" Auto].
Proof. exact (@dedup_check_race hex_hasher _ demo_path "a" "t1" "t2"). Defined.

Lemma watchlist_file_typed_witness : ∃ wl, get_watchlist (wlf demo_w4) = Ok wl.
Proof. exact (proj2 (@watchlist_file_typed hex_hasher demo_w4 (quiet_reachable_reachable _ demo_w4_quiet))). Defined.
